(** * boltme: the settings hook [useSettings] and the cookie loading of [BaseChat]

    A shallow embedding of [app/lib/hooks/useSettings.tsx] and of the cookie
    loading code of [app/components/chat/BaseChat.tsx].

    The hook moves values between nanostores (module level stores), the
    browser's cookie jar and React state.  Its effects are embedded as
    programs of a state-and-exception monad over one record [State] that
    holds the stores, the cookie jar, the console and the network requests
    issued so far.  JavaScript values are embedded as an inductive type with
    the object operations the code uses: property read (own properties
    first, then [Object.prototype]), spread, computed keys, [Object.keys],
    [Object.entries], truthiness and [??].

    What the two files import without defining it is a parameter, gathered
    in the class [Host]: [JSON.parse], [JSON.stringify], [fetch], the
    constant [LOCAL_PROVIDERS] and the contents of [commit.json].  The
    module [Platform] gives an instance to run the code on.

    The render of a React component reads the stores, and the callbacks and
    effects it creates see what that render read: the functions below that
    take an argument [providers] take the registry of the render, and write
    to the registry of the store. *)

From Stdlib Require Import ZArith String Ascii List Bool DecimalString.
From stdpp Require Import base option list strings gmap fin_maps.

Set Warnings "-register-all".
Open Scope string_scope.
Open Scope list_scope.

(** ** JavaScript values *)

Module JS.

(** The values the hook handles: what [JSON.parse] returns, [undefined], and
    [VNative] for the built-in functions and objects that a property read
    finds on [Object.prototype].  Numbers are restricted to integers: the
    code never computes with a number.  An object is the list of its own
    enumerable properties, in the order [Object.keys] enumerates them. *)
Inductive value : Type :=
| VUndefined
| VNull
| VBool (b : bool)
| VNum (n : Z)
| VStr (s : string)
| VArr (items : list value)
| VObj (props : list (string * value))
| VNative.

Definition obj : Type := list (string * value).

(** Exceptions the embedded code can raise. *)
Inductive error : Type :=
| TypeError      (* property read on undefined or null, Object.keys(null) *)
| SyntaxError    (* JSON.parse, Response.json *)
| NetworkError.  (* fetch rejected *)

(** Result of evaluating an expression: a value or a thrown exception. *)
Inductive completion (A : Type) : Type :=
| Normal (a : A)
| Throw (e : error).
Arguments Normal {A} a.
Arguments Throw {A} e.

(** [ToString] of an array index. *)
Definition index_key (i : nat) : string :=
  NilZero.string_of_uint (Nat.to_uint i).

(** An array index is a canonical numeric string below 2^32 - 1; such keys are
    enumerated first, in ascending order, by every own-property traversal. *)
Definition array_index (k : string) : option N :=
  match NilZero.uint_of_string k with
  | Some u =>
      let n := N.of_uint u in
      if String.eqb (NilZero.string_of_uint (N.to_uint n)) k && (n <? 4294967295)%N
      then Some n else None
  | None => None
  end.

(** Own property lookup. *)
Fixpoint own_get (o : obj) (k : string) : option value :=
  match o with
  | [] => None
  | (k', v) :: o' => if String.eqb k' k then Some v else own_get o' k
  end.

Definition has_own (o : obj) (k : string) : bool :=
  match own_get o k with Some _ => true | None => false end.

(** Overwrite the value of an existing property; its position is kept. *)
Fixpoint obj_replace (k : string) (v : value) (o : obj) : obj :=
  match o with
  | [] => []
  | (k', v') :: o' =>
      if String.eqb k' k then (k, v) :: o' else (k', v') :: obj_replace k v o'
  end.

(** Place a new array-index key among the leading index keys. *)
Fixpoint obj_insert_index (n : N) (k : string) (v : value) (o : obj) : obj :=
  match o with
  | [] => [(k, v)]
  | (k', v') :: o' =>
      match array_index k' with
      | Some m =>
          if (m <? n)%N then (k', v') :: obj_insert_index n k v o'
          else (k, v) :: o
      | None => (k, v) :: o
      end
  end.

(** [o[k] = v] on a fresh copy, as in [{ ...o, [k]: v }]: an existing key
    keeps its place, a new array index goes among the indices, any other new
    key goes last. *)
Definition obj_set (k : string) (v : value) (o : obj) : obj :=
  if has_own o k then obj_replace k v o
  else match array_index k with
       | Some n => obj_insert_index n k v o
       | None => o ++ [(k, v)]
       end.

Definition indexed (l : list value) : obj :=
  imap (fun i v => (index_key i, v)) l.

Definition chars (s : string) : list value :=
  map (fun c => VStr (String c EmptyString)) (list_ascii_of_string s).

(** The own enumerable properties of a value.  Arrays and strings expose
    their elements under index keys ([length] is not enumerable). *)
Definition own_props (v : value) : obj :=
  match v with
  | VObj o => o
  | VArr l => indexed l
  | VStr s => indexed (chars s)
  | _ => []
  end.

(** Property names every object inherits from [Object.prototype]. *)
Definition Object_prototype : list string :=
  [ "constructor"; "hasOwnProperty"; "isPrototypeOf"; "propertyIsEnumerable";
    "toLocaleString"; "toString"; "valueOf"; "__proto__";
    "__defineGetter__"; "__defineSetter__"; "__lookupGetter__";
    "__lookupSetter__" ].

Definition inherited (k : string) : bool :=
  existsb (String.eqb k) Object_prototype.

(** [v === undefined || v === null]. *)
Definition nullish (v : value) : bool :=
  match v with
  | VUndefined | VNull => true
  | _ => false
  end.

(** What a property read finds on the prototype chain when the name is not
    an own property: the names of [Object.prototype] yield a built-in, every
    other name yields [undefined].  (The members of the more specific
    prototypes of arrays, strings and functions are not embedded, apart from
    [length]: the hook reads no such member.) *)
Definition inherited_member (v : value) (k : string) : value :=
  match v with
  | VArr l =>
      if String.eqb k "length" then VNum (Z.of_nat (length l))
      else if inherited k then VNative else VUndefined
  | VStr s =>
      if String.eqb k "length" then VNum (Z.of_nat (String.length s))
      else if inherited k then VNative else VUndefined
  | _ => if inherited k then VNative else VUndefined
  end.

(** Property read [v[k]] (and [v.k]).  Reading off [undefined] or [null]
    throws. *)
Definition get (v : value) (k : string) : completion value :=
  if nullish v then Throw TypeError
  else Normal (match own_get (own_props v) k with
               | Some x => x
               | None => inherited_member v k
               end).

(** [Object.keys(v)]. *)
Definition keys (v : value) : completion (list string) :=
  if nullish v then Throw TypeError else Normal (map fst (own_props v)).

(** [Object.entries(o)] of an object: each own key with the value read
    under it. *)
Definition entries (o : obj) : list (string * value) :=
  map (fun k => (k, default VUndefined (own_get o k))) (map fst o).

(** Object spread [{ ...dst, ...src }] onto the properties accumulated so
    far: every own key of [src], in order, is read and defined on the
    target.  Spreading [undefined], [null], a number, a boolean or a
    built-in copies nothing. *)
Definition spread (src : value) (dst : obj) : obj :=
  fold_left
    (fun acc k =>
       match own_get (own_props src) k with
       | Some x => obj_set k x acc
       | None => acc
       end)
    (map fst (own_props src)) dst.

(** [ToBoolean]. *)
Definition truthy (v : value) : bool :=
  match v with
  | VUndefined | VNull => false
  | VBool b => b
  | VNum n => negb (n =? 0)%Z
  | VStr s => negb (String.eqb s "")
  | VArr _ | VObj _ | VNative => true
  end.

(** [a ?? b]. *)
Definition nullish_or (a b : value) : value :=
  if nullish a then b else a.

(** [s === v] for a string [s]. *)
Definition str_strict_eq (s : string) (v : value) : bool :=
  match v with
  | VStr s' => String.eqb s s'
  | _ => false
  end.

(** [l.includes(v)] for an array of strings [l]. *)
Definition includes (l : list string) (v : value) : bool :=
  existsb (fun s => str_strict_eq s v) l.

(** [typeof v === 'object' && v !== null]. *)
Definition is_object (v : value) : bool :=
  match v with
  | VObj _ | VArr _ => true
  | _ => false
  end.

(** [String(b)] for a boolean. *)
Definition String_of_bool (b : bool) : string :=
  if b then "true" else "false".

(** Truthiness of what [Cookies.get] returns ([undefined] or a string). *)
Definition truthy_str (c : option string) : bool :=
  match c with
  | Some s => negb (String.eqb s "")
  | None => false
  end.

End JS.

Import JS.

(** ** The environment of the hook *)

(** [~/commit.json]: the identity of the running build. *)
Record CommitData : Type := {
  commit : string;
  version : option string
}.

(** How a [fetch] settles: the promise rejects, or it resolves to a response
    with its [ok] flag and the text of its body. *)
Inductive FetchOutcome : Type :=
| FetchRejects
| FetchResponse (ok : bool) (body : string).

(** What the hook imports and does not define: the JSON functions of the
    platform ([None] stands for a thrown [SyntaxError]), the network, the
    constant [LOCAL_PROVIDERS] of [~/lib/stores/settings] and the contents of
    [~/commit.json]. *)
Class Host : Type := {
  JSON_parse : string -> option value;
  JSON_stringify : value -> string;
  fetch : string -> FetchOutcome;
  LOCAL_PROVIDERS : list string;
  commitJson : CommitData
}.

Inductive console_entry : Type :=
| ConsoleWarn (msg : string) (err : option error)
| ConsoleError (msg : string) (err : option error).

(** The state the code reads and writes: the nanostores of
    [~/lib/stores/settings], the log store, the cookie jar, the console, the
    requests sent and those still in flight, and the React state of the two
    components. *)
Record State : Type := {
  providersStore : obj;
  isDebugMode : bool;
  isEventLogsEnabled : bool;
  isLocalModelsEnabled : bool;
  promptStore : string;
  latestBranchStore : bool;
  logStore : list string;
  cookies : gmap string string;
  console : list console_entry;
  requests : list string;
  inflight : list string;
  activeProviders : list value;
  apiKeys : value;
  modelListCalls : list value
}.

Definition with_providersStore (x : obj) (s : State) : State :=
  {| providersStore := x; isDebugMode := isDebugMode s;
     isEventLogsEnabled := isEventLogsEnabled s;
     isLocalModelsEnabled := isLocalModelsEnabled s;
     promptStore := promptStore s; latestBranchStore := latestBranchStore s;
     logStore := logStore s; cookies := cookies s; console := console s;
     requests := requests s; inflight := inflight s;
     activeProviders := activeProviders s; apiKeys := apiKeys s;
     modelListCalls := modelListCalls s |}.

Definition with_isDebugMode (x : bool) (s : State) : State :=
  {| providersStore := providersStore s; isDebugMode := x;
     isEventLogsEnabled := isEventLogsEnabled s;
     isLocalModelsEnabled := isLocalModelsEnabled s;
     promptStore := promptStore s; latestBranchStore := latestBranchStore s;
     logStore := logStore s; cookies := cookies s; console := console s;
     requests := requests s; inflight := inflight s;
     activeProviders := activeProviders s; apiKeys := apiKeys s;
     modelListCalls := modelListCalls s |}.

Definition with_isEventLogsEnabled (x : bool) (s : State) : State :=
  {| providersStore := providersStore s; isDebugMode := isDebugMode s;
     isEventLogsEnabled := x;
     isLocalModelsEnabled := isLocalModelsEnabled s;
     promptStore := promptStore s; latestBranchStore := latestBranchStore s;
     logStore := logStore s; cookies := cookies s; console := console s;
     requests := requests s; inflight := inflight s;
     activeProviders := activeProviders s; apiKeys := apiKeys s;
     modelListCalls := modelListCalls s |}.

Definition with_isLocalModelsEnabled (x : bool) (s : State) : State :=
  {| providersStore := providersStore s; isDebugMode := isDebugMode s;
     isEventLogsEnabled := isEventLogsEnabled s;
     isLocalModelsEnabled := x;
     promptStore := promptStore s; latestBranchStore := latestBranchStore s;
     logStore := logStore s; cookies := cookies s; console := console s;
     requests := requests s; inflight := inflight s;
     activeProviders := activeProviders s; apiKeys := apiKeys s;
     modelListCalls := modelListCalls s |}.

Definition with_promptStore (x : string) (s : State) : State :=
  {| providersStore := providersStore s; isDebugMode := isDebugMode s;
     isEventLogsEnabled := isEventLogsEnabled s;
     isLocalModelsEnabled := isLocalModelsEnabled s;
     promptStore := x; latestBranchStore := latestBranchStore s;
     logStore := logStore s; cookies := cookies s; console := console s;
     requests := requests s; inflight := inflight s;
     activeProviders := activeProviders s; apiKeys := apiKeys s;
     modelListCalls := modelListCalls s |}.

Definition with_latestBranchStore (x : bool) (s : State) : State :=
  {| providersStore := providersStore s; isDebugMode := isDebugMode s;
     isEventLogsEnabled := isEventLogsEnabled s;
     isLocalModelsEnabled := isLocalModelsEnabled s;
     promptStore := promptStore s; latestBranchStore := x;
     logStore := logStore s; cookies := cookies s; console := console s;
     requests := requests s; inflight := inflight s;
     activeProviders := activeProviders s; apiKeys := apiKeys s;
     modelListCalls := modelListCalls s |}.

Definition with_logStore (x : list string) (s : State) : State :=
  {| providersStore := providersStore s; isDebugMode := isDebugMode s;
     isEventLogsEnabled := isEventLogsEnabled s;
     isLocalModelsEnabled := isLocalModelsEnabled s;
     promptStore := promptStore s; latestBranchStore := latestBranchStore s;
     logStore := x; cookies := cookies s; console := console s;
     requests := requests s; inflight := inflight s;
     activeProviders := activeProviders s; apiKeys := apiKeys s;
     modelListCalls := modelListCalls s |}.

Definition with_cookies (x : gmap string string) (s : State) : State :=
  {| providersStore := providersStore s; isDebugMode := isDebugMode s;
     isEventLogsEnabled := isEventLogsEnabled s;
     isLocalModelsEnabled := isLocalModelsEnabled s;
     promptStore := promptStore s; latestBranchStore := latestBranchStore s;
     logStore := logStore s; cookies := x; console := console s;
     requests := requests s; inflight := inflight s;
     activeProviders := activeProviders s; apiKeys := apiKeys s;
     modelListCalls := modelListCalls s |}.

Definition with_console (x : list console_entry) (s : State) : State :=
  {| providersStore := providersStore s; isDebugMode := isDebugMode s;
     isEventLogsEnabled := isEventLogsEnabled s;
     isLocalModelsEnabled := isLocalModelsEnabled s;
     promptStore := promptStore s; latestBranchStore := latestBranchStore s;
     logStore := logStore s; cookies := cookies s; console := x;
     requests := requests s; inflight := inflight s;
     activeProviders := activeProviders s; apiKeys := apiKeys s;
     modelListCalls := modelListCalls s |}.

Definition with_network (sent waiting : list string) (s : State) : State :=
  {| providersStore := providersStore s; isDebugMode := isDebugMode s;
     isEventLogsEnabled := isEventLogsEnabled s;
     isLocalModelsEnabled := isLocalModelsEnabled s;
     promptStore := promptStore s; latestBranchStore := latestBranchStore s;
     logStore := logStore s; cookies := cookies s; console := console s;
     requests := sent; inflight := waiting;
     activeProviders := activeProviders s; apiKeys := apiKeys s;
     modelListCalls := modelListCalls s |}.

Definition with_activeProviders (x : list value) (s : State) : State :=
  {| providersStore := providersStore s; isDebugMode := isDebugMode s;
     isEventLogsEnabled := isEventLogsEnabled s;
     isLocalModelsEnabled := isLocalModelsEnabled s;
     promptStore := promptStore s; latestBranchStore := latestBranchStore s;
     logStore := logStore s; cookies := cookies s; console := console s;
     requests := requests s; inflight := inflight s;
     activeProviders := x; apiKeys := apiKeys s;
     modelListCalls := modelListCalls s |}.

Definition with_apiKeys (x : value) (s : State) : State :=
  {| providersStore := providersStore s; isDebugMode := isDebugMode s;
     isEventLogsEnabled := isEventLogsEnabled s;
     isLocalModelsEnabled := isLocalModelsEnabled s;
     promptStore := promptStore s; latestBranchStore := latestBranchStore s;
     logStore := logStore s; cookies := cookies s; console := console s;
     requests := requests s; inflight := inflight s;
     activeProviders := activeProviders s; apiKeys := x;
     modelListCalls := modelListCalls s |}.

Definition with_modelListCalls (x : list value) (s : State) : State :=
  {| providersStore := providersStore s; isDebugMode := isDebugMode s;
     isEventLogsEnabled := isEventLogsEnabled s;
     isLocalModelsEnabled := isLocalModelsEnabled s;
     promptStore := promptStore s; latestBranchStore := latestBranchStore s;
     logStore := logStore s; cookies := cookies s; console := console s;
     requests := requests s; inflight := inflight s;
     activeProviders := activeProviders s; apiKeys := apiKeys s;
     modelListCalls := x |}.

(** ** The monad of effects: state passing with exceptions

    A program returns its completion together with the state it leaves
    behind; what was written before an exception stays written. *)

Definition M (A : Type) : Type := State -> completion A * State.

#[global] Instance M_ret : MRet M := fun A a s => (Normal a, s).

#[global] Instance M_bind : MBind M := fun A B f m s =>
  match m s with
  | (Normal a, s') => f a s'
  | (Throw e, s') => (Throw e, s')
  end.

Definition throw {A : Type} (e : error) : M A := fun s => (Throw e, s).

(** An expression that touches no state. *)
Definition lift {A : Type} (c : completion A) : M A := fun s => (c, s).

(** [try { body } catch (e) { handler(e) }]. *)
Definition try_catch {A : Type} (body : M A) (handler : error -> M A) : M A :=
  fun s =>
    match body s with
    | (Normal a, s') => (Normal a, s')
    | (Throw e, s') => handler e s'
    end.

Definition modify (f : State -> State) : M unit := fun s => (Normal tt, f s).

Definition gets {A : Type} (f : State -> A) : M A := fun s => (Normal (f s), s).

(** [l.forEach(f)]. *)
Fixpoint forEach {A : Type} (f : A -> M unit) (l : list A) : M unit :=
  match l with
  | [] => mret tt
  | x :: l' => f x ;; forEach f l'
  end.

(** [l.filter(p)] for a predicate that can throw. *)
Fixpoint filterC {A : Type} (p : A -> completion bool) (l : list A)
  : completion (list A) :=
  match l with
  | [] => Normal []
  | x :: l' =>
      match p x with
      | Throw e => Throw e
      | Normal b =>
          match filterC p l' with
          | Throw e => Throw e
          | Normal r => Normal (if b then x :: r else r)
          end
      end
  end.

(** *** The browser and the stores *)

Definition Cookies_get (name : string) : M (option string) :=
  gets (fun s => cookies s !! name).

Definition Cookies_set (name v : string) : M unit :=
  modify (fun s => with_cookies (<[name := v]> (cookies s)) s).

Definition Cookies_remove (name : string) : M unit :=
  modify (fun s => with_cookies (delete name (cookies s)) s).

Definition console_warn (msg : string) (err : option error) : M unit :=
  modify (fun s => with_console (console s ++ [ConsoleWarn msg err]) s).

Definition console_error (msg : string) (err : option error) : M unit :=
  modify (fun s => with_console (console s ++ [ConsoleError msg err]) s).

Definition logSystem (msg : string) : M unit :=
  modify (fun s => with_logStore (logStore s ++ [msg]) s).

(** [providersStore.setKey(key, v)] of a nanostores map, for a value [v]
    that is a fresh object: the store's value becomes
    [{ ...value, [key]: v }]. *)
Definition providersStore_setKey (key : string) (v : value) : M unit :=
  modify (fun s => with_providersStore (obj_set key v (providersStore s)) s).

(** ** [useSettings] *)

Section UseSettings.
Context {host : Host}.

(** [JSON.parse(text)]. *)
Definition parse (text : string) : M value :=
  match JSON_parse text with
  | Some v => mret v
  | None => throw SyntaxError
  end.

(** The address of the tagged release's [commit.json]; a template literal
    prints a missing [version] as [undefined]. *)
Definition stableCommitUrl : string :=
  "https://raw.githubusercontent.com/stackblitz-labs/bolt.diy/refs/tags/v"
  +:+ default "undefined" (version commitJson) +:+ "/app/commit.json".

(** [checkIsStableVersion], up to its first [await]: the request is sent. *)
Definition checkIsStableVersion_call : M unit :=
  modify (fun s =>
    with_network (requests s ++ [stableCommitUrl])
                 (inflight s ++ [stableCommitUrl]) s).

(** [checkIsStableVersion], from the moment the [fetch] has settled with
    [r] to the value its promise resolves to. *)
Definition checkIsStableVersion_resume (r : FetchOutcome) : M bool :=
  try_catch
    (match r with
     | FetchRejects => throw NetworkError
     | FetchResponse ok body =>
         if negb ok then
           console_warn "Failed to fetch stable commit info" None ;;
           mret false
         else
           stableData ← parse body;
           stableCommit ← lift (get stableData "commit");
           mret (str_strict_eq (commit commitJson) stableCommit)
     end)
    (fun e =>
       console_warn "Error checking stable version:" (Some e) ;;
       mret false).

(** The callback given to [checkIsStableVersion().then]. *)
Definition latestBranch_then (isStable : bool) : M unit :=
  let shouldUseLatest := negb isStable in
  modify (with_latestBranchStore shouldUseLatest) ;;
  Cookies_set "isLatestBranch" (String_of_bool shouldUseLatest) ;;
  Cookies_set "commitHash" (commit commitJson).

(** The oldest request in flight settles: the rest of
    [checkIsStableVersion] runs, then the [then] callback. *)
Definition settle : M unit :=
  fun s =>
    match inflight s with
    | [] => (Normal tt, s)
    | url :: waiting =>
        (isStable ← checkIsStableVersion_resume (fetch url);
         latestBranch_then isStable)
          (with_network (requests s) waiting s)
    end.

(** The object literal of lines 63-69, for [currentProvider] and the
    persisted record [parsedProviders[provider]]:
    [{ ...currentProvider,
       settings: { ...persisted, enabled: persisted.enabled ?? true } }]. *)
Definition hydratedEntry (currentProvider persisted : value) : completion value :=
  match get persisted "enabled" with
  | Throw e => Throw e
  | Normal enabled =>
      Normal
        (VObj (obj_set "settings"
                 (VObj (obj_set "enabled" (nullish_or enabled (VBool true))
                          (spread persisted [])))
                 (spread currentProvider [])))
  end.

(** The body of the [forEach] over the persisted provider names;
    [providers] is the registry as the hook read it at render. *)
Definition hydrateProvider (providers parsedProviders : value)
    (provider : string) : M unit :=
  currentProvider ← lift (get providers provider);
  persisted ← lift (get parsedProviders provider);
  entry ← lift (hydratedEntry currentProvider persisted);
  providersStore_setKey provider entry.

(** Lines 56-74: the providers cookie. *)
Definition hydrateProviders (providers : value) : M unit :=
  savedProviders ← Cookies_get "providers";
  if truthy_str savedProviders then
    try_catch
      (parsedProviders ← parse (default "" savedProviders);
       names ← lift (keys parsedProviders);
       forEach (hydrateProvider providers parsedProviders) names)
      (fun e =>
         console_error "Failed to parse providers from cookies:" (Some e))
  else mret tt.

(** A boolean preference is loaded when its cookie is set and not empty. *)
Definition hydrateFlag (name : string) (set : bool -> State -> State) : M unit :=
  saved ← Cookies_get name;
  if truthy_str saved then modify (set (String.eqb (default "" saved) "true"))
  else mret tt.

Definition hydratePromptId : M unit :=
  promptId ← Cookies_get "promptId";
  if truthy_str promptId then modify (with_promptStore (default "" promptId))
  else mret tt.

(** Lines 104-121: the latest-branch preference. *)
Definition hydrateLatestBranch : M unit :=
  savedLatestBranch ← Cookies_get "isLatestBranch";
  commitHash ← Cookies_get "commitHash";
  let checkCommit := default (commit commitJson) commitHash in
  match savedLatestBranch with
  | Some saved =>
      if negb (String.eqb checkCommit (commit commitJson)) then
        checkIsStableVersion_call
      else modify (with_latestBranchStore (String.eqb saved "true"))
  | None => checkIsStableVersion_call
  end.

(** The first effect: reading values from cookies on mount. *)
Definition hydrate (providers : value) : M unit :=
  hydrateProviders providers ;;
  hydrateFlag "isDebugEnabled" with_isDebugMode ;;
  hydrateFlag "isEventLogsEnabled" with_isEventLogsEnabled ;;
  hydrateFlag "isLocalModelsEnabled" with_isLocalModelsEnabled ;;
  hydratePromptId ;;
  hydrateLatestBranch.

(** [providerSetting[provider] = providers[provider].settings]; an
    assignment to [__proto__] creates no own property. *)
Definition collectSettings (providers : value) (acc : completion obj)
    (provider : string) : completion obj :=
  match acc with
  | Throw e => Throw e
  | Normal providerSetting =>
      match get providers provider with
      | Throw e => Throw e
      | Normal entry =>
          match get entry "settings" with
          | Throw e => Throw e
          | Normal settings =>
              if String.eqb provider "__proto__" then Normal providerSetting
              else Normal (obj_set provider settings providerSetting)
          end
      end
  end.

(** The second effect: writing the settings of every provider to the
    cookie, on mount and whenever the registry changes. *)
Definition persistProviders : M unit :=
  providers ← gets providersStore;
  providerSetting ←
    lift (fold_left (collectSettings (VObj providers)) (map fst providers)
            (Normal []));
  Cookies_set "providers" (JSON_stringify (VObj providerSetting)).

(** [provider.settings.enabled], as a condition. *)
Definition isEnabled (entry : string * value) : completion bool :=
  match get (snd entry) "settings" with
  | Throw e => Throw e
  | Normal settings =>
      match get settings "enabled" with
      | Throw e => Throw e
      | Normal enabled => Normal (truthy enabled)
      end
  end.

(** [!LOCAL_PROVIDERS.includes(p.name)]. *)
Definition notLocal (p : value) : completion bool :=
  match get p "name" with
  | Throw e => Throw e
  | Normal name => Normal (negb (includes LOCAL_PROVIDERS name))
  end.

(** The list computed by the third effect. *)
Definition computeActive (providers : obj) (isLocalModel : bool)
  : completion (list value) :=
  match filterC isEnabled (entries providers) with
  | Throw e => Throw e
  | Normal enabled =>
      let active := map snd enabled in
      if negb isLocalModel then filterC notLocal active else Normal active
  end.

(** The third effect: [setActiveProviders(active)]. *)
Definition deriveActive (providers : obj) (isLocalModel : bool) : M unit :=
  active ← lift (computeActive providers isLocalModel);
  modify (with_activeProviders active).

(** What a render of the hook reads from the stores, and the effects run
    after the first render, in the order they are declared. *)
Definition mount : M unit :=
  providers ← gets providersStore;
  isLocalModel ← gets isLocalModelsEnabled;
  hydrate (VObj providers) ;;
  persistProviders ;;
  deriveActive providers isLocalModel.

(** [updateProviderSettings(provider, config)], with [providers] the
    registry of the render that created the callback. *)
Definition updateProviderSettings (providers : value) (provider : string)
    (config : value) : M unit :=
  entry ← lift (get providers provider);
  settings ← lift (get entry "settings");
  providersStore_setKey provider
    (VObj (obj_set "settings" (VObj (spread config (spread settings [])))
             (spread entry []))).

Definition enableDebugMode (enabled : bool) : M unit :=
  modify (with_isDebugMode enabled) ;;
  logSystem ("Debug mode " +:+ (if enabled then "enabled" else "disabled")) ;;
  Cookies_set "isDebugEnabled" (String_of_bool enabled).

Definition enableEventLogs (enabled : bool) : M unit :=
  modify (with_isEventLogsEnabled enabled) ;;
  logSystem ("Event logs " +:+ (if enabled then "enabled" else "disabled")) ;;
  Cookies_set "isEventLogsEnabled" (String_of_bool enabled).

Definition enableLocalModels (enabled : bool) : M unit :=
  modify (with_isLocalModelsEnabled enabled) ;;
  logSystem ("Local models " +:+ (if enabled then "enabled" else "disabled")) ;;
  Cookies_set "isLocalModelsEnabled" (String_of_bool enabled).

Definition setPromptId (promptId : string) : M unit :=
  modify (with_promptStore promptId) ;;
  Cookies_set "promptId" promptId.

Definition enableLatestBranch (enabled : bool) : M unit :=
  modify (with_latestBranchStore enabled) ;;
  logSystem ("Main branch updates " +:+ (if enabled then "enabled" else "disabled")) ;;
  Cookies_set "isLatestBranch" (String_of_bool enabled).

(** ** [BaseChat]: loading the cookies *)

(** The initializer of the [apiKeys] state (lines 96-109). *)
Definition initialApiKeys : M value :=
  savedKeys ← Cookies_get "apiKeys";
  if truthy_str savedKeys then
    try_catch (parse (default "" savedKeys))
      (fun e =>
         console_error "Failed to parse API keys from cookies:" (Some e) ;;
         mret (VObj []))
  else mret (VObj []).

(** Lines 121-137: the API keys. *)
Definition loadApiKeys : M unit :=
  try_catch
    (storedApiKeys ← Cookies_get "apiKeys";
     if truthy_str storedApiKeys then
       parsedKeys ← parse (default "" storedApiKeys);
       if is_object parsedKeys then modify (with_apiKeys parsedKeys)
       else mret tt
     else mret tt)
    (fun e =>
       console_error "Error loading API keys from cookies:" (Some e) ;;
       Cookies_remove "apiKeys").

(** Lines 139-156: the provider settings handed to [initializeModelList]. *)
Definition loadProviderSettings : M value :=
  try_catch
    (savedProviderSettings ← Cookies_get "providers";
     if truthy_str savedProviderSettings then
       parsedProviderSettings ← parse (default "" savedProviderSettings);
       if is_object parsedProviderSettings then mret parsedProviderSettings
       else mret VUndefined
     else mret VUndefined)
    (fun e =>
       console_error "Error loading Provider Settings from cookies:" (Some e) ;;
       Cookies_remove "providers" ;;
       mret VUndefined).

(** The cookie part of the mount effect of [BaseChat]. *)
Definition loadCookies : M unit :=
  loadApiKeys ;;
  providerSettings ← loadProviderSettings;
  modify (fun s => with_modelListCalls (modelListCalls s ++ [providerSettings]) s).

(** The [apiKey] handed to [APIKeyManager] (line 364):
    [apiKeys[provider.name] || '']. *)
Definition shownApiKey (renderedKeys : value) (providerName : string)
  : completion value :=
  match get renderedKeys providerName with
  | Throw e => Throw e
  | Normal v => Normal (if truthy v then v else VStr EmptyString)
  end.

(** Whether the render shows [APIKeyManager] (line 361):
    [(providerList || []).length > 0 && provider].  Both props are optional;
    the selected provider is given by its [name], the one field of it that
    this code reads. *)
Definition showsApiKeyManager (providerList : option (list value))
    (provider : option string) : bool :=
  match provider with
  | Some _ => (0 <? length (default [] providerList))%nat
  | None => false
  end.

(** What the render reads of the API keys (lines 361-364): the key it
    hands to [APIKeyManager], when it shows one. *)
Definition renderApiKey (providerList : option (list value))
    (provider : option string) (renderedKeys : value)
  : completion (option value) :=
  match provider with
  | Some providerName =>
      if (0 <? length (default [] providerList))%nat then
        match shownApiKey renderedKeys providerName with
        | Throw e => Throw e
        | Normal key => Normal (Some key)
        end
      else Normal None
  | None => Normal None
  end.

(** The mount of the component for the props [providerList] and
    [provider]: the initializer of the [apiKeys] state, the first render,
    then the mount effect, which runs only if the render did not throw. *)
Definition mountBaseChatWith (providerList : option (list value))
    (provider : option string) : M unit :=
  keys0 ← initialApiKeys;
  modify (with_apiKeys keys0) ;;
  lift (renderApiKey providerList provider keys0) ;;
  loadCookies.

(** The mount of the component when it is given neither a provider list nor
    a provider: the render then reads no API key. *)
Definition mountBaseChat : M unit := mountBaseChatWith None None.

End UseSettings.

(** ** [BaseChat]: the handlers of the API key and of the attachments *)

Section BaseChatHandlers.
Context {host : Host}.

(** The [setApiKey] handed to [APIKeyManager] (lines 365-369);
    [renderedKeys] is the [apiKeys] state as the render read it and
    [providerName] the [name] of the selected provider. *)
Definition setApiKey (renderedKeys : value) (providerName key : string) : M unit :=
  let newApiKeys := VObj (obj_set providerName (VStr key) (spread renderedKeys [])) in
  modify (with_apiKeys newApiKeys) ;;
  Cookies_set "apiKeys" (JSON_stringify newApiKeys).

End BaseChatHandlers.

(** [l.filter((_, i) => p(i))], for a callback that looks at the index
    only; [i] is the index of the head of [l]. *)
Fixpoint filter_index {A : Type} (p : nat -> bool) (i : nat) (l : list A) : list A :=
  match l with
  | [] => []
  | x :: l' =>
      if p i then x :: filter_index p (S i) l' else filter_index p (S i) l'
  end.

(** [l.filter((_, i) => i !== index)]. *)
Definition removeAt {A : Type} (index : Z) (l : list A) : list A :=
  filter_index (fun i => negb (Z.of_nat i =? index)%Z) 0 l.

(** The [onRemove] handed to [FilePreview] (lines 377-380): what it passes
    to [setUploadedFiles] and to [setImageDataList], for the lists of the
    render. *)
Definition onRemove {File : Type} (uploadedFiles : list File)
    (imageDataList : list string) (index : Z) : list File * list string :=
  (removeAt index uploadedFiles, removeAt index imageDataList).

(** ** A platform to run the code on

    An instance of [Host] for running the definitions above on concrete
    cookies: a JSON reader and printer for the fragment of JSON without
    [\u] escapes and without fractions or exponents in numbers, which the
    reader rejects.  The theorems below hold for every [Host]. *)

Module Platform.

Definition dquote : ascii := ascii_of_nat 34.
Definition backslash : ascii := ascii_of_nat 92.

Definition is_ws (c : ascii) : bool :=
  let n := nat_of_ascii c in
  (n =? 32)%nat || (n =? 9)%nat || (n =? 10)%nat || (n =? 13)%nat.

Definition is_digit (c : ascii) : bool :=
  let n := nat_of_ascii c in (48 <=? n)%nat && (n <=? 57)%nat.

Fixpoint skip_ws (l : list ascii) : list ascii :=
  match l with
  | c :: l' => if is_ws c then skip_ws l' else l
  | [] => []
  end.

(** The character an escape sequence stands for. *)
Definition unescape (c : ascii) : option ascii :=
  match nat_of_ascii c with
  | 34 => Some dquote
  | 92 => Some backslash
  | 47 => Some (ascii_of_nat 47)
  | 98 => Some (ascii_of_nat 8)
  | 102 => Some (ascii_of_nat 12)
  | 110 => Some (ascii_of_nat 10)
  | 114 => Some (ascii_of_nat 13)
  | 116 => Some (ascii_of_nat 9)
  | _ => None
  end.

(** The rest of a string literal, after its opening quote. *)
Fixpoint read_string (l : list ascii) (acc : list ascii)
  : option (string * list ascii) :=
  match l with
  | [] => None
  | c :: rest =>
      if Ascii.eqb c dquote then Some (string_of_list_ascii (rev acc), rest)
      else if Ascii.eqb c backslash then
        match rest with
        | e :: rest' =>
            match unescape e with
            | Some c' => read_string rest' (c' :: acc)
            | None => None
            end
        | [] => None
        end
      else if (nat_of_ascii c <? 32)%nat then None
      else read_string rest (c :: acc)
  end.

Fixpoint read_digits (l : list ascii) (acc : list ascii)
  : list ascii * list ascii :=
  match l with
  | c :: rest => if is_digit c then read_digits rest (c :: acc) else (rev acc, l)
  | [] => (rev acc, [])
  end.

(** An integer literal: an optional minus sign, then 0 or digits that do
    not start with 0, not followed by a fraction or an exponent. *)
Definition read_number (l : list ascii) : option (value * list ascii) :=
  let '(neg, l1) :=
    match l with
    | c :: rest => if Ascii.eqb c "-"%char then (true, rest) else (false, l)
    | [] => (false, l)
    end in
  let '(ds, rest) := read_digits l1 [] in
  match NilZero.uint_of_string (string_of_list_ascii ds) with
  | Some u =>
      let n := Z.of_N (N.of_uint u) in
      let canonical :=
        String.eqb (NilZero.string_of_uint (N.to_uint (N.of_uint u)))
                   (string_of_list_ascii ds) in
      let plain :=
        match rest with
        | c :: _ => negb (Ascii.eqb c "."%char || Ascii.eqb c "e"%char
                          || Ascii.eqb c "E"%char)
        | [] => true
        end in
      if canonical && plain then Some (VNum (if neg then (- n)%Z else n), rest)
      else None
  | None => None
  end.

(** Expect the literal [w] at the head of the input. *)
Fixpoint read_word (w l : list ascii) : option (list ascii) :=
  match w, l with
  | [], _ => Some l
  | a :: w', b :: l' => if Ascii.eqb a b then read_word w' l' else None
  | _ :: _, [] => None
  end.

(** Recursive descent over the input, bounded by [fuel]. *)
Fixpoint read_value (fuel : nat) (l : list ascii) : option (value * list ascii) :=
  match fuel with
  | O => None
  | S fuel' =>
      match skip_ws l with
      | [] => None
      | c :: rest =>
          if Ascii.eqb c "{"%char then
            match skip_ws rest with
            | c' :: rest' =>
                if Ascii.eqb c' "}"%char then Some (VObj [], rest')
                else read_members fuel' (c' :: rest') []
            | [] => None
            end
          else if Ascii.eqb c "["%char then
            match skip_ws rest with
            | c' :: rest' =>
                if Ascii.eqb c' "]"%char then Some (VArr [], rest')
                else read_elements fuel' (c' :: rest') []
            | [] => None
            end
          else if Ascii.eqb c dquote then
            match read_string rest [] with
            | Some (s, rest') => Some (VStr s, rest')
            | None => None
            end
          else if Ascii.eqb c "t"%char then
            option_map (pair (VBool true)) (read_word (list_ascii_of_string "rue") rest)
          else if Ascii.eqb c "f"%char then
            option_map (pair (VBool false)) (read_word (list_ascii_of_string "alse") rest)
          else if Ascii.eqb c "n"%char then
            option_map (pair VNull) (read_word (list_ascii_of_string "ull") rest)
          else read_number (c :: rest)
      end
  end
with read_elements (fuel : nat) (l : list ascii) (acc : list value)
  : option (value * list ascii) :=
  match fuel with
  | O => None
  | S fuel' =>
      match read_value fuel' l with
      | Some (v, rest) =>
          match skip_ws rest with
          | c :: rest' =>
              if Ascii.eqb c ","%char then read_elements fuel' rest' (acc ++ [v])
              else if Ascii.eqb c "]"%char then Some (VArr (acc ++ [v]), rest')
              else None
          | [] => None
          end
      | None => None
      end
  end
with read_members (fuel : nat) (l : list ascii) (acc : obj)
  : option (value * list ascii) :=
  match fuel with
  | O => None
  | S fuel' =>
      match skip_ws l with
      | q :: l1 =>
          if Ascii.eqb q dquote then
            match read_string l1 [] with
            | Some (k, l2) =>
                match skip_ws l2 with
                | colon :: l3 =>
                    if Ascii.eqb colon ":"%char then
                      match read_value fuel' l3 with
                      | Some (v, rest) =>
                          match skip_ws rest with
                          | c :: rest' =>
                              if Ascii.eqb c ","%char then
                                read_members fuel' rest' (obj_set k v acc)
                              else if Ascii.eqb c "}"%char then
                                Some (VObj (obj_set k v acc), rest')
                              else None
                          | [] => None
                          end
                      | None => None
                      end
                    else None
                | [] => None
                end
            | None => None
            end
          else None
      | [] => None
      end
  end.

(** [JSON.parse]: one value, with nothing but white space around it. *)
Definition json_parse (text : string) : option value :=
  let l := list_ascii_of_string text in
  match read_value (2 * length l + 2) l with
  | Some (v, rest) =>
      match skip_ws rest with
      | [] => Some v
      | _ :: _ => None
      end
  | None => None
  end.

(** The escape sequence of a character that needs one. *)
Definition escape (c : ascii) : list ascii :=
  match nat_of_ascii c with
  | 34 => [backslash; dquote]
  | 92 => [backslash; backslash]
  | 8 => [backslash; "b"%char]
  | 12 => [backslash; "f"%char]
  | 10 => [backslash; "n"%char]
  | 13 => [backslash; "r"%char]
  | 9 => [backslash; "t"%char]
  | _ => [c]
  end.

Definition quote (s : string) : string :=
  string_of_list_ascii
    (dquote :: flat_map escape (list_ascii_of_string s) ++ [dquote]).

Definition join (l : list string) : string :=
  match l with
  | [] => EmptyString
  | x :: l' => fold_left (fun acc y => acc +:+ "," +:+ y) l' x
  end.

(** The text of a value; [None] for what [JSON.stringify] leaves out. *)
Fixpoint print_value (v : value) : option string :=
  match v with
  | VUndefined | VNative => None
  | VNull => Some "null"
  | VBool b => Some (String_of_bool b)
  | VNum n => Some (NilZero.string_of_int (Z.to_int n))
  | VStr s => Some (quote s)
  | VArr l =>
      Some ("[" +:+ join (map (fun x => default "null" (print_value x)) l) +:+ "]")
  | VObj o =>
      Some ("{" +:+
            join (flat_map
                    (fun kv =>
                       match print_value (snd kv) with
                       | Some t => [quote (fst kv) +:+ ":" +:+ t]
                       | None => []
                       end) o)
            +:+ "}")
  end.

Definition json_stringify (v : value) : string :=
  default "undefined" (print_value v).

(** A browser whose network answers by [net], running build [build]. *)
Definition browser (net : string -> FetchOutcome) (build : CommitData) : Host :=
  {| JSON_parse := json_parse;
     JSON_stringify := json_stringify;
     fetch := net;
     LOCAL_PROVIDERS := ["OpenAILike"; "LMStudio"; "Ollama"];
     commitJson := build |}.

End Platform.

(** ** Observations used in the statements *)

(** Field [field] of the registry entry [name]. *)
Definition entry_field (registry : obj) (name field : string) : option value :=
  match own_get registry name with
  | Some entry => own_get (own_props entry) field
  | None => None
  end.

(** Field [field] of the settings of the registry entry [name]. *)
Definition settings_field (registry : obj) (name field : string) : option value :=
  match entry_field registry name "settings" with
  | Some settings => own_get (own_props settings) field
  | None => None
  end.

(** A registry entry as [ProviderInfo] types it: an object whose [settings]
    is an object whose [enabled], when present, is a boolean. *)
Definition well_typed_entry (entry : value) : bool :=
  match entry with
  | VObj fields =>
      match own_get fields "settings" with
      | Some (VObj settings) =>
          match own_get settings "enabled" with
          | None | Some VUndefined | Some (VBool _) => true
          | Some _ => false
          end
      | _ => false
      end
  | _ => false
  end.

Definition well_typed_registry (registry : obj) : bool :=
  forallb (fun kv => well_typed_entry (snd kv)) (entries registry).

(** [settings.enabled] of an entry is [true]. *)
Definition enabled_is_true (entry : value) : bool :=
  match own_get (own_props entry) "settings" with
  | Some settings =>
      match own_get (own_props settings) "enabled" with
      | Some (VBool true) => true
      | _ => false
      end
  | None => false
  end.

(** The [name] of an entry is one of the local provider names. *)
Definition is_local {host : Host} (entry : value) : bool :=
  match own_get (own_props entry) "name" with
  | Some (VStr name) => bool_decide (name ∈ LOCAL_PROVIDERS)
  | _ => false
  end.

(** No record of a parsed payload is [null]. *)
Definition records_present (parsed : value) : bool :=
  negb (nullish parsed)
  && forallb (fun kv => negb (nullish (snd kv))) (own_props parsed).

(** The object [providerSetting] that the second effect builds from the
    registry and serializes. *)
Definition providerSetting (providers : obj) : completion obj :=
  fold_left (collectSettings (VObj providers)) (map fst providers) (Normal []).

(** The [settings] read off a registry entry. *)
Definition settings_of (entry : value) : value :=
  default VUndefined (own_get (own_props entry) "settings").

(** [provider.settings.enabled] of an entry, read as a condition. *)
Definition enabled_is_truthy (entry : value) : bool :=
  truthy (default VUndefined (own_get (own_props (settings_of entry)) "enabled")).

(** Neither the entry nor its [settings] is [undefined] or [null]: the
    read [provider.settings.enabled] does not throw. *)
Definition settings_readable (entry : value) : bool :=
  negb (nullish entry) && negb (nullish (settings_of entry)).

(** A page load: the in-memory state starts over as [fresh], the cookie jar
    is the one [s] left. *)
Definition reload (s fresh : State) : State := with_cookies (cookies s) fresh.

(** The state a program leaves, and its completion. *)
Definition exec {A : Type} (m : M A) (s : State) : State := snd (m s).
Definition completes {A : Type} (m : M A) (s : State) : completion A := fst (m s).

(** ** Example states

    A build, a registry of four providers and a page whose in-memory state
    is the stores' defaults, to run the code on. *)

Module Sample.

Definition build : CommitData :=
  {| commit := "5c2a9d1"; version := Some "0.0.3" |}.

(** A network that is down. *)
Definition offline (url : string) : FetchOutcome := FetchRejects.

(** A network that serves the [commit.json] of the running build. *)
Definition stable (url : string) : FetchOutcome :=
  FetchResponse true
    (Platform.json_stringify (VObj [("commit", VStr (commit build))])).

Definition host : Host := Platform.browser offline build.

Definition host_stable : Host := Platform.browser stable build.

Definition provider (name : string) (settings : obj) : string * value :=
  (name, VObj [("name", VStr name); ("settings", VObj settings)]).

Definition registry : obj :=
  [ provider "OpenAI"
      [("enabled", VBool true); ("baseUrl", VStr "https://api.example.test")];
    provider "Anthropic" [("enabled", VBool false)];
    provider "Ollama" [("enabled", VBool true)];
    provider "LMStudio" [("enabled", VBool false)] ].

(** A freshly loaded page with cookie jar [jar]. *)
Definition page (jar : gmap string string) : State :=
  {| providersStore := registry;
     isDebugMode := false;
     isEventLogsEnabled := false;
     isLocalModelsEnabled := true;
     promptStore := "default";
     latestBranchStore := false;
     logStore := [];
     cookies := jar;
     console := [];
     requests := [];
     inflight := [];
     activeProviders := [];
     apiKeys := VObj [];
     modelListCalls := [] |}.

(** Persisted payloads, as [JSON.stringify] wrote them. *)
Definition openai_disabled : string :=
  Platform.json_stringify (VObj [("OpenAI", VObj [("enabled", VBool false)])]).

Definition anthropic_base_url : string :=
  Platform.json_stringify
    (VObj [("Anthropic", VObj [("baseUrl", VStr "https://claude.example.test")])]).

Definition together_base_url : string :=
  Platform.json_stringify
    (VObj [("Together", VObj [("baseUrl", VStr "https://together.example.test")])]).

(** Text that is not JSON. *)
Definition garbled : string := "{providers".

End Sample.

(** More states to run the code on. *)

Module Demo.

(** The page after the user pointed OpenAI to a proxy. *)
Definition customized : State :=
  exec (updateProviderSettings (VObj Sample.registry) "OpenAI"
          (VObj [("baseUrl", VStr "https://proxy.example.test")]))
       (Sample.page ∅).

(** The settings of the four providers of that page, by name. *)
Definition customized_settings : obj :=
  Eval vm_compute in
    match providerSetting (providersStore customized) with
    | Normal ps => ps
    | Throw _ => []
    end.

(** A cookie whose second record is [null]. *)
Definition null_record : string :=
  Platform.json_stringify
    (VObj [("OpenAI", VObj [("enabled", VBool false)]);
           ("Anthropic", VNull);
           ("Ollama", VObj [("enabled", VBool false)])]).

(** A cookie whose [enabled] fields are not booleans. *)
Definition untyped_enabled : string :=
  Platform.json_stringify
    (VObj [("Anthropic", VObj [("enabled", VStr "false")]);
           ("LMStudio", VObj [("enabled", VNum 1)])]).

(** A cookie whose first record is [null] and whose second record omits
    [enabled]. *)
Definition null_first : string :=
  Platform.json_stringify
    (VObj [("OpenAI", VNull);
           ("Anthropic", VObj [("baseUrl", VStr "https://claude.example.test")])]).

End Demo.

(** * Properties *)

Arguments String.eqb : simpl never.
Arguments inherited : simpl never.

(** ** Objects *)

Section ObjectFacts.

Lemma own_get_app (o1 o2 : obj) (k : string) :
  own_get (o1 ++ o2) k =
  match own_get o1 k with Some v => Some v | None => own_get o2 k end.
Proof.
  induction o1 as [|[k0 v0] o1 IH]; simpl; [reflexivity|].
  destruct (String.eqb k0 k); [reflexivity | exact IH].
Qed.

Lemma own_get_obj_replace (k : string) (v : value) (o : obj) (k' : string) :
  has_own o k = true ->
  own_get (obj_replace k v o) k' =
  if String.eqb k k' then Some v else own_get o k'.
Proof.
  unfold has_own.
  induction o as [|[k0 v0] o IH]; simpl; [discriminate|].
  destruct (String.eqb k0 k) eqn:E0; intros H; simpl.
  - apply String.eqb_eq in E0. subst k0.
    destruct (String.eqb k k'); reflexivity.
  - rewrite (IH H).
    destruct (String.eqb k k') eqn:E1; [|reflexivity].
    apply String.eqb_eq in E1. subst k'. rewrite E0. reflexivity.
Qed.

Lemma own_get_obj_insert_index (n : N) (k : string) (v : value) (o : obj)
    (k' : string) :
  own_get o k = None ->
  own_get (obj_insert_index n k v o) k' =
  if String.eqb k k' then Some v else own_get o k'.
Proof.
  induction o as [|[k0 v0] o IH]; simpl; [reflexivity|].
  destruct (String.eqb k0 k) eqn:E0; [discriminate|]. intros H.
  destruct (array_index k0) as [m|]; [destruct (m <? n)%N|]; simpl;
    try reflexivity.
  rewrite (IH H).
  destruct (String.eqb k k') eqn:E1; [|reflexivity].
  apply String.eqb_eq in E1. subst k'. rewrite E0. reflexivity.
Qed.

(** Reading after a write: the written key holds the new value, every other
    key is as before. *)
Lemma own_get_obj_set (k : string) (v : value) (o : obj) (k' : string) :
  own_get (obj_set k v o) k' =
  if String.eqb k k' then Some v else own_get o k'.
Proof.
  unfold obj_set. destruct (has_own o k) eqn:Hk.
  - apply own_get_obj_replace; assumption.
  - assert (Hn : own_get o k = None).
    { unfold has_own in Hk. destruct (own_get o k); [discriminate|reflexivity]. }
    destruct (array_index k) as [n|].
    + apply own_get_obj_insert_index; assumption.
    + rewrite own_get_app. simpl.
      destruct (String.eqb k k') eqn:E.
      * apply String.eqb_eq in E. subst k'. rewrite Hn. reflexivity.
      * destruct (own_get o k'); reflexivity.
Qed.

Lemma own_get_obj_set_eq (k : string) (v : value) (o : obj) :
  own_get (obj_set k v o) k = Some v.
Proof. rewrite own_get_obj_set, String.eqb_refl. reflexivity. Qed.

Lemma own_get_obj_set_ne (k k' : string) (v : value) (o : obj) :
  k <> k' -> own_get (obj_set k v o) k' = own_get o k'.
Proof.
  intros H. rewrite own_get_obj_set.
  apply String.eqb_neq in H. rewrite H. reflexivity.
Qed.

(** Overwriting an existing key keeps the enumeration order. *)
Lemma keys_obj_replace (k : string) (v : value) (o : obj) :
  map fst (obj_replace k v o) = map fst o.
Proof.
  induction o as [|[k0 v0] o IH]; simpl; [reflexivity|].
  destruct (String.eqb k0 k) eqn:E; simpl.
  - apply String.eqb_eq in E. subst k0. reflexivity.
  - rewrite IH. reflexivity.
Qed.

Lemma own_get_spread_keys (props : obj) (ks : list string) (dst : obj)
    (k : string) :
  own_get
    (fold_left
       (fun acc k0 =>
          match own_get props k0 with
          | Some x => obj_set k0 x acc
          | None => acc
          end) ks dst) k =
  match (if existsb (String.eqb k) ks then own_get props k else None) with
  | Some v => Some v
  | None => own_get dst k
  end.
Proof.
  revert dst. induction ks as [|a ks IH]; intros dst; simpl; [reflexivity|].
  rewrite IH. clear IH.
  destruct (String.eqb k a) eqn:Ea; simpl.
  - apply String.eqb_eq in Ea. subst a.
    destruct (own_get props k) as [x|] eqn:Hx.
    + destruct (existsb (String.eqb k) ks); [reflexivity|].
      apply own_get_obj_set_eq.
    + destruct (existsb (String.eqb k) ks); reflexivity.
  - destruct (if existsb (String.eqb k) ks then own_get props k else None);
      [reflexivity|].
    destruct (own_get props a); [|reflexivity].
    apply own_get_obj_set_ne. intros ->. rewrite String.eqb_refl in Ea.
    discriminate.
Qed.

Lemma own_get_in_keys (o : obj) (k : string) (v : value) :
  own_get o k = Some v -> existsb (String.eqb k) (map fst o) = true.
Proof.
  induction o as [|[k0 v0] o IH]; simpl; [discriminate|].
  destruct (String.eqb k0 k) eqn:E.
  - intros _. rewrite String.eqb_sym, E. reflexivity.
  - intros H. rewrite (IH H). apply orb_true_r.
Qed.

(** A spread defines exactly the own properties of its source; the
    properties already on the target stay, unless the source overrides
    them. *)
Lemma own_get_spread (src : value) (dst : obj) (k : string) :
  own_get (spread src dst) k =
  match own_get (own_props src) k with
  | Some v => Some v
  | None => own_get dst k
  end.
Proof.
  unfold spread. rewrite own_get_spread_keys.
  destruct (own_get (own_props src) k) as [v|] eqn:Hv.
  - rewrite (own_get_in_keys _ _ _ Hv). reflexivity.
  - destruct (existsb _ _); reflexivity.
Qed.

Lemma own_get_spread_empty (src : value) (k : string) :
  own_get (spread src []) k = own_get (own_props src) k.
Proof. rewrite own_get_spread. destruct (own_get _ k); reflexivity. Qed.

(** Reading an own property of a value that is neither [undefined] nor
    [null]. *)
Lemma get_own (v : value) (k : string) (x : value) :
  nullish v = false -> own_get (own_props v) k = Some x -> get v k = Normal x.
Proof. intros Hn Hx. unfold get. rewrite Hn, Hx. reflexivity. Qed.

(** A property read off a value that is neither [undefined] nor [null]. *)
Lemma get_own_or_inherited (v : value) (k : string) :
  nullish v = false ->
  get v k =
  Normal (match own_get (own_props v) k with
          | Some x => x
          | None => inherited_member v k
          end).
Proof. intros Hn. unfold get. rewrite Hn. reflexivity. Qed.

(** A name that is neither an own property nor inherited reads as
    [undefined]. *)
Lemma get_missing (o : obj) (k : string) :
  own_get o k = None -> inherited k = false -> get (VObj o) k = Normal VUndefined.
Proof. intros Ho Hi. unfold get. simpl. rewrite Ho, Hi. reflexivity. Qed.

End ObjectFacts.

(** ** Running programs *)

Ltac unfold_monad :=
  unfold exec, completes, parse, Cookies_get, Cookies_set, Cookies_remove,
    console_warn, console_error, logSystem, providersStore_setKey in *;
  unfold mbind, M_bind, mret, M_ret, modify, gets, lift, throw, try_catch in *;
  cbn beta iota in *.

Section HydrationFacts.
Context {host : Host}.

Lemma with_providersStore_twice (x y : obj) (s : State) :
  with_providersStore x (with_providersStore y s) = with_providersStore x s.
Proof. reflexivity. Qed.

Lemma with_providersStore_same (s : State) :
  with_providersStore (providersStore s) s = s.
Proof. destruct s; reflexivity. Qed.

(** One round of the loop over the persisted names. *)
Lemma hydrateProvider_run (providers parsed : value) (k : string)
    (cur per e : value) (s : State) :
  get providers k = Normal cur ->
  get parsed k = Normal per ->
  hydratedEntry cur per = Normal e ->
  hydrateProvider providers parsed k s =
  (Normal tt, with_providersStore (obj_set k e (providersStore s)) s).
Proof.
  intros Hc Hp He. unfold hydrateProvider. unfold_monad.
  rewrite Hc, Hp, He. reflexivity.
Qed.

Lemma hydrateProvider_cases (providers parsed : value) (k : string) (s : State) :
  (exists e, hydrateProvider providers parsed k s = (Throw e, s)) \/
  (exists entry,
     hydrateProvider providers parsed k s =
     (Normal tt, with_providersStore (obj_set k entry (providersStore s)) s)).
Proof.
  unfold hydrateProvider. unfold_monad.
  destruct (get providers k) as [cur|e]; [|left; eauto].
  destruct (get parsed k) as [per|e]; [|left; eauto].
  destruct (hydratedEntry cur per) as [entry|e]; [|left; eauto].
  right. eauto.
Qed.

(** Whatever happens in the loop, it writes to the registry only. *)
Lemma forEach_hydrate_frame (providers parsed : value) (names : list string)
    (s : State) :
  exists c store,
    forEach (hydrateProvider providers parsed) names s =
    (c, with_providersStore store s).
Proof.
  revert s. induction names as [|k names IH]; intros s; simpl.
  - exists (Normal tt), (providersStore s).
    rewrite with_providersStore_same. reflexivity.
  - unfold mbind, M_bind.
    destruct (hydrateProvider_cases providers parsed k s)
      as [[e ->]|[entry ->]].
    + exists (Throw e), (providersStore s).
      rewrite with_providersStore_same. reflexivity.
    + destruct (IH (with_providersStore (obj_set k entry (providersStore s)) s))
        as (c & store & Hrun).
      exists c, store. rewrite Hrun. reflexivity.
Qed.

(** The loop when no round throws: every name of the list ends up holding
    its hydrated entry, every other name is as before. *)
Lemma forEach_hydrate_run (providers parsed : value) (names : list string)
    (s : State) :
  (forall k, In k names ->
     exists cur per e, get providers k = Normal cur /\
       get parsed k = Normal per /\ hydratedEntry cur per = Normal e) ->
  exists store,
    forEach (hydrateProvider providers parsed) names s =
      (Normal tt, with_providersStore store s) /\
    (forall k, ~ In k names -> own_get store k = own_get (providersStore s) k) /\
    (forall k cur per e, In k names ->
       get providers k = Normal cur -> get parsed k = Normal per ->
       hydratedEntry cur per = Normal e -> own_get store k = Some e).
Proof.
  revert s. induction names as [|a names IH]; intros s Hall; simpl.
  - exists (providersStore s). rewrite with_providersStore_same.
    split; [reflexivity|]. split; [reflexivity|]. intros k ? ? ? [].
  - destruct (Hall a (or_introl eq_refl)) as (cur & per & e & Hc & Hp & He).
    unfold mbind, M_bind.
    rewrite (hydrateProvider_run _ _ _ _ _ _ s Hc Hp He).
    destruct (IH (with_providersStore (obj_set a e (providersStore s)) s))
      as (store & Hrun & Hother & Hin).
    { intros k Hk. apply Hall. right. exact Hk. }
    exists store. rewrite Hrun. split; [reflexivity|]. split.
    + intros k Hk. rewrite (Hother k).
      * simpl. apply own_get_obj_set_ne. intros ->. apply Hk. left. reflexivity.
      * intros Hk'. apply Hk. right. exact Hk'.
    + intros k cur' per' e' Hk Hc' Hp' He'.
      destruct (in_dec string_dec k names) as [Hkn|Hkn].
      * apply (Hin k cur' per' e' Hkn Hc' Hp' He').
      * destruct Hk as [<-|Hk]; [|contradiction].
        rewrite (Hother a Hkn). simpl.
        rewrite Hc in Hc'. injection Hc' as <-.
        rewrite Hp in Hp'. injection Hp' as <-.
        rewrite He in He'. injection He' as <-.
        apply own_get_obj_set_eq.
Qed.

(** A record is always found under one of the payload's own keys. *)
Lemma own_key_lookup (o : obj) (k : string) :
  In k (map fst o) -> exists v, own_get o k = Some v /\ In v (map snd o).
Proof.
  induction o as [|[k0 v0] o IH]; simpl; [intros []|].
  intros Hk. destruct (String.eqb k0 k) eqn:E.
  - exists v0. split; [reflexivity | left; reflexivity].
  - destruct Hk as [Hk|Hk].
    + subst k0. rewrite String.eqb_refl in E. discriminate.
    + destruct (IH Hk) as (v & Hv & Hin). exists v. split; [exact Hv|].
      right. exact Hin.
Qed.

Lemma records_present_spec (parsed : value) :
  records_present parsed = true ->
  nullish parsed = false /\
  forall k, In k (map fst (own_props parsed)) ->
    exists v, own_get (own_props parsed) k = Some v /\ nullish v = false.
Proof.
  unfold records_present. intros H.
  apply andb_true_iff in H as [Hn Hall].
  apply negb_true_iff in Hn. split; [exact Hn|].
  intros k Hk. destruct (own_key_lookup _ _ Hk) as (v & Hv & Hin).
  exists v. split; [exact Hv|].
  rewrite forallb_forall in Hall.
  apply in_map_iff in Hin as ([k' v'] & <- & Hin).
  apply negb_true_iff. exact (Hall _ Hin).
Qed.

Lemma hydratedEntry_present (cur per : value) :
  nullish per = false ->
  hydratedEntry cur per =
  Normal
    (VObj (obj_set "settings"
             (VObj (obj_set "enabled"
                      (nullish_or
                         (match own_get (own_props per) "enabled" with
                          | Some x => x
                          | None => inherited_member per "enabled"
                          end) (VBool true))
                      (spread per [])))
             (spread cur []))).
Proof. intros Hn. unfold hydratedEntry, get. rewrite Hn. reflexivity. Qed.

End HydrationFacts.

Section ProvidersCookie.
Context {host : Host}.

Lemma truthy_str_nonempty (text : string) :
  text <> EmptyString -> truthy_str (Some text) = true.
Proof.
  intros H. unfold truthy_str. apply String.eqb_neq in H. rewrite H. reflexivity.
Qed.

(** The providers part of the hydration never throws, and writes to the
    registry and the console only. *)
Lemma hydrateProviders_frame (providers : value) (s : State) :
  exists store log,
    hydrateProviders providers s =
    (Normal tt, with_console log (with_providersStore store s)).
Proof.
  assert (Hsame : (Normal tt, s) =
            (Normal tt, with_console (console s)
                          (with_providersStore (providersStore s) s)))
    by (destruct s; reflexivity).
  unfold hydrateProviders. unfold_monad.
  destruct (truthy_str (cookies s !! "providers"));
    [|exists (providersStore s), (console s); exact Hsame].
  destruct (JSON_parse _) as [parsed|].
  - unfold keys. destruct (nullish parsed).
    + exists (providersStore s). eexists. destruct s; reflexivity.
    + destruct (forEach_hydrate_frame providers parsed
                  (map fst (own_props parsed)) s) as (c & store & Hrun).
      rewrite Hrun. destruct c as [[]|e].
      * exists store, (console s). destruct s; reflexivity.
      * exists store. eexists. reflexivity.
  - exists (providersStore s). eexists. destruct s; reflexivity.
Qed.

(** The providers part of the hydration on a payload whose records are all
    present: every persisted name holds its hydrated entry, every other
    name is untouched, and nothing but the registry changes. *)
Lemma hydrateProviders_run (providers : value) (s : State) (text : string)
    (parsed : value) :
  cookies s !! "providers" = Some text ->
  text <> EmptyString ->
  JSON_parse text = Some parsed ->
  records_present parsed = true ->
  nullish providers = false ->
  exists store,
    hydrateProviders providers s = (Normal tt, with_providersStore store s) /\
    (forall k, own_get (own_props parsed) k = None ->
       own_get store k = own_get (providersStore s) k) /\
    (forall k per, own_get (own_props parsed) k = Some per ->
       exists cur e, get providers k = Normal cur /\
         hydratedEntry cur per = Normal e /\ own_get store k = Some e).
Proof.
  intros Hcookie Htext Hparse Hrec Hprov.
  destruct (records_present_spec _ Hrec) as [Hnn Hkeys].
  assert (Hall : forall k, In k (map fst (own_props parsed)) ->
            exists cur per e, get providers k = Normal cur /\
              get parsed k = Normal per /\ hydratedEntry cur per = Normal e).
  { intros k Hk. destruct (Hkeys k Hk) as (per & Hper & Hpn).
    unfold get at 1. rewrite Hprov. eexists. exists per. eexists.
    split; [reflexivity|]. split; [apply get_own; assumption|].
    apply hydratedEntry_present. exact Hpn. }
  destruct (forEach_hydrate_run providers parsed _ s Hall)
    as (store & Hrun & Hother & Hin).
  exists store. split; [|split].
  - unfold hydrateProviders. unfold_monad.
    rewrite Hcookie, (truthy_str_nonempty _ Htext). simpl.
    rewrite Hparse. unfold keys. rewrite Hnn, Hrun. reflexivity.
  - intros k Hk. apply Hother. intros Hin'.
    destruct (own_key_lookup _ _ Hin') as (v & Hv & _). congruence.
  - intros k per Hper.
    assert (Hk : In k (map fst (own_props parsed))).
    { apply in_map_iff. clear -Hper.
      induction (own_props parsed) as [|[k0 v0] o IH]; simpl in *; [discriminate|].
      destruct (String.eqb k0 k) eqn:E.
      - apply String.eqb_eq in E. subst k0. exists (k, v0). auto.
      - destruct (IH Hper) as (kv & Hf & Hi). exists kv. auto. }
    destruct (Hall k Hk) as (cur & per' & e & Hc & Hp & He).
    assert (per' = per) as ->.
    { rewrite (get_own _ _ _ Hnn Hper) in Hp. congruence. }
    exists cur, e. split; [exact Hc|]. split; [exact He|].
    exact (Hin k cur per e Hk Hc Hp He).
Qed.

Lemma inherited_member_enabled (v : value) :
  inherited_member v "enabled" = VUndefined.
Proof. destruct v; reflexivity. Qed.

(** The settings of a hydrated entry are the persisted record, with
    [enabled] defaulted. *)
Lemma hydratedEntry_settings (cur per e : value) (f : string) :
  nullish per = false ->
  hydratedEntry cur per = Normal e ->
  match own_get (own_props e) "settings" with
  | Some settings =>
      own_get (own_props settings) f =
      if String.eqb "enabled" f
      then Some (nullish_or (default VUndefined (own_get (own_props per) "enabled"))
                   (VBool true))
      else own_get (own_props per) f
  | None => False
  end.
Proof.
  intros Hn He. rewrite (hydratedEntry_present _ _ Hn) in He.
  injection He as <-. simpl. rewrite own_get_obj_set_eq. simpl.
  rewrite own_get_obj_set, own_get_spread_empty.
  destruct (String.eqb "enabled" f); [|reflexivity].
  destruct (own_get (own_props per) "enabled"); simpl; [reflexivity|].
  rewrite inherited_member_enabled. reflexivity.
Qed.

(** Every field of a hydrated entry other than [settings] is the field of
    the entry it was spread from. *)
Lemma hydratedEntry_other_fields (cur per e : value) (f : string) :
  nullish per = false ->
  hydratedEntry cur per = Normal e ->
  f <> "settings" ->
  own_get (own_props e) f = own_get (own_props cur) f.
Proof.
  intros Hn He Hf. rewrite (hydratedEntry_present _ _ Hn) in He.
  injection He as <-. simpl.
  rewrite own_get_obj_set_ne by congruence.
  apply own_get_spread_empty.
Qed.

Lemma record_not_nullish (parsed : value) (k : string) (per : value) :
  records_present parsed = true ->
  own_get (own_props parsed) k = Some per ->
  nullish per = false.
Proof.
  intros Hrec Hper. unfold records_present in Hrec.
  apply andb_true_iff in Hrec as [_ Hall]. rewrite forallb_forall in Hall.
  apply negb_true_iff. apply (Hall (k, per)).
  clear -Hper. induction (own_props parsed) as [|[k0 v0] o IH]; simpl in *;
    [discriminate|].
  destruct (String.eqb k0 k) eqn:E.
  - apply String.eqb_eq in E. left. congruence.
  - right. auto.
Qed.

End ProvidersCookie.

(** ** Hydration of the provider registry *)

Section RegistryHydration.
Context {host : Host}.

(** C1 (amended): for a provider name that is in the persisted payload and
    in the registry, hydration keeps every field of the entry other than
    [settings], and replaces the settings by the persisted record with
    [enabled] defaulted to [true]: a settings field is, after hydration, what
    the persisted record says, so a field the record does not mention is
    dropped rather than kept. *)
Theorem hydration_replaces_settings (s : State) (text : string)
    (parsed : value) (name : string) (persisted : value) :
  cookies s !! "providers" = Some text ->
  text <> EmptyString ->
  JSON_parse text = Some parsed ->
  records_present parsed = true ->
  own_get (own_props parsed) name = Some persisted ->
  has_own (providersStore s) name = true ->
  let s' := exec (hydrateProviders (VObj (providersStore s))) s in
  completes (hydrateProviders (VObj (providersStore s))) s = Normal tt /\
  (forall f, f <> "settings" ->
     entry_field (providersStore s') name f =
     entry_field (providersStore s) name f) /\
  (forall f, f <> "enabled" ->
     settings_field (providersStore s') name f =
     own_get (own_props persisted) f) /\
  settings_field (providersStore s') name "enabled" =
  Some (nullish_or (default VUndefined (own_get (own_props persisted) "enabled"))
          (VBool true)).
Proof.
  intros Hcookie Htext Hparse Hrec Hper Hown s'.
  destruct (hydrateProviders_run (VObj (providersStore s)) s text parsed
              Hcookie Htext Hparse Hrec eq_refl) as (store & Hrun & _ & Hin).
  destruct (Hin name persisted Hper) as (cur & e & Hcur & He & Hstore).
  pose proof (record_not_nullish _ _ _ Hrec Hper) as Hn.
  subst s'. unfold exec, completes. rewrite Hrun. simpl.
  unfold has_own in Hown.
  destruct (own_get (providersStore s) name) as [entry|] eqn:Hentry;
    [|discriminate].
  assert (cur = entry) as ->.
  { unfold get in Hcur. simpl in Hcur. rewrite Hentry in Hcur. congruence. }
  split; [reflexivity|].
  unfold settings_field, entry_field. rewrite Hstore, Hentry.
  split; [|split].
  - intros f Hf. apply (hydratedEntry_other_fields _ _ _ f Hn He Hf).
  - intros f Hf. pose proof (hydratedEntry_settings _ _ _ f Hn He) as Hs.
    destruct (own_get (own_props e) "settings"); [|contradiction].
    rewrite Hs. destruct (String.eqb "enabled" f) eqn:E; [|reflexivity].
    apply String.eqb_eq in E. congruence.
  - pose proof (hydratedEntry_settings _ _ _ "enabled" Hn He) as Hs.
    destruct (own_get (own_props e) "settings"); [|contradiction].
    rewrite Hs, String.eqb_refl. reflexivity.
Qed.

End RegistryHydration.

(** The provider OpenAI, persisted as disabled: its name stays, its
    settings become the persisted record. *)
Lemma hydration_replaces_settings_witness :
  let s := Sample.page {[ "providers" := Sample.openai_disabled ]} in
  let s' := exec (hydrateProviders (host := Sample.host) (VObj (providersStore s))) s in
  entry_field (providersStore s') "OpenAI" "name" = Some (VStr "OpenAI") /\
  settings_field (providersStore s') "OpenAI" "baseUrl" = None /\
  settings_field (providersStore s') "OpenAI" "enabled" = Some (VBool false).
Proof.
  pose proof (hydration_replaces_settings (host := Sample.host)
                (Sample.page {[ "providers" := Sample.openai_disabled ]})
                Sample.openai_disabled
                (VObj [("OpenAI", VObj [("enabled", VBool false)])])
                "OpenAI" (VObj [("enabled", VBool false)])) as H.
  destruct H as (_ & Hentry & Hsettings & Henabled).
  - vm_compute. reflexivity.
  - intros Hempty. vm_compute in Hempty. discriminate Hempty.
  - vm_compute. reflexivity.
  - vm_compute. reflexivity.
  - vm_compute. reflexivity.
  - vm_compute. reflexivity.
  - split; [|split].
    + rewrite (Hentry "name"); [vm_compute; reflexivity | discriminate].
    + rewrite (Hsettings "baseUrl"); [vm_compute; reflexivity | discriminate].
    + rewrite Henabled. vm_compute. reflexivity.
Defined.

(** C1 (as stated, refuted): OpenAI holds a [baseUrl] in memory, the
    persisted record [{ enabled: false }] does not mention it, and after
    hydration the field is gone. *)
Lemma hydration_merge_counterexample :
  let s := Sample.page {[ "providers" := Sample.openai_disabled ]} in
  let s' := exec (hydrateProviders (host := Sample.host) (VObj (providersStore s))) s in
  JSON_parse (Host := Sample.host) Sample.openai_disabled =
    Some (VObj [("OpenAI", VObj [("enabled", VBool false)])]) /\
  settings_field (providersStore s) "OpenAI" "baseUrl" =
    Some (VStr "https://api.example.test") /\
  settings_field (providersStore s') "OpenAI" "baseUrl" = None.
Proof. vm_compute. repeat split; reflexivity. Qed.

Section EnabledDefault.
Context {host : Host}.

(** C7 (amended): for every record of a persisted payload none of whose
    records is [null], whatever the registry the hook rendered with, a
    record that omits [enabled] hydrates to [settings.enabled = true], and
    [settings.enabled] hydrates to [false] only from a record that holds
    [enabled: false]. *)
Theorem hydration_defaults_enabled (providers : obj) (s : State)
    (text : string) (parsed : value) (name : string) (persisted : value) :
  cookies s !! "providers" = Some text ->
  text <> EmptyString ->
  JSON_parse text = Some parsed ->
  records_present parsed = true ->
  own_get (own_props parsed) name = Some persisted ->
  let s' := exec (hydrateProviders (VObj providers)) s in
  (own_get (own_props persisted) "enabled" = None ->
   settings_field (providersStore s') name "enabled" = Some (VBool true)) /\
  (settings_field (providersStore s') name "enabled" = Some (VBool false) ->
   own_get (own_props persisted) "enabled" = Some (VBool false)).
Proof.
  intros Hcookie Htext Hparse Hrec Hper s'.
  destruct (hydrateProviders_run (VObj providers) s text parsed
              Hcookie Htext Hparse Hrec eq_refl) as (store & Hrun & _ & Hin).
  destruct (Hin name persisted Hper) as (cur & e & Hcur & He & Hstore).
  pose proof (record_not_nullish _ _ _ Hrec Hper) as Hn.
  pose proof (hydratedEntry_settings _ _ _ "enabled" Hn He) as Hs.
  subst s'. unfold exec. rewrite Hrun. simpl.
  unfold settings_field, entry_field. rewrite Hstore.
  destruct (own_get (own_props e) "settings"); [|contradiction].
  rewrite Hs, String.eqb_refl. split.
  - intros ->. reflexivity.
  - destruct (own_get (own_props persisted) "enabled") as [x|]; simpl.
    + destruct x; unfold nullish_or; simpl; congruence.
    + unfold nullish_or; simpl; congruence.
Qed.

(** A name of the payload that the registry does not hold, and that
    [Object.prototype] does not define, gets an entry all the same: one
    that holds [settings] and nothing else. *)
Lemma hydration_creates_entry (s : State) (text : string) (parsed : value)
    (name : string) (persisted : value) :
  cookies s !! "providers" = Some text ->
  text <> EmptyString ->
  JSON_parse text = Some parsed ->
  records_present parsed = true ->
  own_get (own_props parsed) name = Some persisted ->
  own_get (providersStore s) name = None ->
  let s' := exec (hydrateProviders (VObj (providersStore s))) s in
  has_own (providersStore s') name = true /\
  (forall f, f <> "settings" -> entry_field (providersStore s') name f = None) /\
  console s' = console s.
Proof.
  intros Hcookie Htext Hparse Hrec Hper Hnone s'.
  destruct (hydrateProviders_run (VObj (providersStore s)) s text parsed
              Hcookie Htext Hparse Hrec eq_refl) as (store & Hrun & _ & Hin).
  destruct (Hin name persisted Hper) as (cur & e & Hcur & He & Hstore).
  pose proof (record_not_nullish _ _ _ Hrec Hper) as Hn.
  subst s'. unfold exec. rewrite Hrun. simpl.
  unfold has_own, entry_field. rewrite Hstore.
  split; [reflexivity|]. split; [|reflexivity].
  intros f Hf. rewrite (hydratedEntry_other_fields _ _ _ f Hn He Hf).
  unfold get in Hcur. simpl in Hcur. rewrite Hnone in Hcur.
  injection Hcur as <-. destruct (inherited name); reflexivity.
Qed.

End EnabledDefault.

(** The payload of the specification's example: Anthropic, disabled in
    memory, persisted with a [baseUrl] only, is enabled after hydration. *)
Lemma hydration_defaults_enabled_witness :
  let s := Sample.page {[ "providers" := Sample.anthropic_base_url ]} in
  let s' := exec (hydrateProviders (host := Sample.host) (VObj Sample.registry)) s in
  settings_field (providersStore s) "Anthropic" "enabled" = Some (VBool false) /\
  settings_field (providersStore s') "Anthropic" "enabled" = Some (VBool true).
Proof.
  split; [vm_compute; reflexivity|].
  refine (proj1 (hydration_defaults_enabled (host := Sample.host)
                   Sample.registry
                   (Sample.page {[ "providers" := Sample.anthropic_base_url ]})
                   Sample.anthropic_base_url
                   (VObj [("Anthropic",
                           VObj [("baseUrl", VStr "https://claude.example.test")])])
                   "Anthropic"
                   (VObj [("baseUrl", VStr "https://claude.example.test")])
                   _ _ _ _ _) _).
  - vm_compute. reflexivity.
  - intros Hempty. vm_compute in Hempty. discriminate Hempty.
  - vm_compute. reflexivity.
  - vm_compute. reflexivity.
  - vm_compute. reflexivity.
  - vm_compute. reflexivity.
Defined.

(** C7 (as stated, refuted): the payload lists OpenAI with a [null] record
    before Anthropic, whose record omits [enabled].  The loop stops at the
    null record, so Anthropic is never hydrated: it was disabled in memory
    and is still disabled after the hydration. *)
Lemma hydration_default_skipped_counterexample :
  let s := Sample.page {[ "providers" := Demo.null_first ]} in
  let s' := exec (hydrateProviders (host := Sample.host) (VObj (providersStore s))) s in
  JSON_parse (Host := Sample.host) Demo.null_first =
    Some (VObj [("OpenAI", VNull);
                ("Anthropic", VObj [("baseUrl", VStr "https://claude.example.test")])]) /\
  completes (hydrateProviders (host := Sample.host) (VObj (providersStore s))) s
    = Normal tt /\
  settings_field (providersStore s') "Anthropic" "enabled" = Some (VBool false) /\
  settings_field (providersStore s') "Anthropic" "baseUrl" = None.
Proof. vm_compute. repeat split; reflexivity. Qed.

(** C2 (the code at the failing input): the payload names Together, which
    the registry does not hold.  Hydration logs nothing, but it does create
    a registry entry for Together, made of [settings] alone, which the
    active-provider list then carries as a provider without a name. *)
Theorem hydration_unknown_provider_entry :
  let s := Sample.page {[ "providers" := Sample.together_base_url ]} in
  let s' := exec (hydrateProviders (host := Sample.host) (VObj (providersStore s))) s in
  has_own (providersStore s) "Together" = false /\
  own_get (providersStore s') "Together" =
    Some (VObj [("settings",
                 VObj [("baseUrl", VStr "https://together.example.test");
                       ("enabled", VBool true)])]) /\
  console s' = [] /\
  computeActive (host := Sample.host) (providersStore s') true =
    Normal
      [ VObj [("name", VStr "OpenAI");
              ("settings",
               VObj [("enabled", VBool true);
                     ("baseUrl", VStr "https://api.example.test")])];
        VObj [("name", VStr "Ollama"); ("settings", VObj [("enabled", VBool true)])];
        VObj [("settings",
               VObj [("baseUrl", VStr "https://together.example.test");
                     ("enabled", VBool true)])] ].
Proof. vm_compute. repeat split; reflexivity. Qed.

(** ** The active providers *)

Section ActiveProviders.
Context {host : Host}.

Lemma includes_elem_of (l : list string) (name : string) :
  includes l (VStr name) = bool_decide (name ∈ l).
Proof.
  unfold includes, str_strict_eq. induction l as [|x l IH]; cbn [existsb].
  - symmetry. apply bool_decide_eq_false. apply not_elem_of_nil.
  - rewrite IH. destruct (String.eqb x name) eqn:E; cbn [orb].
    + apply String.eqb_eq in E. subst x. symmetry.
      apply bool_decide_eq_true. apply elem_of_cons. left. reflexivity.
    + apply String.eqb_neq in E. apply bool_decide_ext.
      rewrite elem_of_cons. split; [auto|]. intros [->|H]; [contradiction|exact H].
Qed.

Lemma includes_not_a_string (l : list string) (v : value) :
  (forall name, v <> VStr name) -> includes l v = false.
Proof.
  intros Hv. unfold includes. induction l as [|x l IH]; simpl; [reflexivity|].
  rewrite IH. destruct v; try reflexivity. exfalso. exact (Hv s eq_refl).
Qed.

(** On a well typed entry the condition of the first filter does not throw
    and holds exactly when [settings.enabled] is [true]. *)
Lemma isEnabled_well_typed (kv : string * value) :
  well_typed_entry (snd kv) = true ->
  isEnabled kv = Normal (enabled_is_true (snd kv)).
Proof.
  destruct kv as [k entry]. simpl. unfold well_typed_entry, isEnabled, enabled_is_true.
  destruct entry as [| | | | | |fields|]; try discriminate. simpl.
  unfold get at 1. simpl.
  destruct (own_get fields "settings") as [settings|]; [|discriminate].
  destruct settings as [| | | | | |st|]; try discriminate.
  unfold get. simpl.
  destruct (own_get st "enabled") as [x|]; [|intros _; reflexivity].
  destruct x; try discriminate; intros _; try reflexivity.
  destruct b; reflexivity.
Qed.

(** On an object the condition of the second filter does not throw and
    holds exactly when the entry's name is not a local provider name. *)
Lemma notLocal_object (fields : obj) :
  notLocal (VObj fields) = Normal (negb (is_local (VObj fields))).
Proof.
  unfold notLocal, is_local, get. simpl.
  destruct (own_get fields "name") as [x|]; simpl.
  - destruct x; try (rewrite includes_not_a_string by discriminate; reflexivity).
    rewrite includes_elem_of. reflexivity.
  - rewrite includes_not_a_string by discriminate. reflexivity.
Qed.

Lemma filterC_total {A : Type} (p : A -> completion bool) (q : A -> bool)
    (l : list A) :
  (forall x, In x l -> p x = Normal (q x)) ->
  filterC p l = Normal (List.filter q l).
Proof.
  induction l as [|x l IH]; intros H; simpl; [reflexivity|].
  rewrite (H x (or_introl eq_refl)), IH.
  - destruct (q x); reflexivity.
  - intros y Hy. apply H. right. exact Hy.
Qed.

Lemma filter_map_snd (q r : value -> bool) (l : list (string * value)) :
  List.filter r (map snd (List.filter (fun kv => q (snd kv)) l)) =
  map snd (List.filter (fun kv => q (snd kv) && r (snd kv)) l).
Proof.
  induction l as [|[k v] l IH]; simpl; [reflexivity|].
  destruct (q v); simpl; [|exact IH].
  destruct (r v); simpl; rewrite IH; reflexivity.
Qed.

(** The typed case: on a registry whose entries have the type
    [ProviderInfo] gives them, the list the effect computes is, in the
    registry's enumeration order, exactly the entries whose
    [settings.enabled] is [true], without those whose [name] is a local
    provider name when the preference is [false]. *)
Theorem active_providers_exact (providers : obj) (isLocalModel : bool) :
  well_typed_registry providers = true ->
  let selected :=
    map snd
      (List.filter
         (fun kv => enabled_is_true (snd kv)
                    && (isLocalModel || negb (is_local (snd kv))))
         (entries providers)) in
  computeActive providers isLocalModel = Normal selected /\
  (forall s, deriveActive providers isLocalModel s =
             (Normal tt, with_activeProviders selected s)) /\
  (isLocalModel = false -> Forall (fun p => is_local p = false) selected).
Proof.
  intros Htyped selected. unfold well_typed_registry in Htyped.
  rewrite forallb_forall in Htyped.
  assert (Hfirst : filterC isEnabled (entries providers) =
            Normal (List.filter (fun kv => enabled_is_true (snd kv))
                      (entries providers))).
  { apply filterC_total. intros kv Hkv. apply isEnabled_well_typed.
    apply Htyped. exact Hkv. }
  assert (Hactive : computeActive providers isLocalModel = Normal selected).
  { unfold computeActive. rewrite Hfirst. subst selected.
    destruct isLocalModel; simpl.
    + f_equal. f_equal. apply List.filter_ext. intros kv.
      rewrite andb_true_r. reflexivity.
    + rewrite (filterC_total notLocal (fun p => negb (is_local p))).
      * rewrite filter_map_snd. reflexivity.
      * intros p Hp. apply in_map_iff in Hp as (kv & <- & Hkv).
        apply List.filter_In in Hkv as [Hkv _].
        specialize (Htyped kv Hkv). unfold well_typed_entry in Htyped.
        destruct (snd kv); try discriminate. apply notLocal_object. }
  split; [exact Hactive|]. split.
  - intros s. unfold deriveActive. unfold_monad. rewrite Hactive. reflexivity.
  - intros ->. subst selected. apply List.Forall_forall. intros p Hp.
    apply in_map_iff in Hp as (kv & <- & Hkv).
    apply List.filter_In in Hkv as [_ Hkv].
    apply andb_true_iff in Hkv as [_ Hkv]. simpl in Hkv.
    apply negb_true_iff. exact Hkv.
Qed.

End ActiveProviders.

(** The example registry: OpenAI and Ollama are enabled, Ollama is local.
    With the preference off the list is OpenAI alone, with it on the list
    is OpenAI and Ollama. *)
Lemma active_providers_exact_witness :
  map (fun p => get p "name")
    (match computeActive (host := Sample.host) Sample.registry false with
     | Normal l => l
     | Throw _ => []
     end) = [Normal (VStr "OpenAI")] /\
  map (fun p => get p "name")
    (match computeActive (host := Sample.host) Sample.registry true with
     | Normal l => l
     | Throw _ => []
     end) = [Normal (VStr "OpenAI"); Normal (VStr "Ollama")].
Proof.
  split.
  - rewrite (proj1 (active_providers_exact (host := Sample.host)
                      Sample.registry false eq_refl)).
    vm_compute. reflexivity.
  - rewrite (proj1 (active_providers_exact (host := Sample.host)
                      Sample.registry true eq_refl)).
    vm_compute. reflexivity.
Defined.

Section ActiveProvidersTruthy.
Context {host : Host}.

Lemma inherited_member_name (v : value) : inherited_member v "name" = VUndefined.
Proof. destruct v; reflexivity. Qed.

(** The condition of the first filter, on any entry: it throws when the
    entry or its settings is [undefined] or [null], and is the truthiness
    of [settings.enabled] otherwise. *)
Lemma isEnabled_cases (kv : string * value) :
  isEnabled kv =
  if settings_readable (snd kv) then Normal (enabled_is_truthy (snd kv))
  else Throw TypeError.
Proof.
  destruct kv as [k entry]. unfold isEnabled, settings_readable, enabled_is_truthy.
  simpl. destruct (nullish entry) eqn:Hentry; simpl.
  - unfold get. rewrite Hentry. reflexivity.
  - rewrite (get_own_or_inherited entry "settings" Hentry).
    assert (Hsettings :
              match own_get (own_props entry) "settings" with
              | Some x => x
              | None => inherited_member entry "settings"
              end = settings_of entry).
    { unfold settings_of. destruct (own_get (own_props entry) "settings");
        [reflexivity|]. simpl. destruct entry; reflexivity. }
    rewrite Hsettings.
    destruct (nullish (settings_of entry)) eqn:Hn; simpl.
    + unfold get. rewrite Hn. reflexivity.
    + rewrite (get_own_or_inherited (settings_of entry) "enabled" Hn).
      destruct (own_get (own_props (settings_of entry)) "enabled");
        [reflexivity|].
      simpl. destruct (settings_of entry); reflexivity.
Qed.

(** The condition of the second filter, on any entry that is neither
    [undefined] nor [null]. *)
Lemma notLocal_present (p : value) :
  nullish p = false -> notLocal p = Normal (negb (is_local p)).
Proof.
  intros Hp. unfold notLocal, is_local.
  rewrite (get_own_or_inherited p "name" Hp).
  destruct (own_get (own_props p) "name") as [x|].
  - destruct x; try (rewrite includes_not_a_string by discriminate; reflexivity).
    rewrite includes_elem_of. reflexivity.
  - rewrite inherited_member_name.
    rewrite includes_not_a_string by discriminate. reflexivity.
Qed.

Lemma filterC_cases {A : Type} (p : A -> completion bool) (r q : A -> bool)
    (l : list A) :
  (forall x, p x = if r x then Normal (q x) else Throw TypeError) ->
  filterC p l = if forallb r l then Normal (List.filter q l) else Throw TypeError.
Proof.
  intros Hp. induction l as [|x l IH]; simpl; [reflexivity|].
  rewrite Hp. destruct (r x); simpl; [|reflexivity].
  rewrite IH. destruct (forallb r l); [|reflexivity].
  destruct (q x); reflexivity.
Qed.

(** C3 (amended): for every registry and every value of the local-models
    preference, the effect throws a [TypeError] when some entry, or the
    settings of some entry, is [undefined] or [null]; otherwise the list it
    computes is, in the registry's enumeration order, exactly the entries
    whose [settings.enabled] is truthy, without those whose [name] is a
    local provider name when the preference is [false].  So with the
    preference [false] the list holds no entry whose name is a local
    provider name. *)
Theorem active_providers_truthy (providers : obj) (isLocalModel : bool) :
  let selected :=
    map snd
      (List.filter
         (fun kv => enabled_is_truthy (snd kv)
                    && (isLocalModel || negb (is_local (snd kv))))
         (entries providers)) in
  computeActive providers isLocalModel =
    (if forallb (fun kv => settings_readable (snd kv)) (entries providers)
     then Normal selected else Throw TypeError) /\
  (isLocalModel = false -> Forall (fun p => is_local p = false) selected).
Proof.
  intros selected. split.
  - unfold computeActive.
    rewrite (filterC_cases isEnabled (fun kv => settings_readable (snd kv))
               (fun kv => enabled_is_truthy (snd kv)) _ isEnabled_cases).
    destruct (forallb _ (entries providers)) eqn:Hall; [|reflexivity].
    rewrite forallb_forall in Hall. subst selected.
    destruct isLocalModel; simpl.
    + f_equal. f_equal. apply List.filter_ext. intros kv.
      rewrite andb_true_r. reflexivity.
    + rewrite (filterC_total notLocal (fun p => negb (is_local p))).
      * rewrite filter_map_snd. reflexivity.
      * intros p Hp. apply in_map_iff in Hp as (kv & <- & Hkv).
        apply List.filter_In in Hkv as [Hkv _].
        specialize (Hall kv Hkv). unfold settings_readable in Hall.
        apply andb_true_iff in Hall as [Hentry _].
        apply negb_true_iff in Hentry. apply notLocal_present. exact Hentry.
  - intros ->. subst selected. apply List.Forall_forall. intros p Hp.
    apply in_map_iff in Hp as (kv & <- & Hkv).
    apply List.filter_In in Hkv as [_ Hkv].
    apply andb_true_iff in Hkv as [_ Hkv]. simpl in Hkv.
    apply negb_true_iff. exact Hkv.
Qed.

End ActiveProvidersTruthy.

(** C3 (as stated, refuted): the cookie gives Anthropic the string [false]
    and LMStudio the number [1] for [enabled], and hydration stores both as
    they are.  Neither is [true], yet with the local-models preference on
    the effect lists both providers, after OpenAI and Ollama. *)
Lemma active_providers_untyped_counterexample :
  let s := Sample.page {[ "providers" := Demo.untyped_enabled ]} in
  let s' := exec (hydrateProviders (host := Sample.host) (VObj (providersStore s))) s in
  settings_field (providersStore s') "Anthropic" "enabled" = Some (VStr "false") /\
  settings_field (providersStore s') "LMStudio" "enabled" = Some (VNum 1) /\
  well_typed_registry (providersStore s') = false /\
  map (fun p => get p "name")
    (match computeActive (host := Sample.host) (providersStore s') true with
     | Normal l => l
     | Throw _ => []
     end) =
  [Normal (VStr "OpenAI"); Normal (VStr "Anthropic"); Normal (VStr "Ollama");
   Normal (VStr "LMStudio")] /\
  map enabled_is_true
    (match computeActive (host := Sample.host) (providersStore s') true with
     | Normal l => l
     | Throw _ => []
     end) = [true; false; true; false].
Proof. vm_compute. repeat split; reflexivity. Qed.

(** ** The version freshness check *)

Section Freshness.
Context {host : Host}.

Lemma with_console_nil (s : State) : with_console (console s ++ []) s = s.
Proof. rewrite app_nil_r. destruct s; reflexivity. Qed.

(** What the promise of [checkIsStableVersion] resolves to depends on how
    the fetch settled only, and all the function does to the state is to
    log. *)
Lemma checkIsStableVersion_resume_run (r : FetchOutcome) :
  exists isStable log, forall s,
    checkIsStableVersion_resume r s =
    (Normal isStable, with_console (console s ++ log) s).
Proof.
  unfold checkIsStableVersion_resume. unfold_monad.
  destruct r as [|ok body].
  - eexists false, [_]. intros s. reflexivity.
  - destruct ok; simpl.
    + destruct (JSON_parse body) as [stableData|].
      * unfold get. destruct (nullish stableData).
        -- eexists false, [_]. intros s. reflexivity.
        -- eexists _, []. intros s. rewrite with_console_nil. reflexivity.
      * eexists false, [_]. intros s. reflexivity.
    + eexists false, [_]. intros s. reflexivity.
Qed.

(** C5: however the fetch settles, [checkIsStableVersion] resolves to a
    boolean and never throws.  The boolean is [true] if and only if the
    response has a success status, its body parses as JSON, and the
    [commit] field of the parsed value is the commit of the running build.
    When the fetch rejects, the status is not a success, or the body does
    not parse, the result is [false] and one warning is logged. *)
Theorem checkIsStable_result (r : FetchOutcome) (s : State) :
  let s' := exec (checkIsStableVersion_resume r) s in
  (exists isStable,
     completes (checkIsStableVersion_resume r) s = Normal isStable /\
     (isStable = true <->
      exists body stableData,
        r = FetchResponse true body /\
        JSON_parse body = Some stableData /\
        get stableData "commit" = Normal (VStr (commit commitJson)))) /\
  (r = FetchRejects ->
   completes (checkIsStableVersion_resume r) s = Normal false /\
   s' = with_console
          (console s ++
           [ConsoleWarn "Error checking stable version:" (Some NetworkError)]) s) /\
  (forall body, r = FetchResponse false body ->
   completes (checkIsStableVersion_resume r) s = Normal false /\
   s' = with_console
          (console s ++ [ConsoleWarn "Failed to fetch stable commit info" None]) s) /\
  (forall body, r = FetchResponse true body -> JSON_parse body = None ->
   completes (checkIsStableVersion_resume r) s = Normal false /\
   s' = with_console
          (console s ++
           [ConsoleWarn "Error checking stable version:" (Some SyntaxError)]) s).
Proof.
  intros s'. subst s'. unfold checkIsStableVersion_resume. unfold_monad.
  split; [|split; [|split]].
  - destruct r as [|ok body].
    + exists false. split; [reflexivity|]. split; [discriminate|].
      intros (? & ? & ? & _). discriminate.
    + destruct ok; simpl.
      * destruct (JSON_parse body) as [stableData|] eqn:Hparse.
        -- unfold get. destruct (nullish stableData) eqn:Hn.
           ++ exists false. split; [reflexivity|]. split; [discriminate|].
              intros (b' & d' & Hr & Hp & Hg). injection Hr as <-.
              rewrite Hparse in Hp. injection Hp as <-.
              unfold get in Hg. rewrite Hn in Hg. discriminate.
           ++ eexists. split; [reflexivity|]. split.
              ** intros Heq. exists body, stableData.
                 split; [reflexivity|]. split; [exact Hparse|].
                 unfold get. rewrite Hn. f_equal.
                 unfold str_strict_eq in Heq.
                 destruct (match own_get (own_props stableData) "commit" with
                           | Some x => x
                           | None => inherited_member stableData "commit"
                           end); try discriminate.
                 apply String.eqb_eq in Heq. congruence.
              ** intros (b' & d' & Hr & Hp & Hg). injection Hr as <-.
                 rewrite Hparse in Hp. injection Hp as <-.
                 unfold get in Hg. rewrite Hn in Hg. injection Hg as ->.
                 unfold str_strict_eq. apply String.eqb_refl.
        -- exists false. split; [reflexivity|]. split; [discriminate|].
           intros (b' & d' & Hr & Hp & _). injection Hr as <-. congruence.
      * exists false. split; [reflexivity|]. split; [discriminate|].
        intros (? & ? & ? & _). discriminate.
  - intros ->. split; reflexivity.
  - intros body ->. split; reflexivity.
  - intros body -> Hparse. simpl. rewrite Hparse. split; reflexivity.
Qed.

End Freshness.

(** ** The first effect as a whole *)

Section MountEffect.
Context {host : Host}.

(** The value a boolean preference has after its cookie was looked at. *)
Lemma hydrateFlag_run (name : string) (set : bool -> State -> State) (s : State) :
  hydrateFlag name set s =
  (Normal tt,
   if truthy_str (cookies s !! name)
   then set (String.eqb (default EmptyString (cookies s !! name)) "true") s
   else s).
Proof.
  unfold hydrateFlag. unfold_monad.
  destruct (truthy_str (cookies s !! name)); reflexivity.
Qed.

Lemma hydratePromptId_run (s : State) :
  hydratePromptId s =
  (Normal tt,
   if truthy_str (cookies s !! "promptId")
   then with_promptStore (default EmptyString (cookies s !! "promptId")) s
   else s).
Proof.
  unfold hydratePromptId. unfold_monad.
  destruct (truthy_str (cookies s !! "promptId")); reflexivity.
Qed.

(** Everything the first effect does before it turns to the latest-branch
    preference: it never throws, leaves the cookie jar, the network and the
    latest-branch store alone, and loads the three boolean preferences
    whose cookie is set. *)
Lemma hydrate_prefix (providers : value) (s : State) :
  exists s0,
    hydrate providers s = hydrateLatestBranch s0 /\
    cookies s0 = cookies s /\
    requests s0 = requests s /\
    inflight s0 = inflight s /\
    latestBranchStore s0 = latestBranchStore s /\
    isDebugMode s0 =
      (if truthy_str (cookies s !! "isDebugEnabled")
       then String.eqb (default EmptyString (cookies s !! "isDebugEnabled")) "true"
       else isDebugMode s) /\
    isEventLogsEnabled s0 =
      (if truthy_str (cookies s !! "isEventLogsEnabled")
       then String.eqb (default EmptyString (cookies s !! "isEventLogsEnabled")) "true"
       else isEventLogsEnabled s) /\
    isLocalModelsEnabled s0 =
      (if truthy_str (cookies s !! "isLocalModelsEnabled")
       then String.eqb (default EmptyString (cookies s !! "isLocalModelsEnabled")) "true"
       else isLocalModelsEnabled s).
Proof.
  destruct (hydrateProviders_frame providers s) as (store & log & Hrun).
  unfold hydrate. unfold mbind, M_bind. rewrite Hrun.
  rewrite hydrateFlag_run. simpl.
  destruct (truthy_str (cookies s !! "isDebugEnabled"));
    rewrite hydrateFlag_run; simpl;
    destruct (truthy_str (cookies s !! "isEventLogsEnabled"));
    rewrite hydrateFlag_run; simpl;
    destruct (truthy_str (cookies s !! "isLocalModelsEnabled"));
    rewrite hydratePromptId_run; simpl;
    destruct (truthy_str (cookies s !! "promptId"));
    eexists; (split; [reflexivity|]); simpl; repeat split; reflexivity.
Qed.

(** The last step of the first effect never throws, and touches the
    latest-branch store and the network only. *)
Lemma hydrateLatestBranch_flags (s : State) :
  completes hydrateLatestBranch s = Normal tt /\
  cookies (exec hydrateLatestBranch s) = cookies s /\
  isDebugMode (exec hydrateLatestBranch s) = isDebugMode s /\
  isEventLogsEnabled (exec hydrateLatestBranch s) = isEventLogsEnabled s /\
  isLocalModelsEnabled (exec hydrateLatestBranch s) = isLocalModelsEnabled s.
Proof.
  unfold hydrateLatestBranch, checkIsStableVersion_call. unfold_monad.
  destruct (cookies s !! "isLatestBranch"); simpl;
    [destruct (negb _)|]; simpl; repeat split; reflexivity.
Qed.

(** C4: on mount, with no request in flight, the first effect sends the
    request of the version check if and only if the cookie [isLatestBranch]
    is absent or the cookie [commitHash] is set to something else than the
    commit of the running build (an absent [commitHash] counts as equal).
    When the request is sent and settles, the preference becomes the
    negation of what the check resolves to, and the preference and the
    commit are written to their cookies.  Otherwise the preference is the
    persisted one, read as a boolean, and no request is ever sent. *)
Theorem latest_branch_check_gate (providers : value) (s : State) :
  inflight s = [] ->
  let s1 := exec (hydrate providers) s in
  let s2 := exec settle s1 in
  let build := commit commitJson in
  let gate :=
    cookies s !! "isLatestBranch" = None \/
    exists hash, cookies s !! "commitHash" = Some hash /\ hash <> build in
  completes (hydrate providers) s = Normal tt /\
  (inflight s1 <> [] <-> gate) /\
  (gate ->
   requests s1 = requests s ++ [stableCommitUrl] /\
   inflight s1 = [stableCommitUrl] /\
   exists isStable,
     (forall st, completes (checkIsStableVersion_resume (fetch stableCommitUrl)) st
                 = Normal isStable) /\
     completes settle s1 = Normal tt /\
     latestBranchStore s2 = negb isStable /\
     cookies s2 !! "isLatestBranch" = Some (String_of_bool (negb isStable)) /\
     cookies s2 !! "commitHash" = Some build) /\
  (~ gate ->
   exists saved,
     cookies s !! "isLatestBranch" = Some saved /\
     latestBranchStore s1 = String.eqb saved "true" /\
     requests s1 = requests s /\
     s2 = s1).
Proof.
  intros Hidle s1 s2 build gate.
  destruct (hydrate_prefix providers s)
    as (s0 & Hrun & Hcookies & Hreq & Hfly & _).
  assert (Hgate : gate ->
            hydrate providers s =
            (Normal tt, with_network (requests s ++ [stableCommitUrl])
                          [stableCommitUrl] s0)).
  { intros Hg. rewrite Hrun.
    unfold hydrateLatestBranch, checkIsStableVersion_call. unfold_monad.
    rewrite Hcookies.
    destruct Hg as [Hnone|(hash & Hhash & Hne)].
    - rewrite Hnone, Hreq, Hfly, Hidle. reflexivity.
    - rewrite Hhash. simpl. apply String.eqb_neq in Hne. fold build.
      rewrite Hne. simpl.
      destruct (cookies s !! "isLatestBranch"); rewrite Hreq, Hfly, Hidle;
        reflexivity. }
  assert (Hnogate : ~ gate ->
            exists saved, cookies s !! "isLatestBranch" = Some saved /\
              hydrate providers s =
              (Normal tt, with_latestBranchStore (String.eqb saved "true") s0)).
  { intros Hg. destruct (cookies s !! "isLatestBranch") as [saved|] eqn:Hsaved;
      [|exfalso; apply Hg; left; reflexivity].
    exists saved. split; [reflexivity|]. rewrite Hrun.
    unfold hydrateLatestBranch. unfold_monad. rewrite Hcookies, Hsaved. simpl.
    destruct (cookies s !! "commitHash") as [hash|] eqn:Hhash; simpl.
    - destruct (String.eqb hash (commit commitJson)) eqn:E; [reflexivity|].
      exfalso. apply Hg. right. exists hash. split; [reflexivity|].
      apply String.eqb_neq. exact E.
    - rewrite String.eqb_refl. reflexivity. }
  assert (Hdec : gate \/ ~ gate).
  { subst gate. destruct (cookies s !! "isLatestBranch"); [|left; left; reflexivity].
    destruct (cookies s !! "commitHash") as [hash|].
    - destruct (String.eqb hash build) eqn:E.
      + right. intros [H|(h & H & Hne)]; [discriminate|].
        injection H as <-. apply String.eqb_eq in E. contradiction.
      + left. right. exists hash. split; [reflexivity|].
        apply String.eqb_neq. exact E.
    - right. intros [H|(h & H & _)]; discriminate. }
  split; [|split; [|split]].
  - unfold completes. destruct Hdec as [Hg|Hg].
    + rewrite (Hgate Hg). reflexivity.
    + destruct (Hnogate Hg) as (saved & _ & ->). reflexivity.
  - subst s1. unfold exec. split.
    + intros Hfl. destruct Hdec as [Hg|Hg]; [exact Hg|].
      destruct (Hnogate Hg) as (saved & _ & Heq). rewrite Heq in Hfl.
      simpl in Hfl. rewrite Hfly, Hidle in Hfl. contradiction.
    + intros Hg. rewrite (Hgate Hg). simpl. discriminate.
  - intros Hg. subst s2 s1. unfold exec. rewrite (Hgate Hg). simpl.
    split; [reflexivity|]. split; [reflexivity|].
    destruct (checkIsStableVersion_resume_run (fetch stableCommitUrl))
      as (isStable & log & Hresume).
    exists isStable. split.
    { intros st. unfold completes. rewrite Hresume. reflexivity. }
    unfold settle, completes. simpl. unfold mbind, M_bind.
    rewrite Hresume. unfold latestBranch_then. unfold_monad. simpl.
    split; [reflexivity|]. split; [reflexivity|]. split.
    + rewrite lookup_insert_ne by discriminate. apply lookup_insert_eq.
    + apply lookup_insert_eq.
  - intros Hg. destruct (Hnogate Hg) as (saved & Hsaved & Heq).
    exists saved. split; [exact Hsaved|]. subst s2 s1. unfold exec.
    rewrite Heq. simpl. split; [reflexivity|]. split; [exact Hreq|].
    unfold settle. simpl. rewrite Hfly, Hidle. reflexivity.
Qed.

End MountEffect.

(** No cookie and no request in flight: the check is started.  The
    persisted preference with the commit of the running build: the
    preference is loaded and nothing is requested. *)
Lemma latest_branch_check_gate_witness :
  requests (exec (hydrate (host := Sample.host) (VObj Sample.registry))
              (Sample.page ∅)) =
    ["https://raw.githubusercontent.com/stackblitz-labs/bolt.diy/refs/tags/v0.0.3/app/commit.json"] /\
  (let s := Sample.page {[ "isLatestBranch" := "true"; "commitHash" := "5c2a9d1" ]} in
   let s1 := exec (hydrate (host := Sample.host) (VObj Sample.registry)) s in
   latestBranchStore s1 = true /\ requests s1 = []).
Proof.
  split.
  - destruct (latest_branch_check_gate (host := Sample.host)
                (VObj Sample.registry) (Sample.page ∅) eq_refl)
      as (_ & _ & Hrun & _).
    destruct (Hrun (or_introl eq_refl)) as (Hreq & _).
    rewrite Hreq. vm_compute. reflexivity.
  - destruct (latest_branch_check_gate (host := Sample.host)
                (VObj Sample.registry)
                (Sample.page {[ "isLatestBranch" := "true"; "commitHash" := "5c2a9d1" ]})
                eq_refl)
      as (_ & _ & _ & Hkeep).
    destruct Hkeep as (saved & Hsaved & Hstore & Hreq & _).
    + intros [Hnone|(hash & Hhash & Hne)].
      * vm_compute in Hnone. discriminate Hnone.
      * vm_compute in Hhash. injection Hhash as <-. apply Hne. reflexivity.
    + vm_compute in Hsaved. injection Hsaved as <-.
      split; [exact Hstore | exact Hreq].
Defined.

(** ** The boolean preferences *)

Section Preferences.
Context {host : Host}.

Lemma truthy_str_of_bool (b : bool) : truthy_str (Some (String_of_bool b)) = true.
Proof. destruct b; reflexivity. Qed.

Lemma String_of_bool_true (b : bool) : String.eqb (String_of_bool b) "true" = b.
Proof. destruct b; reflexivity. Qed.

Lemma hydrate_debug (providers : value) (s : State) (b : bool) :
  cookies s !! "isDebugEnabled" = Some (String_of_bool b) ->
  isDebugMode (exec (hydrate providers) s) = b.
Proof.
  intros Hcookie.
  destruct (hydrate_prefix providers s) as (s0 & Hrun & _ & _ & _ & _ & Hflag & _).
  destruct (hydrateLatestBranch_flags s0) as (_ & _ & Hkeep & _).
  unfold exec in *. rewrite Hrun, Hkeep, Hflag, Hcookie, truthy_str_of_bool.
  apply String_of_bool_true.
Qed.

Lemma hydrate_event_logs (providers : value) (s : State) (b : bool) :
  cookies s !! "isEventLogsEnabled" = Some (String_of_bool b) ->
  isEventLogsEnabled (exec (hydrate providers) s) = b.
Proof.
  intros Hcookie.
  destruct (hydrate_prefix providers s)
    as (s0 & Hrun & _ & _ & _ & _ & _ & Hflag & _).
  destruct (hydrateLatestBranch_flags s0) as (_ & _ & _ & Hkeep & _).
  unfold exec in *. rewrite Hrun, Hkeep, Hflag, Hcookie, truthy_str_of_bool.
  apply String_of_bool_true.
Qed.

Lemma hydrate_local_models (providers : value) (s : State) (b : bool) :
  cookies s !! "isLocalModelsEnabled" = Some (String_of_bool b) ->
  isLocalModelsEnabled (exec (hydrate providers) s) = b.
Proof.
  intros Hcookie.
  destruct (hydrate_prefix providers s)
    as (s0 & Hrun & _ & _ & _ & _ & _ & _ & Hflag).
  destruct (hydrateLatestBranch_flags s0) as (_ & _ & _ & _ & Hkeep).
  unfold exec in *. rewrite Hrun, Hkeep, Hflag, Hcookie, truthy_str_of_bool.
  apply String_of_bool_true.
Qed.

(** The latest-branch preference is loaded from its cookie unless the
    cookie [commitHash] names another build: then the store is left as it
    is until the version check settles. *)
Lemma hydrate_latest_branch (providers : value) (s : State) (b : bool) :
  cookies s !! "isLatestBranch" = Some (String_of_bool b) ->
  latestBranchStore (exec (hydrate providers) s) =
  match cookies s !! "commitHash" with
  | Some hash =>
      if String.eqb hash (commit commitJson) then b else latestBranchStore s
  | None => b
  end.
Proof.
  intros Hcookie.
  destruct (hydrate_prefix providers s) as (s0 & Hrun & Hjar & _ & _ & Hstore & _).
  unfold exec. rewrite Hrun.
  unfold hydrateLatestBranch, checkIsStableVersion_call. unfold_monad.
  rewrite Hjar, Hcookie.
  destruct (cookies s !! "commitHash") as [hash|]; simpl.
  - destruct (String.eqb hash (commit commitJson)); simpl.
    + apply String_of_bool_true.
    + exact Hstore.
  - rewrite String.eqb_refl. simpl. apply String_of_bool_true.
Qed.

(** With the latest-branch cookie set and the commit cookie naming another
    build, the first effect leaves the store alone and sends the request
    of the version check; when the request settles, the preference becomes
    the negation of what the check resolves to and is written to its
    cookie, with the commit of the running build. *)
Lemma hydrate_with_stale_commit (providers : value) (s : State)
    (saved hash : string) :
  cookies s !! "isLatestBranch" = Some saved ->
  cookies s !! "commitHash" = Some hash ->
  hash <> commit commitJson ->
  let s1 := exec (hydrate providers) s in
  requests s1 = requests s ++ [stableCommitUrl] /\
  inflight s1 = inflight s ++ [stableCommitUrl] /\
  latestBranchStore s1 = latestBranchStore s /\
  (inflight s = [] ->
   exists isStable,
     (forall st, completes (checkIsStableVersion_resume (fetch stableCommitUrl)) st
                 = Normal isStable) /\
     completes settle s1 = Normal tt /\
     latestBranchStore (exec settle s1) = negb isStable /\
     cookies (exec settle s1) !! "isLatestBranch" =
       Some (String_of_bool (negb isStable)) /\
     cookies (exec settle s1) !! "commitHash" = Some (commit commitJson)).
Proof.
  intros Hsaved Hhash Hne.
  destruct (hydrate_prefix providers s)
    as (s0 & Hrun & Hjar & Hreq & Hfly & Hstore & _).
  assert (Hs1 : hydrate providers s =
            (Normal tt,
             with_network (requests s ++ [stableCommitUrl])
               (inflight s ++ [stableCommitUrl]) s0)).
  { rewrite Hrun. unfold hydrateLatestBranch, checkIsStableVersion_call.
    unfold_monad. rewrite Hjar, Hsaved, Hhash. simpl.
    apply String.eqb_neq in Hne. rewrite Hne. simpl.
    rewrite Hreq, Hfly. reflexivity. }
  cbv zeta. unfold exec at 1 2 3. rewrite Hs1. simpl.
  split; [reflexivity|]. split; [reflexivity|]. split; [exact Hstore|].
  intros Hidle.
  destruct (checkIsStableVersion_resume_run (fetch stableCommitUrl))
    as (isStable & log & Hresume).
  exists isStable. split.
  { intros st. unfold completes. rewrite Hresume. reflexivity. }
  unfold exec, completes. rewrite Hs1. simpl.
  unfold settle. simpl. rewrite Hidle. simpl.
  unfold mbind, M_bind. rewrite Hresume.
  unfold latestBranch_then. unfold_monad. simpl.
  split; [reflexivity|]. split; [reflexivity|]. split.
  - rewrite lookup_insert_ne by discriminate. apply lookup_insert_eq.
  - apply lookup_insert_eq.
Qed.

(** C6 (amended): each of the four setters stores its argument and writes
    the literal [true] or [false] to its cookie.  For the debug, event-logs
    and local-models preferences, a page load that hydrates from the
    cookies the setter left reproduces the argument, whatever the page's
    in-memory state started as.  For the latest-branch preference it does
    so when the cookie [commitHash] is absent or names the running build;
    when it names another build the hydration does not load the persisted
    value: it leaves the store as the page started and sends the request
    of the version check, and once that request settles the preference is
    the negation of what the check resolves to. *)
Theorem boolean_preferences_round_trip (enabled : bool) (s fresh : State)
    (providers : value) :
  let literal := if enabled then "true" else "false" in
  let reloaded (after : State) := exec (hydrate providers) (reload after fresh) in
  (isDebugMode (exec (enableDebugMode enabled) s) = enabled /\
   cookies (exec (enableDebugMode enabled) s) !! "isDebugEnabled" = Some literal /\
   isDebugMode (reloaded (exec (enableDebugMode enabled) s)) = enabled) /\
  (isEventLogsEnabled (exec (enableEventLogs enabled) s) = enabled /\
   cookies (exec (enableEventLogs enabled) s) !! "isEventLogsEnabled" = Some literal /\
   isEventLogsEnabled (reloaded (exec (enableEventLogs enabled) s)) = enabled) /\
  (isLocalModelsEnabled (exec (enableLocalModels enabled) s) = enabled /\
   cookies (exec (enableLocalModels enabled) s) !! "isLocalModelsEnabled" = Some literal /\
   isLocalModelsEnabled (reloaded (exec (enableLocalModels enabled) s)) = enabled) /\
  (latestBranchStore (exec (enableLatestBranch enabled) s) = enabled /\
   cookies (exec (enableLatestBranch enabled) s) !! "isLatestBranch" = Some literal /\
   latestBranchStore (reloaded (exec (enableLatestBranch enabled) s)) =
   match cookies s !! "commitHash" with
   | Some hash =>
       if String.eqb hash (commit commitJson) then enabled
       else latestBranchStore fresh
   | None => enabled
   end) /\
  (forall hash,
     cookies s !! "commitHash" = Some hash ->
     hash <> commit commitJson ->
     let loaded := reloaded (exec (enableLatestBranch enabled) s) in
     requests loaded = requests fresh ++ [stableCommitUrl] /\
     inflight loaded = inflight fresh ++ [stableCommitUrl] /\
     (inflight fresh = [] ->
      exists isStable,
        (forall st,
           completes (checkIsStableVersion_resume (fetch stableCommitUrl)) st
           = Normal isStable) /\
        completes settle loaded = Normal tt /\
        latestBranchStore (exec settle loaded) = negb isStable /\
        cookies (exec settle loaded) !! "isLatestBranch" =
          Some (String_of_bool (negb isStable)) /\
        cookies (exec settle loaded) !! "commitHash" = Some (commit commitJson))).
Proof.
  intros literal reloaded. subst reloaded.
  assert (Hlit : literal = String_of_bool enabled) by reflexivity.
  rewrite Hlit. clear Hlit literal.
  split; [|split; [|split; [|split]]].
  - split; [reflexivity|]. split; [apply lookup_insert_eq|].
    apply hydrate_debug. apply lookup_insert_eq.
  - split; [reflexivity|]. split; [apply lookup_insert_eq|].
    apply hydrate_event_logs. apply lookup_insert_eq.
  - split; [reflexivity|]. split; [apply lookup_insert_eq|].
    apply hydrate_local_models. apply lookup_insert_eq.
  - split; [reflexivity|]. split; [apply lookup_insert_eq|].
    rewrite (hydrate_latest_branch providers _ enabled)
      by apply lookup_insert_eq.
    unfold enableLatestBranch, reload. unfold_monad. simpl.
    rewrite lookup_insert_ne by discriminate. reflexivity.
  - intros hash Hhash Hne loaded.
    assert (Hsaved : cookies (reload (exec (enableLatestBranch enabled) s) fresh)
                       !! "isLatestBranch" = Some (String_of_bool enabled))
      by apply lookup_insert_eq.
    assert (Hhash' : cookies (reload (exec (enableLatestBranch enabled) s) fresh)
                       !! "commitHash" = Some hash).
    { unfold enableLatestBranch, reload. unfold_monad. simpl.
      rewrite lookup_insert_ne by discriminate. exact Hhash. }
    destruct (hydrate_with_stale_commit providers _ _ _ Hsaved Hhash' Hne)
      as (Hreq & Hfly & _ & Hsettle).
    split; [exact Hreq|]. split; [exact Hfly|]. exact Hsettle.
Qed.

End Preferences.

(** C6 (as stated, refuted): the page last saw another build.  The user
    turns the latest-branch preference on and [true] is written to the
    cookie; the next page load, on a network that reports the running build
    as the stable one, does not reproduce [true]: the store holds [false]
    after the hydration, and still does once the version check has
    settled. *)
Lemma latest_branch_round_trip_counterexample :
  let s := Sample.page {[ "commitHash" := "41f0b7e" ]} in
  let after := exec (enableLatestBranch true) s in
  let s1 := exec (hydrate (host := Sample.host_stable) (VObj Sample.registry))
              (reload after (Sample.page ∅)) in
  let s2 := exec (settle (host := Sample.host_stable)) s1 in
  latestBranchStore after = true /\
  cookies after !! "isLatestBranch" = Some "true" /\
  latestBranchStore s1 = false /\
  latestBranchStore s2 = false.
Proof. vm_compute. repeat split; reflexivity. Qed.

(** ** Malformed cookies *)

Section MalformedCookies.
Context {host : Host}.

(** C8 (amended): a [providers] or [apiKeys] cookie whose value is not
    empty and does not parse as JSON makes no loader throw.  The hydration
    of the hook logs one error and leaves the state, the registry
    included, as it was.  In [BaseChat] the initializer of the API keys
    logs one error and yields the empty object; the loading effect logs one
    error per corrupt cookie, removes that cookie, leaves the API keys as
    they were and hands [undefined] provider settings on. *)
Theorem malformed_cookie_recovery (text : string) (s : State) (providers : value) :
  text <> EmptyString ->
  JSON_parse text = None ->
  (cookies s !! "providers" = Some text ->
   hydrateProviders providers s =
     (Normal tt,
      with_console
        (console s ++
         [ConsoleError "Failed to parse providers from cookies:" (Some SyntaxError)])
        s) /\
   loadProviderSettings s =
     (Normal VUndefined,
      with_cookies (delete "providers" (cookies s))
        (with_console
           (console s ++
            [ConsoleError "Error loading Provider Settings from cookies:"
               (Some SyntaxError)])
           s))) /\
  (cookies s !! "apiKeys" = Some text ->
   initialApiKeys s =
     (Normal (VObj []),
      with_console
        (console s ++
         [ConsoleError "Failed to parse API keys from cookies:" (Some SyntaxError)])
        s) /\
   loadApiKeys s =
     (Normal tt,
      with_cookies (delete "apiKeys" (cookies s))
        (with_console
           (console s ++
            [ConsoleError "Error loading API keys from cookies:" (Some SyntaxError)])
           s))).
Proof.
  intros Htext Hparse.
  pose proof (truthy_str_nonempty _ Htext) as Htruthy.
  split; intros Hcookie.
  - split.
    + unfold hydrateProviders. unfold_monad.
      rewrite Hcookie, Htruthy. simpl. rewrite Hparse. reflexivity.
    + unfold loadProviderSettings. unfold_monad.
      rewrite Hcookie, Htruthy. simpl. rewrite Hparse. reflexivity.
  - split.
    + unfold initialApiKeys. unfold_monad.
      rewrite Hcookie, Htruthy. simpl. rewrite Hparse. reflexivity.
    + unfold loadApiKeys. unfold_monad.
      rewrite Hcookie, Htruthy. simpl. rewrite Hparse. reflexivity.
Qed.

End MalformedCookies.

(** Both cookies garbled: the registry and the API keys are those of the
    fresh page, four errors are on the console, and [BaseChat] has removed
    both cookies. *)
Lemma malformed_cookie_recovery_witness :
  let s := Sample.page {[ "providers" := Sample.garbled; "apiKeys" := Sample.garbled ]} in
  let s1 := exec (hydrateProviders (host := Sample.host) (VObj Sample.registry)) s in
  let s2 := exec (mountBaseChat (host := Sample.host)) s1 in
  providersStore s1 = Sample.registry /\
  completes (mountBaseChat (host := Sample.host)) s1 = Normal tt /\
  apiKeys s2 = VObj [] /\
  length (console s2) = 4 /\
  cookies s2 = ∅.
Proof.
  pose proof (malformed_cookie_recovery (host := Sample.host) Sample.garbled
                (Sample.page {[ "providers" := Sample.garbled;
                                 "apiKeys" := Sample.garbled ]})
                (VObj Sample.registry)) as H.
  destruct H as [Hproviders _].
  - discriminate.
  - vm_compute. reflexivity.
  - destruct (Hproviders eq_refl) as [Hrun _].
    cbv zeta. unfold exec, completes. rewrite Hrun.
    vm_compute. repeat split; reflexivity.
Defined.

(** C8 (as stated, refuted): the empty string does not parse as JSON, and
    cookies holding it are skipped by the guards of the loaders: nothing is
    logged and [BaseChat] leaves the cookies in the jar. *)
Lemma empty_cookie_counterexample :
  let s := Sample.page {[ "providers" := EmptyString; "apiKeys" := EmptyString ]} in
  let s1 := exec (hydrateProviders (host := Sample.host) (VObj Sample.registry)) s in
  let s2 := exec (mountBaseChat (host := Sample.host)) s in
  JSON_parse (Host := Sample.host) EmptyString = None /\
  console s1 = [] /\
  console s2 = [] /\
  cookies s2 !! "providers" = Some EmptyString /\
  cookies s2 !! "apiKeys" = Some EmptyString.
Proof. vm_compute. repeat split; reflexivity. Qed.

(** ** [updateProviderSettings] *)

Section UpdateProviderSettings.
Context {host : Host}.

Lemma inherited_member_settings (v : value) :
  inherited_member v "settings" = VUndefined.
Proof. destruct v; reflexivity. Qed.

(** C9 (amended): [providers] in the callback is the registry of the
    render that created it.  For a name that registry holds,
    [updateProviderSettings] does not throw; a field of the provider's
    settings is afterwards what [config] gives it when [config] mentions
    it, and otherwise what the render read for it; the other fields of the
    entry are those the render read; every other provider's entry in the
    store, the order of a store that holds the name, and the rest of the
    state are unchanged.  When the store has not changed since the render,
    what the render read is what the store holds, and the call merges
    [config] into the provider's existing settings. *)
Theorem updateProviderSettings_merges (rendered : obj) (s : State) (name : string)
    (entry config : value) :
  own_get rendered name = Some entry ->
  nullish entry = false ->
  let s' := exec (updateProviderSettings (VObj rendered) name config) s in
  let before := default VUndefined (own_get (own_props entry) "settings") in
  completes (updateProviderSettings (VObj rendered) name config) s = Normal tt /\
  (forall f,
     settings_field (providersStore s') name f =
     match own_get (own_props config) f with
     | Some v => Some v
     | None => own_get (own_props before) f
     end) /\
  (forall f, f <> "settings" ->
     entry_field (providersStore s') name f = own_get (own_props entry) f) /\
  (forall other, other <> name ->
     own_get (providersStore s') other = own_get (providersStore s) other) /\
  (has_own (providersStore s) name = true ->
   map fst (providersStore s') = map fst (providersStore s)) /\
  s' = with_providersStore (providersStore s') s /\
  (rendered = providersStore s ->
   (forall f,
      settings_field (providersStore s') name f =
      match own_get (own_props config) f with
      | Some v => Some v
      | None =>
          match entry_field (providersStore s) name "settings" with
          | Some settings => own_get (own_props settings) f
          | None => None
          end
      end) /\
   (forall f, f <> "settings" ->
      entry_field (providersStore s') name f =
      entry_field (providersStore s) name f) /\
   map fst (providersStore s') = map fst (providersStore s)).
Proof.
  intros Hentry Hn s' before.
  assert (Hsettings : get entry "settings" = Normal before).
  { unfold get. rewrite Hn. subst before.
    destruct (own_get (own_props entry) "settings"); [reflexivity|].
    rewrite inherited_member_settings. reflexivity. }
  assert (Hrun : updateProviderSettings (VObj rendered) name config s =
            (Normal tt,
             with_providersStore
               (obj_set name
                  (VObj (obj_set "settings"
                           (VObj (spread config (spread before [])))
                           (spread entry [])))
                  (providersStore s)) s)).
  { unfold updateProviderSettings. unfold_monad.
    unfold get at 1. simpl. rewrite Hentry, Hsettings. reflexivity. }
  assert (Hfields : forall f,
            settings_field (providersStore s') name f =
            match own_get (own_props config) f with
            | Some v => Some v
            | None => own_get (own_props before) f
            end).
  { intros f. subst s'. unfold exec. rewrite Hrun. simpl.
    unfold settings_field, entry_field. rewrite own_get_obj_set_eq. simpl.
    rewrite own_get_obj_set_eq. simpl.
    rewrite own_get_spread, own_get_spread_empty. reflexivity. }
  assert (Hothers : forall f, f <> "settings" ->
            entry_field (providersStore s') name f = own_get (own_props entry) f).
  { intros f Hf. subst s'. unfold exec. rewrite Hrun. simpl.
    unfold entry_field. rewrite own_get_obj_set_eq. simpl.
    rewrite own_get_obj_set_ne by congruence. apply own_get_spread_empty. }
  assert (Horder : has_own (providersStore s) name = true ->
            map fst (providersStore s') = map fst (providersStore s)).
  { intros Hown. subst s'. unfold exec. rewrite Hrun. simpl.
    unfold obj_set. rewrite Hown. apply keys_obj_replace. }
  split; [unfold completes; rewrite Hrun; reflexivity|].
  split; [exact Hfields|]. split; [exact Hothers|]. split; [|split; [exact Horder|split]].
  - intros other Hother. subst s'. unfold exec. rewrite Hrun. simpl.
    apply own_get_obj_set_ne. congruence.
  - subst s'. unfold exec. rewrite Hrun. reflexivity.
  - intros ->. split; [|split].
    + intros f. rewrite Hfields. unfold entry_field. rewrite Hentry.
      subst before.
      destruct (own_get (own_props config) f); [reflexivity|].
      destruct (own_get (own_props entry) "settings"); reflexivity.
    + intros f Hf. rewrite (Hothers f Hf). unfold entry_field.
      rewrite Hentry. reflexivity.
    + apply Horder. unfold has_own. rewrite Hentry. reflexivity.
Qed.

(** C10 (amended): for a name that the registry does not hold and that
    [Object.prototype] does not define, [updateProviderSettings] throws a
    [TypeError] and changes nothing. *)
Theorem updateProviderSettings_unknown_throws (s : State) (name : string)
    (config : value) :
  own_get (providersStore s) name = None ->
  inherited name = false ->
  updateProviderSettings (VObj (providersStore s)) name config s =
  (Throw TypeError, s).
Proof.
  intros Hnone Hproto. unfold updateProviderSettings. unfold_monad.
  rewrite (get_missing _ _ Hnone Hproto). reflexivity.
Qed.

End UpdateProviderSettings.

(** OpenAI gets a new [baseUrl]: its [enabled] flag and its name stay, and
    Anthropic is untouched. *)
Lemma updateProviderSettings_merges_witness :
  let s := Sample.page ∅ in
  let config := VObj [("baseUrl", VStr "https://proxy.example.test")] in
  let s' := exec (updateProviderSettings (VObj (providersStore s)) "OpenAI" config) s in
  settings_field (providersStore s') "OpenAI" "baseUrl" =
    Some (VStr "https://proxy.example.test") /\
  settings_field (providersStore s') "OpenAI" "enabled" = Some (VBool true) /\
  entry_field (providersStore s') "OpenAI" "name" = Some (VStr "OpenAI") /\
  own_get (providersStore s') "Anthropic" = own_get Sample.registry "Anthropic".
Proof.
  destruct (updateProviderSettings_merges Sample.registry (Sample.page ∅) "OpenAI"
              (VObj [("name", VStr "OpenAI");
                     ("settings",
                      VObj [("enabled", VBool true);
                            ("baseUrl", VStr "https://api.example.test")])])
              (VObj [("baseUrl", VStr "https://proxy.example.test")])
              eq_refl eq_refl)
    as (_ & Hsettings & Hfields & Hothers & _).
  split; [|split; [|split]].
  - refine (eq_trans (Hsettings "baseUrl") _). reflexivity.
  - refine (eq_trans (Hsettings "enabled") _). reflexivity.
  - refine (eq_trans (Hfields "name" _) _); [discriminate | reflexivity].
  - apply Hothers. discriminate.
Defined.

(** C9 (as stated, refuted): two calls from the same render.  The first
    stores a proxy as OpenAI's [baseUrl]; the second only disables OpenAI,
    and its [config] does not mention [baseUrl]; yet after it the
    [baseUrl] is no longer the one the registry held before the call, but
    the one the render had read. *)
Lemma updateProviderSettings_stale_render_counterexample :
  let s := Sample.page ∅ in
  let rendered := VObj (providersStore s) in
  let config1 := VObj [("baseUrl", VStr "https://proxy.example.test")] in
  let config2 := VObj [("enabled", VBool false)] in
  let s1 := exec (updateProviderSettings rendered "OpenAI" config1) s in
  let s2 := exec (updateProviderSettings rendered "OpenAI" config2) s1 in
  settings_field (providersStore s1) "OpenAI" "baseUrl" =
    Some (VStr "https://proxy.example.test") /\
  own_get (own_props config2) "baseUrl" = None /\
  completes (updateProviderSettings rendered "OpenAI" config2) s1 = Normal tt /\
  settings_field (providersStore s2) "OpenAI" "baseUrl" =
    Some (VStr "https://api.example.test").
Proof. vm_compute. repeat split; reflexivity. Qed.

(** Together is not in the registry: the call throws. *)
Lemma updateProviderSettings_unknown_throws_witness :
  updateProviderSettings (VObj Sample.registry) "Together"
    (VObj [("enabled", VBool false)]) (Sample.page ∅) =
  (Throw TypeError, Sample.page ∅).
Proof.
  apply (updateProviderSettings_unknown_throws (Sample.page ∅) "Together"
           (VObj [("enabled", VBool false)])).
  - reflexivity.
  - reflexivity.
Defined.

(** C10 (as stated, refuted): the registry has no entry named [toString],
    but reading [providers.toString] finds the method every object
    inherits, whose [settings] is [undefined]: the call does not throw, and
    creates an entry that holds the given settings and nothing else. *)
Lemma updateProviderSettings_inherited_name_counterexample :
  let s := Sample.page ∅ in
  let config := VObj [("enabled", VBool false)] in
  has_own (providersStore s) "toString" = false /\
  updateProviderSettings (VObj (providersStore s)) "toString" config s =
  (Normal tt,
   with_providersStore
     (Sample.registry ++
      [("toString", VObj [("settings", VObj [("enabled", VBool false)])])]) s).
Proof. vm_compute. split; reflexivity. Qed.

(** * Further properties of the two components *)

(** ** What the first effect reads and what it leaves alone *)

Section HydrationFrame.
Context {host : Host}.

(** The first effect up to the latest-branch step, with every part of the
    state it leaves alone and the prompt it loads. *)
Lemma hydrate_prefix_frame (providers : value) (s : State) :
  exists s0,
    hydrate providers s = hydrateLatestBranch s0 /\
    cookies s0 = cookies s /\
    logStore s0 = logStore s /\
    activeProviders s0 = activeProviders s /\
    apiKeys s0 = apiKeys s /\
    modelListCalls s0 = modelListCalls s /\
    requests s0 = requests s /\
    inflight s0 = inflight s /\
    promptStore s0 =
      (if truthy_str (cookies s !! "promptId")
       then default EmptyString (cookies s !! "promptId")
       else promptStore s).
Proof.
  destruct (hydrateProviders_frame providers s) as (store & log & Hrun).
  unfold hydrate. unfold mbind, M_bind. rewrite Hrun.
  rewrite hydrateFlag_run. simpl.
  destruct (truthy_str (cookies s !! "isDebugEnabled"));
    rewrite hydrateFlag_run; simpl;
    destruct (truthy_str (cookies s !! "isEventLogsEnabled"));
    rewrite hydrateFlag_run; simpl;
    destruct (truthy_str (cookies s !! "isLocalModelsEnabled"));
    rewrite hydratePromptId_run; simpl;
    destruct (truthy_str (cookies s !! "promptId"));
    eexists; (split; [reflexivity|]); simpl; repeat split; reflexivity.
Qed.

(** The latest-branch step writes to its store and to the network only. *)
Lemma hydrateLatestBranch_frame (s : State) :
  let s' := exec hydrateLatestBranch s in
  completes hydrateLatestBranch s = Normal tt /\
  cookies s' = cookies s /\
  logStore s' = logStore s /\
  activeProviders s' = activeProviders s /\
  apiKeys s' = apiKeys s /\
  modelListCalls s' = modelListCalls s /\
  promptStore s' = promptStore s /\
  (requests s' = requests s /\ inflight s' = inflight s \/
   requests s' = requests s ++ [stableCommitUrl] /\
   inflight s' = inflight s ++ [stableCommitUrl]).
Proof.
  unfold hydrateLatestBranch, checkIsStableVersion_call. unfold_monad.
  destruct (cookies s !! "isLatestBranch"); simpl;
    [destruct (negb _)|]; simpl; repeat split; auto.
Qed.

(** X1: whatever the cookies hold, the first effect of the hook does not
    throw, writes no cookie, emits no system log entry and touches neither
    the active-provider list nor the API keys; of the network it does
    nothing, or sends the one request of the version check. *)
Theorem hydrate_reads_only (providers : value) (s : State) :
  let s' := exec (hydrate providers) s in
  completes (hydrate providers) s = Normal tt /\
  cookies s' = cookies s /\
  logStore s' = logStore s /\
  activeProviders s' = activeProviders s /\
  apiKeys s' = apiKeys s /\
  (requests s' = requests s \/ requests s' = requests s ++ [stableCommitUrl]).
Proof.
  destruct (hydrate_prefix_frame providers s)
    as (s0 & Hrun & Hjar & Hlog & Hact & Hkeys & _ & Hreq & _).
  destruct (hydrateLatestBranch_frame s0)
    as (Hc & Hjar' & Hlog' & Hact' & Hkeys' & _ & _ & Hnet).
  unfold exec, completes in *. cbv zeta. rewrite Hrun.
  split; [exact Hc|].
  split; [congruence|]. split; [congruence|]. split; [congruence|].
  split; [congruence|].
  destruct Hnet as [[Hr _]|[Hr _]]; [left|right]; congruence.
Qed.

(** X2: after the first effect, each of the three boolean preferences is
    [true] exactly when its cookie holds the literal [true], [false] for any
    other text that is not empty, and what it was in memory when the cookie
    is absent or empty. *)
Theorem hydrate_flags_literal (providers : value) (s : State) :
  let s' := exec (hydrate providers) s in
  let loaded (saved : option string) (current : bool) :=
    match saved with
    | Some text =>
        if String.eqb text EmptyString then current else String.eqb text "true"
    | None => current
    end in
  isDebugMode s' = loaded (cookies s !! "isDebugEnabled") (isDebugMode s) /\
  isEventLogsEnabled s' =
    loaded (cookies s !! "isEventLogsEnabled") (isEventLogsEnabled s) /\
  isLocalModelsEnabled s' =
    loaded (cookies s !! "isLocalModelsEnabled") (isLocalModelsEnabled s).
Proof.
  destruct (hydrate_prefix providers s)
    as (s0 & Hrun & _ & _ & _ & _ & Hdebug & Hevent & Hlocal).
  destruct (hydrateLatestBranch_flags s0) as (_ & _ & Hd & He & Hl).
  unfold exec in *. cbv zeta. rewrite Hrun, Hd, He, Hl, Hdebug, Hevent, Hlocal.
  unfold truthy_str.
  destruct (cookies s !! "isDebugEnabled") as [d|];
    destruct (cookies s !! "isEventLogsEnabled") as [e|];
    destruct (cookies s !! "isLocalModelsEnabled") as [l|]; simpl;
    repeat match goal with
           | |- context [String.eqb ?x EmptyString] =>
               destruct (String.eqb x EmptyString)
           end; simpl; repeat split; reflexivity.
Qed.

(** X3: [setPromptId] stores the id and writes it to its cookie; the next
    page load restores it, unless it is the empty string: an empty cookie
    is skipped and the page keeps the prompt it started with. *)
Theorem promptId_round_trip (promptId : string) (s fresh : State)
    (providers : value) :
  let after := exec (setPromptId promptId) s in
  promptStore after = promptId /\
  cookies after !! "promptId" = Some promptId /\
  promptStore (exec (hydrate providers) (reload after fresh)) =
    (if String.eqb promptId EmptyString then promptStore fresh else promptId).
Proof.
  cbv zeta. split; [reflexivity|]. split; [apply lookup_insert_eq|].
  destruct (hydrate_prefix_frame providers (reload (exec (setPromptId promptId) s) fresh))
    as (s0 & Hrun & _ & _ & _ & _ & _ & _ & _ & Hprompt).
  destruct (hydrateLatestBranch_frame s0) as (_ & _ & _ & _ & _ & _ & Hkeep & _).
  unfold exec in *. rewrite Hrun, Hkeep, Hprompt.
  unfold setPromptId, reload. unfold_monad. simpl.
  rewrite lookup_insert_eq. simpl.
  destruct (String.eqb promptId EmptyString); reflexivity.
Qed.

End HydrationFrame.

(** ** The version check over page loads *)

Section CheckOverLoads.
Context {host : Host}.

(** With the latest-branch cookie set and the commit cookie absent or
    naming the running build, the first effect loads the preference and
    leaves the network alone. *)
Lemma hydrate_without_gate (providers : value) (s : State) (saved : string) :
  cookies s !! "isLatestBranch" = Some saved ->
  cookies s !! "commitHash" = None \/
  cookies s !! "commitHash" = Some (commit commitJson) ->
  let s' := exec (hydrate providers) s in
  requests s' = requests s /\
  inflight s' = inflight s /\
  latestBranchStore s' = String.eqb saved "true".
Proof.
  intros Hsaved Hhash.
  destruct (hydrate_prefix providers s) as (s0 & Hrun & Hjar & Hreq & Hfly & _).
  unfold exec. cbv zeta. rewrite Hrun.
  unfold hydrateLatestBranch. unfold_monad. rewrite Hjar, Hsaved.
  destruct Hhash as [-> | ->]; simpl; rewrite String.eqb_refl; simpl; auto.
Qed.

(** Once the first effect has run and its request, if any, has settled,
    the latest-branch cookie is set and agrees with the store, the commit
    cookie does not name another build, and nothing is in flight. *)
Lemma hydrate_settle_cookies (providers : value) (s : State) :
  inflight s = [] ->
  let s2 := exec settle (exec (hydrate providers) s) in
  exists saved,
    cookies s2 !! "isLatestBranch" = Some saved /\
    (cookies s2 !! "commitHash" = None \/
     cookies s2 !! "commitHash" = Some (commit commitJson)) /\
    latestBranchStore s2 = String.eqb saved "true" /\
    inflight s2 = [].
Proof.
  intros Hidle.
  destruct (hydrate_prefix providers s) as (s0 & Hrun & Hjar & Hreq & Hfly & _).
  assert (Hchecked : forall st,
            inflight st = [stableCommitUrl] -> 
            exists saved,
              cookies (exec settle st) !! "isLatestBranch" = Some saved /\
              (cookies (exec settle st) !! "commitHash" = None \/
               cookies (exec settle st) !! "commitHash" = Some (commit commitJson)) /\
              latestBranchStore (exec settle st) = String.eqb saved "true" /\
              inflight (exec settle st) = []).
  { intros st Hst.
    destruct (checkIsStableVersion_resume_run (fetch stableCommitUrl))
      as (isStable & log & Hresume).
    exists (String_of_bool (negb isStable)).
    unfold exec, settle. rewrite Hst. unfold mbind, M_bind. rewrite Hresume.
    unfold latestBranch_then. unfold_monad. simpl.
    split; [rewrite lookup_insert_ne by discriminate; apply lookup_insert_eq|].
    split; [right; apply lookup_insert_eq|].
    split; [destruct isStable; reflexivity | reflexivity]. }
  assert (Hidle0 : inflight s0 = []) by congruence.
  unfold exec at 2. cbv zeta. rewrite Hrun.
  unfold hydrateLatestBranch, checkIsStableVersion_call. unfold_monad. rewrite Hjar.
  destruct (cookies s !! "isLatestBranch") as [saved|] eqn:Hsaved; simpl.
  - destruct (cookies s !! "commitHash") as [hash|] eqn:Hhash; simpl.
    + destruct (String.eqb hash (commit commitJson)) eqn:E; simpl.
      * exists saved. unfold exec, settle. simpl. rewrite Hidle0. simpl.
        rewrite Hjar, Hsaved, Hhash. apply String.eqb_eq in E. subst hash.
        auto.
      * apply Hchecked. simpl. rewrite Hidle0. reflexivity.
    + rewrite String.eqb_refl. simpl.
      exists saved. unfold exec, settle. simpl. rewrite Hidle0. simpl.
      rewrite Hjar, Hsaved, Hhash. auto.
  - apply Hchecked. simpl. rewrite Hidle0. reflexivity.
Qed.

(** X4: the version check runs at most once per build.  After a page load
    whose request, if one was sent, has settled, the next page load sends
    no request and loads the latest-branch preference the first one ended
    with. *)
Theorem version_check_runs_once (providers providers' : value) (s fresh : State) :
  inflight s = [] ->
  let s2 := exec settle (exec (hydrate providers) s) in
  let s3 := exec (hydrate providers') (reload s2 fresh) in
  requests s3 = requests fresh /\
  inflight s3 = inflight fresh /\
  latestBranchStore s3 = latestBranchStore s2.
Proof.
  intros Hidle s2 s3.
  destruct (hydrate_settle_cookies providers s Hidle)
    as (saved & Hsaved & Hhash & Hstore & _).
  fold s2 in Hsaved, Hhash, Hstore.
  destruct (hydrate_without_gate providers' (reload s2 fresh) saved Hsaved Hhash)
    as (Hreq & Hfly & Hlatest).
  subst s3. rewrite Hreq, Hfly, Hlatest, Hstore. auto.
Qed.

(** X5: once the version check has settled for the running build, the
    user's choice is authoritative: what [enableLatestBranch] was called
    with is what the next page load restores, and that load sends no
    request. *)
Theorem latest_branch_choice_survives (providers providers' : value)
    (s fresh : State) (enabled : bool) :
  inflight s = [] ->
  let s2 := exec settle (exec (hydrate providers) s) in
  let chosen := exec (enableLatestBranch enabled) s2 in
  let s3 := exec (hydrate providers') (reload chosen fresh) in
  latestBranchStore s3 = enabled /\
  requests s3 = requests fresh.
Proof.
  intros Hidle s2 chosen s3.
  destruct (hydrate_settle_cookies providers s Hidle)
    as (saved & _ & Hhash & _ & _).
  fold s2 in Hhash.
  assert (Hcookie : cookies (reload chosen fresh) !! "isLatestBranch" =
            Some (String_of_bool enabled)) by apply lookup_insert_eq.
  assert (Hhash' : cookies (reload chosen fresh) !! "commitHash" = None \/
            cookies (reload chosen fresh) !! "commitHash" =
            Some (commit commitJson)).
  { subst chosen. unfold enableLatestBranch, reload. unfold_monad. simpl.
    rewrite lookup_insert_ne by discriminate. exact Hhash. }
  destruct (hydrate_without_gate providers' _ _ Hcookie Hhash')
    as (Hreq & _ & Hlatest).
  subst s3. rewrite Hreq, Hlatest. split; [|reflexivity].
  destruct enabled; reflexivity.
Qed.

End CheckOverLoads.

(** A first visit on a network that is down: the check gives up and turns
    the preference on; the second visit asks nothing and keeps it on. *)
Lemma version_check_runs_once_witness :
  let s2 := exec (settle (host := Sample.host))
              (exec (hydrate (host := Sample.host) (VObj Sample.registry))
                 (Sample.page ∅)) in
  let s3 := exec (hydrate (host := Sample.host) (VObj Sample.registry))
              (reload s2 (Sample.page ∅)) in
  latestBranchStore s2 = true /\ requests s3 = [] /\ latestBranchStore s3 = true.
Proof.
  destruct (version_check_runs_once (host := Sample.host)
              (VObj Sample.registry) (VObj Sample.registry)
              (Sample.page ∅) (Sample.page ∅) eq_refl)
    as (Hreq & _ & Hlatest).
  split; [vm_compute; reflexivity|]. split; [exact Hreq|].
  rewrite Hlatest. vm_compute. reflexivity.
Defined.

(** After that first visit the user turns the preference off: it is off
    on the next visit. *)
Lemma latest_branch_choice_survives_witness :
  let s2 := exec (settle (host := Sample.host))
              (exec (hydrate (host := Sample.host) (VObj Sample.registry))
                 (Sample.page ∅)) in
  let s3 := exec (hydrate (host := Sample.host) (VObj Sample.registry))
              (reload (exec (enableLatestBranch false) s2) (Sample.page ∅)) in
  latestBranchStore s2 = true /\ latestBranchStore s3 = false.
Proof.
  split; [vm_compute; reflexivity|].
  exact (proj1 (latest_branch_choice_survives (host := Sample.host)
                  (VObj Sample.registry) (VObj Sample.registry)
                  (Sample.page ∅) (Sample.page ∅) false eq_refl)).
Defined.

(** ** Writing the registry to its cookie *)

Section PersistProviders.
Context {host : Host}.

Lemma Forall_obj_replace (P : value -> Prop) (k : string) (v : value) (o : obj) :
  P v -> Forall P (map snd o) -> Forall P (map snd (obj_replace k v o)).
Proof.
  intros Hv. induction o as [|[k0 v0] o IH]; simpl; intros Ho; [constructor|].
  apply Forall_cons in Ho as [H0 Ho].
  destruct (String.eqb k0 k); simpl; constructor; auto.
Qed.

Lemma Forall_obj_insert_index (P : value -> Prop) (n : N) (k : string)
    (v : value) (o : obj) :
  P v -> Forall P (map snd o) -> Forall P (map snd (obj_insert_index n k v o)).
Proof.
  intros Hv. induction o as [|[k0 v0] o IH]; simpl; intros Ho.
  - constructor; [exact Hv | constructor].
  - pose proof Ho as Ho'. apply Forall_cons in Ho' as [H0 Hrest].
    destruct (array_index k0) as [m|]; [destruct (m <? n)%N|]; simpl;
      constructor; auto.
Qed.

(** A write keeps a property that all the values of an object have, when
    the written value has it. *)
Lemma Forall_obj_set (P : value -> Prop) (k : string) (v : value) (o : obj) :
  P v -> Forall P (map snd o) -> Forall P (map snd (obj_set k v o)).
Proof.
  intros Hv Ho. unfold obj_set. destruct (has_own o k).
  - apply Forall_obj_replace; assumption.
  - destruct (array_index k).
    + apply Forall_obj_insert_index; assumption.
    + rewrite map_app. apply Forall_app. split; [exact Ho|].
      constructor; [exact Hv | constructor].
Qed.

Lemma get_settings (entry : value) :
  nullish entry = false -> get entry "settings" = Normal (settings_of entry).
Proof.
  intros Hn. unfold get, settings_of. rewrite Hn.
  destruct (own_get (own_props entry) "settings"); [reflexivity|].
  simpl. rewrite inherited_member_settings. reflexivity.
Qed.

(** Every key of a well typed registry leads to a well typed entry. *)
Lemma well_typed_lookup (registry : obj) (k : string) :
  well_typed_registry registry = true ->
  In k (map fst registry) ->
  exists entry, own_get registry k = Some entry /\ well_typed_entry entry = true.
Proof.
  intros Htyped Hk. unfold well_typed_registry in Htyped.
  rewrite forallb_forall in Htyped.
  destruct (own_key_lookup _ _ Hk) as (entry & Hentry & _).
  exists entry. split; [exact Hentry|].
  specialize (Htyped (k, entry)). apply Htyped.
  unfold entries. apply in_map_iff. exists k. rewrite Hentry. auto.
Qed.

Lemma well_typed_settings (entry : value) :
  well_typed_entry entry = true ->
  nullish entry = false /\
  exists settings, settings_of entry = VObj settings /\
    own_get (own_props entry) "settings" = Some (VObj settings).
Proof.
  unfold well_typed_entry, settings_of.
  destruct entry as [| | | | | |fields|]; try discriminate. simpl.
  destruct (own_get fields "settings") as [[| | | | | |settings|]|];
    try discriminate.
  intros _. split; [reflexivity|]. exists settings. auto.
Qed.

(** The loop of the second effect, over any part of the registry's keys:
    every key but [__proto__] ends up holding the settings of its entry. *)
Lemma collectSettings_run (registry : obj) (ks : list string) (acc : obj) :
  well_typed_registry registry = true ->
  (forall k, In k ks -> In k (map fst registry)) ->
  Forall (fun v => nullish v = false) (map snd acc) ->
  exists ps,
    fold_left (collectSettings (VObj registry)) ks (Normal acc) = Normal ps /\
    Forall (fun v => nullish v = false) (map snd ps) /\
    forall name,
      own_get ps name =
      if existsb (String.eqb name) ks && negb (String.eqb name "__proto__")
      then option_map settings_of (own_get registry name)
      else own_get acc name.
Proof.
  intros Htyped. revert acc.
  induction ks as [|k ks IH]; intros acc Hks Hacc; cbn [fold_left existsb].
  - exists acc. auto.
  - destruct (well_typed_lookup registry k Htyped (Hks k (or_introl eq_refl)))
      as (entry & Hentry & Hwt).
    destruct (well_typed_settings entry Hwt) as (Hn & settings & Hset & _).
    assert (Hget : get (VObj registry) k = Normal entry)
      by (apply get_own; [reflexivity | exact Hentry]).
    assert (Hstep : collectSettings (VObj registry) (Normal acc) k =
              if String.eqb k "__proto__" then Normal acc
              else Normal (obj_set k (settings_of entry) acc)).
    { unfold collectSettings. rewrite Hget, (get_settings entry Hn). reflexivity. }
    rewrite Hstep. clear Hstep.
    destruct (String.eqb k "__proto__") eqn:Eproto.
    + destruct (IH acc) as (ps & Hrun & Hall & Hps); auto.
      { intros k' Hk'. apply Hks. right. exact Hk'. }
      exists ps. split; [exact Hrun|]. split; [exact Hall|].
      intros name. rewrite Hps.
      destruct (String.eqb name k) eqn:E; simpl; [|reflexivity].
      apply String.eqb_eq in E. subst name. rewrite Eproto. simpl.
      rewrite andb_false_r. reflexivity.
    + destruct (IH (obj_set k (settings_of entry) acc)) as (ps & Hrun & Hall & Hps).
      { intros k' Hk'. apply Hks. right. exact Hk'. }
      { apply Forall_obj_set; [rewrite Hset; reflexivity | exact Hacc]. }
      exists ps. split; [exact Hrun|]. split; [exact Hall|].
      intros name. rewrite Hps, own_get_obj_set.
      destruct (String.eqb name k) eqn:E; simpl.
      * apply String.eqb_eq in E. subst name. rewrite Eproto, String.eqb_refl.
        simpl. rewrite Hentry. simpl.
        destruct (existsb (String.eqb k) ks); reflexivity.
      * assert (E' : String.eqb k name = false)
          by (rewrite String.eqb_sym; exact E).
        rewrite E'. reflexivity.
Qed.

(** What the second effect serializes. *)
Lemma providerSetting_run (registry : obj) :
  well_typed_registry registry = true ->
  exists ps,
    providerSetting registry = Normal ps /\
    Forall (fun v => nullish v = false) (map snd ps) /\
    forall name,
      own_get ps name =
      if String.eqb name "__proto__" then None
      else option_map settings_of (own_get registry name).
Proof.
  intros Htyped.
  destruct (collectSettings_run registry (map fst registry) [] Htyped)
    as (ps & Hrun & Hall & Hps); [auto | constructor |].
  exists ps. split; [exact Hrun|]. split; [exact Hall|].
  intros name. rewrite Hps.
  destruct (String.eqb name "__proto__"); simpl;
    [rewrite andb_false_r; reflexivity|].
  rewrite andb_true_r.
  destruct (own_get registry name) as [entry|] eqn:Hentry.
  - rewrite (own_get_in_keys _ _ _ Hentry). reflexivity.
  - destruct (existsb _ _); reflexivity.
Qed.

(** X6: on a well typed registry the second effect does not throw and
    changes nothing but the cookie [providers], which it sets to the
    serialization of an object that holds, under each provider's name, the
    [settings] of that provider's entry and nothing else of the entry (a
    provider named [__proto__] is left out). *)
Theorem persistProviders_writes_settings (s : State) :
  well_typed_registry (providersStore s) = true ->
  exists ps,
    persistProviders s =
      (Normal tt,
       with_cookies (<["providers" := JSON_stringify (VObj ps)]> (cookies s)) s) /\
    forall name,
      own_get ps name =
      if String.eqb name "__proto__" then None
      else entry_field (providersStore s) name "settings".
Proof.
  intros Htyped.
  destruct (providerSetting_run _ Htyped) as (ps & Hrun & _ & Hps).
  exists ps. split.
  - unfold persistProviders. unfold_monad.
    unfold providerSetting in Hrun. rewrite Hrun. reflexivity.
  - intros name. rewrite Hps.
    destruct (String.eqb name "__proto__"); [reflexivity|].
    unfold entry_field.
    destruct (own_get (providersStore s) name) as [entry|] eqn:Hentry;
      [|reflexivity].
    simpl. assert (Hk : In name (map fst (providersStore s))).
    { apply in_map_iff. clear -Hentry.
      induction (providersStore s) as [|[k0 v0] o IH]; simpl in *; [discriminate|].
      destruct (String.eqb k0 name) eqn:E.
      - apply String.eqb_eq in E. subst k0. exists (name, v0). auto.
      - destruct (IH Hentry) as (kv & Hf & Hi). exists kv. auto. }
    destruct (well_typed_lookup _ _ Htyped Hk) as (entry' & Hentry' & Hwt).
    assert (entry' = entry) as -> by congruence.
    destruct (well_typed_settings entry Hwt) as (_ & settings & Hset & Hown).
    rewrite Hset, Hown. reflexivity.
Qed.

End PersistProviders.

(** The example registry: the cookie holds the settings of the four
    providers, without their names. *)
Lemma persistProviders_writes_settings_witness :
  exists ps,
    cookies (exec (persistProviders (host := Sample.host)) (Sample.page ∅))
      !! "providers" = Some (Platform.json_stringify (VObj ps)) /\
    own_get ps "Anthropic" = Some (VObj [("enabled", VBool false)]) /\
    own_get ps "Together" = None.
Proof.
  destruct (persistProviders_writes_settings (host := Sample.host)
              (Sample.page ∅) eq_refl) as (ps & Hrun & Hps).
  exists ps. unfold exec. rewrite Hrun. simpl.
  split; [apply lookup_insert_eq|].
  split; rewrite Hps; reflexivity.
Defined.

Section SettingsRoundTrip.
Context {host : Host}.

Lemma records_present_object (ps : obj) :
  Forall (fun v => nullish v = false) (map snd ps) ->
  records_present (VObj ps) = true.
Proof.
  intros Hall. unfold records_present. simpl. apply forallb_forall.
  intros [k v] Hin. apply negb_true_iff.
  rewrite List.Forall_forall in Hall. apply Hall.
  apply in_map_iff. exists (k, v). auto.
Qed.

(** X7: the settings of the registry survive a page load.  On a well typed
    registry, when the platform parses back what it serialized, writing
    the registry to its cookie and hydrating a fresh page from that cookie
    gives every provider of the old registry (other than one named
    [__proto__]) the settings it had: each field but [enabled] is as it was,
    and [enabled] is as it was, or [true] when it was absent. *)
Theorem settings_survive_reload (s fresh : State) (ps : obj) :
  well_typed_registry (providersStore s) = true ->
  providerSetting (providersStore s) = Normal ps ->
  JSON_parse (JSON_stringify (VObj ps)) = Some (VObj ps) ->
  JSON_stringify (VObj ps) <> EmptyString ->
  let saved := exec persistProviders s in
  let loaded :=
    exec (hydrateProviders (VObj (providersStore fresh))) (reload saved fresh) in
  forall name,
    name <> "__proto__" ->
    has_own (providersStore s) name = true ->
    (forall f, f <> "enabled" ->
       settings_field (providersStore loaded) name f =
       settings_field (providersStore s) name f) /\
    settings_field (providersStore loaded) name "enabled" =
      Some (nullish_or
              (default VUndefined (settings_field (providersStore s) name "enabled"))
              (VBool true)).
Proof.
  intros Htyped Hps Hlossless Htext saved loaded name Hproto Hown.
  destruct (providerSetting_run _ Htyped) as (ps' & Hrun & Hall & Hlookup).
  assert (ps' = ps) as -> by congruence.
  assert (Hsaved : cookies (reload saved fresh) !! "providers" =
            Some (JSON_stringify (VObj ps))).
  { subst saved. unfold persistProviders, reload. unfold_monad.
    unfold providerSetting in Hps. rewrite Hps. simpl. apply lookup_insert_eq. }
  pose proof (records_present_object ps Hall) as Hrec.
  destruct (hydrateProviders_run (VObj (providersStore fresh)) (reload saved fresh)
              _ _ Hsaved Htext Hlossless Hrec eq_refl)
    as (store & Hhydrate & _ & Hin).
  unfold has_own in Hown.
  destruct (own_get (providersStore s) name) as [entry|] eqn:Hentry;
    [|discriminate].
  assert (Hk : In name (map fst (providersStore s))).
  { apply in_map_iff. clear -Hentry.
    induction (providersStore s) as [|[k0 v0] o IH]; simpl in *; [discriminate|].
    destruct (String.eqb k0 name) eqn:E.
    - apply String.eqb_eq in E. subst k0. exists (name, v0). auto.
    - destruct (IH Hentry) as (kv & Hf & Hi). exists kv. auto. }
  destruct (well_typed_lookup _ _ Htyped Hk) as (entry' & Hentry' & Hwt).
  assert (entry' = entry) as -> by congruence.
  destruct (well_typed_settings entry Hwt) as (_ & settings & Hset & Hfield).
  assert (Hrecord : own_get (own_props (VObj ps)) name = Some (VObj settings)).
  { simpl. rewrite Hlookup. apply String.eqb_neq in Hproto. rewrite Hproto.
    rewrite Hentry. simpl. rewrite Hset. reflexivity. }
  destruct (Hin name _ Hrecord) as (cur & e & _ & He & Hstore).
  assert (Hold : forall f,
            settings_field (providersStore s) name f = own_get settings f).
  { intros f. unfold settings_field, entry_field. rewrite Hentry, Hfield.
    reflexivity. }
  subst loaded. unfold exec. rewrite Hhydrate. simpl.
  unfold settings_field at 1 3. unfold entry_field. rewrite Hstore.
  split.
  - intros f Hf. pose proof (hydratedEntry_settings cur (VObj settings) e f eq_refl He) as Hs.
    destruct (own_get (own_props e) "settings"); [|contradiction].
    rewrite Hs, Hold. destruct (String.eqb "enabled" f) eqn:E; [|reflexivity].
    apply String.eqb_eq in E. congruence.
  - pose proof (hydratedEntry_settings cur (VObj settings) e "enabled" eq_refl He) as Hs.
    destruct (own_get (own_props e) "settings"); [|contradiction].
    rewrite Hs, String.eqb_refl, Hold. reflexivity.
Qed.

End SettingsRoundTrip.

(** The user pointed OpenAI to a proxy; after a page load that starts from
    the default registry, OpenAI points to the proxy again. *)
Lemma settings_survive_reload_witness :
  let saved := exec (persistProviders (host := Sample.host)) Demo.customized in
  let loaded :=
    exec (hydrateProviders (host := Sample.host) (VObj Sample.registry))
         (reload saved (Sample.page ∅)) in
  settings_field Sample.registry "OpenAI" "baseUrl" =
    Some (VStr "https://api.example.test") /\
  settings_field (providersStore loaded) "OpenAI" "baseUrl" =
    Some (VStr "https://proxy.example.test").
Proof.
  split; [reflexivity|].
  pose proof (settings_survive_reload (host := Sample.host) Demo.customized
                (Sample.page ∅) Demo.customized_settings) as H.
  destruct (H ltac:(vm_compute; reflexivity) ltac:(vm_compute; reflexivity)
              ltac:(vm_compute; reflexivity)
              ltac:(intros Hempty; vm_compute in Hempty; discriminate Hempty)
              "OpenAI" ltac:(discriminate) ltac:(vm_compute; reflexivity))
    as [Hfields _].
  refine (eq_trans (Hfields "baseUrl" _) _); [discriminate|].
  vm_compute. reflexivity.
Defined.

(** ** [updateProviderSettings] over several calls *)

Section UpdateComposition.
Context {host : Host}.

Lemma has_own_obj_replace (k : string) (v : value) (o : obj) :
  has_own o k = true -> has_own (obj_replace k v o) k = true.
Proof.
  intros H. unfold has_own. rewrite (own_get_obj_replace k v o k H).
  rewrite String.eqb_refl. reflexivity.
Qed.

Lemma obj_replace_twice (k : string) (v1 v2 : value) (o : obj) :
  obj_replace k v2 (obj_replace k v1 o) = obj_replace k v2 o.
Proof.
  induction o as [|[k0 v0] o IH]; simpl; [reflexivity|].
  destruct (String.eqb k0 k) eqn:E; simpl.
  - rewrite String.eqb_refl. reflexivity.
  - rewrite E, IH. reflexivity.
Qed.

Lemma obj_replace_insert_index (n : N) (k : string) (v1 v2 : value) (o : obj) :
  own_get o k = None ->
  obj_replace k v2 (obj_insert_index n k v1 o) = obj_insert_index n k v2 o.
Proof.
  induction o as [|[k0 v0] o IH]; simpl.
  - intros _. rewrite String.eqb_refl. reflexivity.
  - destruct (String.eqb k0 k) eqn:E; [discriminate|]. intros H.
    destruct (array_index k0) as [m|]; [destruct (m <? n)%N|]; simpl;
      rewrite ?E, ?String.eqb_refl; try reflexivity.
    rewrite (IH H). reflexivity.
Qed.

Lemma obj_replace_app_new (k : string) (v1 v2 : value) (o : obj) :
  own_get o k = None ->
  obj_replace k v2 (o ++ [(k, v1)]) = o ++ [(k, v2)].
Proof.
  induction o as [|[k0 v0] o IH]; simpl.
  - intros _. rewrite String.eqb_refl. reflexivity.
  - destruct (String.eqb k0 k) eqn:E; [discriminate|]. intros H.
    rewrite (IH H). reflexivity.
Qed.

(** Writing a key twice is writing it once, with the second value. *)
Lemma obj_set_twice (k : string) (v1 v2 : value) (o : obj) :
  obj_set k v2 (obj_set k v1 o) = obj_set k v2 o.
Proof.
  assert (Hafter : has_own (obj_set k v1 o) k = true).
  { unfold has_own. rewrite own_get_obj_set_eq. reflexivity. }
  unfold obj_set at 1. rewrite Hafter. unfold obj_set.
  destruct (has_own o k) eqn:Hk.
  - apply obj_replace_twice.
  - assert (Hn : own_get o k = None).
    { unfold has_own in Hk. destruct (own_get o k); [discriminate|reflexivity]. }
    destruct (array_index k) as [n|].
    + apply obj_replace_insert_index. exact Hn.
    + apply obj_replace_app_new. exact Hn.
Qed.

(** Whether the call throws depends on the registry of the render and on
    the name only; when it does not throw, it writes one entry, which
    depends on the registry of the render, the name and the [config]. *)
Lemma updateProviderSettings_cases (providers : value) (name : string) :
  (exists e, forall config s,
     updateProviderSettings providers name config s = (Throw e, s)) \/
  (exists entry before, 
     get providers name = Normal entry /\
     get entry "settings" = Normal before /\
     forall config s,
       updateProviderSettings providers name config s =
       (Normal tt,
        with_providersStore
          (obj_set name
             (VObj (obj_set "settings" (VObj (spread config (spread before [])))
                      (spread entry [])))
             (providersStore s)) s)).
Proof.
  unfold updateProviderSettings. unfold_monad.
  destruct (get providers name) as [entry|e]; [|left; eauto].
  destruct (get entry "settings") as [before|e] eqn:Hbefore; [|left; eauto].
  right. exists entry, before.
  split; [reflexivity|]. split; [exact Hbefore|]. intros. reflexivity.
Qed.

(** X8: two calls of [updateProviderSettings] for the same provider that
    come from the same render do not add up: the second call starts from
    the settings the render read, so the state after both is the state
    after the second alone, and what the first call changed is lost. *)
Theorem updateProviderSettings_same_render (providers : value) (name : string)
    (config1 config2 : value) (s : State) :
  (updateProviderSettings providers name config1 ;;
   updateProviderSettings providers name config2) s =
  updateProviderSettings providers name config2 s.
Proof.
  unfold mbind, M_bind.
  destruct (updateProviderSettings_cases providers name)
    as [(e & Hthrow)|(entry & before & _ & _ & Hrun)].
  - rewrite !Hthrow. reflexivity.
  - rewrite !Hrun. simpl. rewrite obj_set_twice. reflexivity.
Qed.

(** The call for a name the registry holds, with the settings it starts
    from. *)
Lemma updateProviderSettings_run (s : State) (name : string)
    (entry config : value) :
  own_get (providersStore s) name = Some entry ->
  nullish entry = false ->
  updateProviderSettings (VObj (providersStore s)) name config s =
  (Normal tt,
   with_providersStore
     (obj_set name
        (VObj (obj_set "settings"
                 (VObj (spread config (spread (settings_of entry) [])))
                 (spread entry [])))
        (providersStore s)) s).
Proof.
  intros Hentry Hn. unfold updateProviderSettings. unfold_monad.
  rewrite (get_own (VObj (providersStore s)) name entry eq_refl Hentry).
  rewrite (get_settings entry Hn). reflexivity.
Qed.

(** X9: two calls with a render in between do add up.  For a name the
    registry holds, a settings field is afterwards what the second [config]
    gives it, else what the first gives it, else what it was. *)
Theorem updateProviderSettings_next_render (s : State) (name : string)
    (entry config1 config2 : value) :
  own_get (providersStore s) name = Some entry ->
  nullish entry = false ->
  let s1 := exec (updateProviderSettings (VObj (providersStore s)) name config1) s in
  let s2 := exec (updateProviderSettings (VObj (providersStore s1)) name config2) s1 in
  completes (updateProviderSettings (VObj (providersStore s1)) name config2) s1
    = Normal tt /\
  forall f,
    settings_field (providersStore s2) name f =
    match own_get (own_props config2) f with
    | Some v => Some v
    | None =>
        match own_get (own_props config1) f with
        | Some v => Some v
        | None => own_get (own_props (settings_of entry)) f
        end
    end.
Proof.
  intros Hentry Hn s1 s2.
  pose proof (updateProviderSettings_run s name entry config1 Hentry Hn) as Hrun1.
  assert (Hs1 : s1 = snd (updateProviderSettings (VObj (providersStore s)) name config1 s))
    by reflexivity.
  rewrite Hrun1 in Hs1. simpl in Hs1.
  set (entry1 := VObj (obj_set "settings"
                         (VObj (spread config1 (spread (settings_of entry) [])))
                         (spread entry []))) in *.
  assert (Hentry1 : own_get (providersStore s1) name = Some entry1).
  { rewrite Hs1. simpl. apply own_get_obj_set_eq. }
  pose proof (updateProviderSettings_run s1 name entry1 config2 Hentry1 eq_refl)
    as Hrun2.
  subst s2. unfold exec, completes. rewrite Hrun2. simpl.
  split; [reflexivity|]. intros f.
  unfold settings_field, entry_field. rewrite own_get_obj_set_eq. simpl.
  rewrite own_get_obj_set_eq. simpl.
  rewrite own_get_spread, own_get_spread_empty.
  destruct (own_get (own_props config2) f); [reflexivity|].
  unfold settings_of at 1. subst entry1. simpl. rewrite own_get_obj_set_eq. simpl.
  rewrite own_get_spread, own_get_spread_empty. reflexivity.
Qed.

End UpdateComposition.

(** OpenAI gets a proxy, then, after a render, is disabled: both changes
    stand. *)
Lemma updateProviderSettings_next_render_witness :
  let s1 := Demo.customized in
  let s2 := exec (updateProviderSettings (VObj (providersStore s1)) "OpenAI"
                    (VObj [("enabled", VBool false)])) s1 in
  settings_field (providersStore s2) "OpenAI" "baseUrl" =
    Some (VStr "https://proxy.example.test") /\
  settings_field (providersStore s2) "OpenAI" "enabled" = Some (VBool false).
Proof.
  destruct (updateProviderSettings_next_render (Sample.page ∅) "OpenAI"
              (VObj [("name", VStr "OpenAI");
                     ("settings",
                      VObj [("enabled", VBool true);
                            ("baseUrl", VStr "https://api.example.test")])])
              (VObj [("baseUrl", VStr "https://proxy.example.test")])
              (VObj [("enabled", VBool false)])
              eq_refl eq_refl) as [_ Hfields].
  split.
  - refine (eq_trans (Hfields "baseUrl") _). reflexivity.
  - refine (eq_trans (Hfields "enabled") _). reflexivity.
Defined.

(** ** The active providers as the registry changes *)

Section ActiveComposition.
Context {host : Host}.

(** The list the third effect computes on a well typed registry. *)
Lemma computeActive_typed (providers : obj) (isLocalModel : bool) :
  well_typed_registry providers = true ->
  computeActive providers isLocalModel =
  Normal
    (map snd
       (List.filter
          (fun kv => enabled_is_true (snd kv)
                     && (isLocalModel || negb (is_local (snd kv))))
          (entries providers))).
Proof.
  intros Htyped. unfold well_typed_registry in Htyped.
  rewrite forallb_forall in Htyped.
  unfold computeActive.
  rewrite (filterC_total isEnabled (fun kv => enabled_is_true (snd kv))).
  - destruct isLocalModel; simpl.
    + f_equal. f_equal. apply List.filter_ext. intros kv.
      rewrite andb_true_r. reflexivity.
    + rewrite (filterC_total notLocal (fun p => negb (is_local p))).
      * rewrite filter_map_snd. reflexivity.
      * intros p Hp. apply in_map_iff in Hp as (kv & <- & Hkv).
        apply List.filter_In in Hkv as [Hkv _].
        specialize (Htyped kv Hkv). unfold well_typed_entry in Htyped.
        destruct (snd kv); try discriminate. apply notLocal_object.
  - intros kv Hkv. apply isEnabled_well_typed. apply Htyped. exact Hkv.
Qed.

Lemma in_keys_of_lookup (o : obj) (k : string) (v : value) :
  own_get o k = Some v -> In k (map fst o).
Proof.
  induction o as [|[k0 v0] o IH]; simpl; [discriminate|].
  destruct (String.eqb k0 k) eqn:E.
  - apply String.eqb_eq in E. auto.
  - auto.
Qed.

(** Filtering the entries of a registry in which one name was overwritten
    by an entry that fails the test. *)
Lemma filter_entries_overwritten (P : string * value -> bool) (name : string)
    (e' : value) (old new : obj) (ks : list string) :
  (forall k, own_get new k = if String.eqb name k then Some e' else own_get old k) ->
  P (name, e') = false ->
  List.filter P (map (fun k => (k, default VUndefined (own_get new k))) ks) =
  List.filter (fun kv => negb (String.eqb (fst kv) name) && P kv)
    (map (fun k => (k, default VUndefined (own_get old k))) ks).
Proof.
  intros Hnew Hfail. induction ks as [|k ks IH]; simpl; [reflexivity|].
  rewrite Hnew. destruct (String.eqb name k) eqn:E.
  - apply String.eqb_eq in E. subst k. simpl. rewrite Hfail.
    rewrite String.eqb_refl. simpl. exact IH.
  - rewrite String.eqb_sym, E. simpl.
    destruct (P (k, default VUndefined (own_get old k))); rewrite IH; reflexivity.
Qed.

(** X10: disabling a provider takes it, and nothing else, off the active
    list.  On a well typed registry that holds [name], after
    [updateProviderSettings(name, config)] with [config.enabled] being
    [false], the list computed from the new registry is the list computed
    from the old one without the entry stored under [name]. *)
Theorem disabling_removes_from_active (s : State) (name : string)
    (config : value) (isLocalModel : bool) :
  well_typed_registry (providersStore s) = true ->
  has_own (providersStore s) name = true ->
  own_get (own_props config) "enabled" = Some (VBool false) ->
  let s' := exec (updateProviderSettings (VObj (providersStore s)) name config) s in
  computeActive (providersStore s') isLocalModel =
  Normal
    (map snd
       (List.filter
          (fun kv => negb (String.eqb (fst kv) name)
                     && (enabled_is_true (snd kv)
                         && (isLocalModel || negb (is_local (snd kv)))))
          (entries (providersStore s)))).
Proof.
  intros Htyped Hown Hconfig s'.
  unfold has_own in Hown.
  destruct (own_get (providersStore s) name) as [entry|] eqn:Hentry;
    [|discriminate].
  destruct (well_typed_lookup _ _ Htyped (in_keys_of_lookup _ _ _ Hentry))
    as (entry0 & Hentry0 & Hwt).
  assert (entry0 = entry) as -> by congruence.
  destruct (well_typed_settings entry Hwt) as (Hn & settings & Hset & _).
  pose proof (updateProviderSettings_run s name entry config Hentry Hn) as Hrun.
  set (e' := VObj (obj_set "settings"
                     (VObj (spread config (spread (settings_of entry) [])))
                     (spread entry []))) in *.
  assert (Hs' : providersStore s' = obj_set name e' (providersStore s)).
  { subst s'. unfold exec. rewrite Hrun. reflexivity. }
  assert (Hlookup : forall k,
            own_get (providersStore s') k =
            if String.eqb name k then Some e' else own_get (providersStore s) k).
  { intros k. rewrite Hs'. apply own_get_obj_set. }
  assert (Hkeys : map fst (providersStore s') = map fst (providersStore s)).
  { rewrite Hs'. unfold obj_set, has_own. rewrite Hentry. apply keys_obj_replace. }
  assert (Henabled : own_get (spread config (spread (settings_of entry) [])) "enabled"
                     = Some (VBool false)).
  { rewrite own_get_spread, Hconfig. reflexivity. }
  assert (He'typed : well_typed_entry e' = true).
  { subst e'. unfold well_typed_entry. rewrite own_get_obj_set_eq, Henabled.
    reflexivity. }
  assert (He'off : enabled_is_true e' = false).
  { subst e'. unfold enabled_is_true. simpl. rewrite own_get_obj_set_eq. simpl.
    rewrite Henabled. reflexivity. }
  assert (Htyped' : well_typed_registry (providersStore s') = true).
  { unfold well_typed_registry, entries. rewrite Hkeys. apply forallb_forall.
    intros kv Hkv. apply in_map_iff in Hkv as (k & <- & Hk). simpl.
    rewrite Hlookup. destruct (String.eqb name k); [exact He'typed|].
    destruct (well_typed_lookup _ _ Htyped Hk) as (v & -> & Hv). exact Hv. }
  rewrite (computeActive_typed _ _ Htyped'). f_equal. f_equal.
  unfold entries. rewrite Hkeys.
  apply (filter_entries_overwritten _ name e' _ _ _ Hlookup).
  simpl. rewrite He'off. reflexivity.
Qed.

Lemma filterC_sublist {A : Type} (p : A -> completion bool) (l r : list A) :
  filterC p l = Normal r -> sublist r l.
Proof.
  revert r. induction l as [|x l IH]; simpl; intros r H.
  - injection H as <-. constructor.
  - destruct (p x) as [b|]; [|discriminate].
    destruct (filterC p l) as [r'|]; [|discriminate].
    injection H as <-. destruct b.
    + constructor. apply IH. reflexivity.
    + constructor. apply IH. reflexivity.
Qed.

(** X11: the active list is a sub-sequence of the registry's entries, in
    the registry's order; and the list computed with the local-models
    preference off is a sub-sequence of the list computed with it on:
    turning the preference off only ever removes providers. *)
Theorem active_list_sublists (providers : obj) (wide narrow : list value) :
  computeActive providers true = Normal wide ->
  computeActive providers false = Normal narrow ->
  sublist narrow wide /\ sublist wide (map snd (entries providers)).
Proof.
  unfold computeActive.
  destruct (filterC isEnabled (entries providers)) as [enabled|] eqn:Hfirst;
    [|discriminate].
  simpl. intros Hwide Hnarrow. injection Hwide as <-.
  split.
  - apply (filterC_sublist _ _ _ Hnarrow).
  - apply (fmap_sublist snd). apply (filterC_sublist _ _ _ Hfirst).
Qed.

End ActiveComposition.

(** Ollama, the enabled local provider of the example registry, is
    disabled: the list with the preference on goes from OpenAI and Ollama
    to OpenAI alone. *)
Lemma disabling_removes_from_active_witness :
  let s := Sample.page ∅ in
  let s' := exec (updateProviderSettings (VObj (providersStore s)) "Ollama"
                    (VObj [("enabled", VBool false)])) s in
  map (fun p => get p "name")
    (match computeActive (host := Sample.host) (providersStore s') true with
     | Normal l => l
     | Throw _ => []
     end) = [Normal (VStr "OpenAI")].
Proof.
  cbv zeta.
  rewrite (disabling_removes_from_active (host := Sample.host) (Sample.page ∅)
             "Ollama" (VObj [("enabled", VBool false)]) true
             eq_refl eq_refl eq_refl).
  vm_compute. reflexivity.
Defined.

(** The example registry: the list without local providers is within the
    list with them, which is within the registry. *)
Lemma active_list_sublists_witness :
  sublist
    [VObj [("name", VStr "OpenAI");
           ("settings",
            VObj [("enabled", VBool true);
                  ("baseUrl", VStr "https://api.example.test")])]]
    [VObj [("name", VStr "OpenAI");
           ("settings",
            VObj [("enabled", VBool true);
                  ("baseUrl", VStr "https://api.example.test")])];
     VObj [("name", VStr "Ollama"); ("settings", VObj [("enabled", VBool true)])]].
Proof.
  exact (proj1 (active_list_sublists (host := Sample.host) Sample.registry
                  _ _ eq_refl eq_refl)).
Defined.

(** ** A payload with a null record *)

Section NullRecord.
Context {host : Host}.

Lemma forEach_app {A : Type} (f : A -> M unit) (l1 l2 : list A) (s : State) :
  forEach f (l1 ++ l2) s =
  match forEach f l1 s with
  | (Normal _, s1) => forEach f l2 s1
  | (Throw e, s1) => (Throw e, s1)
  end.
Proof.
  revert s. induction l1 as [|x l1 IH]; intros s; simpl; [reflexivity|].
  unfold mbind, M_bind. destruct (f x s) as [[[]|e] s1]; [apply IH | reflexivity].
Qed.

(** X12: hydration is not all or nothing.  When the payload parses but one
    of its records is [null], the providers listed before that record are
    hydrated, the loop stops at the null record with a [TypeError] that is
    caught and logged, and every other provider, the ones listed after it
    included, stays as it was. *)
Theorem hydration_stops_at_null_record (s : State) (text : string)
    (before after : obj) (name : string) :
  cookies s !! "providers" = Some text ->
  text <> EmptyString ->
  JSON_parse text = Some (VObj (before ++ (name, VNull) :: after)) ->
  records_present (VObj before) = true ->
  own_get before name = None ->
  let s' := exec (hydrateProviders (VObj (providersStore s))) s in
  completes (hydrateProviders (VObj (providersStore s))) s = Normal tt /\
  console s' =
    console s ++
    [ConsoleError "Failed to parse providers from cookies:" (Some TypeError)] /\
  (forall k persisted f,
     own_get before k = Some persisted ->
     settings_field (providersStore s') k f =
     if String.eqb "enabled" f
     then Some (nullish_or
                  (default VUndefined (own_get (own_props persisted) "enabled"))
                  (VBool true))
     else own_get (own_props persisted) f) /\
  (forall k, own_get before k = None ->
     own_get (providersStore s') k = own_get (providersStore s) k).
Proof.
  intros Hcookie Htext Hparse Hrec Hname s'.
  set (parsed := VObj (before ++ (name, VNull) :: after)) in *.
  set (providers := VObj (providersStore s)) in *.
  destruct (records_present_spec _ Hrec) as [_ Hkeys]. simpl in Hkeys.
  assert (Hlookup : forall k per, own_get before k = Some per ->
            get parsed k = Normal per).
  { intros k per Hper. apply get_own; [reflexivity|].
    simpl. rewrite own_get_app, Hper. reflexivity. }
  assert (Hall : forall k, In k (map fst before) ->
            exists cur per e, get providers k = Normal cur /\
              get parsed k = Normal per /\ hydratedEntry cur per = Normal e).
  { intros k Hk. destruct (Hkeys k Hk) as (per & Hper & Hpn).
    unfold get at 1. simpl. eexists. exists per. eexists.
    split; [reflexivity|]. split; [apply Hlookup; exact Hper|].
    apply hydratedEntry_present. exact Hpn. }
  destruct (forEach_hydrate_run providers parsed (map fst before) s Hall)
    as (store & Hrun & Hother & Hin).
  assert (Hnull : get parsed name = Normal VNull).
  { apply get_own; [reflexivity|]. simpl.
    rewrite own_get_app, Hname. simpl. rewrite String.eqb_refl. reflexivity. }
  assert (Hloop : forEach (hydrateProvider providers parsed)
                    (map fst (own_props parsed)) s =
                  (Throw TypeError, with_providersStore store s)).
  { assert (Hks : map fst (own_props parsed) =
                    map fst before ++ name :: map fst after).
    { unfold parsed. simpl. rewrite map_app. reflexivity. }
    assert (Hstep : forall st,
              hydrateProvider providers parsed name st = (Throw TypeError, st)).
    { intros st. unfold hydrateProvider. unfold_monad.
      assert (Hcur : exists cur, get providers name = Normal cur)
        by (unfold get; simpl; eauto).
      destruct Hcur as (cur & ->). rewrite Hnull. reflexivity. }
    rewrite Hks, forEach_app, Hrun. cbn [forEach].
    unfold mbind, M_bind. rewrite Hstep. reflexivity. }
  assert (Hfinal : hydrateProviders providers s =
            (Normal tt,
             with_console
               (console s ++
                [ConsoleError "Failed to parse providers from cookies:"
                   (Some TypeError)])
               (with_providersStore store s))).
  { unfold hydrateProviders. unfold_monad.
    rewrite Hcookie, (truthy_str_nonempty _ Htext). simpl.
    rewrite Hparse. fold parsed. unfold keys. simpl nullish. cbv iota.
    rewrite Hloop. reflexivity. }
  subst s'. unfold exec, completes. rewrite Hfinal. simpl.
  split; [reflexivity|]. split; [reflexivity|]. split.
  - intros k persisted f Hper.
    assert (Hk : In k (map fst before)) by (eapply in_keys_of_lookup; eauto).
    destruct (Hall k Hk) as (cur & per & e & Hc & Hp & He).
    assert (per = persisted) as ->.
    { rewrite (Hlookup k persisted Hper) in Hp. congruence. }
    pose proof (record_not_nullish _ _ _ Hrec Hper) as Hn.
    unfold settings_field, entry_field. rewrite (Hin k cur persisted e Hk Hc Hp He).
    pose proof (hydratedEntry_settings cur persisted e f Hn He) as Hs.
    destruct (own_get (own_props e) "settings"); [|contradiction].
    exact Hs.
  - intros k Hk. apply Hother. intros Hin'.
    destruct (own_key_lookup _ _ Hin') as (v & Hv & _). congruence.
Qed.

End NullRecord.

(** OpenAI, listed before the null record, is disabled by the hydration;
    Ollama, listed after it, stays enabled. *)
Lemma hydration_stops_at_null_record_witness :
  let s := Sample.page {[ "providers" := Demo.null_record ]} in
  let s' := exec (hydrateProviders (host := Sample.host) (VObj (providersStore s))) s in
  length (console s') = 1 /\
  settings_field (providersStore s') "OpenAI" "enabled" = Some (VBool false) /\
  own_get (providersStore s') "Ollama" = own_get Sample.registry "Ollama".
Proof.
  destruct (hydration_stops_at_null_record (host := Sample.host)
              (Sample.page {[ "providers" := Demo.null_record ]})
              Demo.null_record
              [("OpenAI", VObj [("enabled", VBool false)])]
              [("Ollama", VObj [("enabled", VBool false)])]
              "Anthropic")
    as (_ & Hlog & Hbefore & Hrest).
  - vm_compute. reflexivity.
  - intros Hempty. vm_compute in Hempty. discriminate Hempty.
  - vm_compute. reflexivity.
  - vm_compute. reflexivity.
  - vm_compute. reflexivity.
  - split; [|split].
    + cbv zeta. rewrite Hlog. reflexivity.
    + exact (Hbefore "OpenAI" (VObj [("enabled", VBool false)]) "enabled" eq_refl).
    + apply Hrest. reflexivity.
Defined.

(** ** [BaseChat]: the API keys *)

Section ApiKeys.
Context {host : Host}.

(** The provider settings are loaded without touching the API keys, and
    without throwing. *)
Lemma loadProviderSettings_frame (s : State) :
  exists v s', loadProviderSettings s = (Normal v, s') /\ apiKeys s' = apiKeys s.
Proof.
  unfold loadProviderSettings. unfold_monad.
  destruct (truthy_str (cookies s !! "providers")); [|eauto].
  destruct (JSON_parse _) as [parsed|]; [|eauto].
  destruct (is_object parsed); eauto.
Qed.

(** The mount of [BaseChat] on a cookie that parses, up to the first
    render: the render reads the parsed value. *)
Lemma mountBaseChatWith_render (providerList : option (list value))
    (provider : option string) (s : State) (text : string) (parsed : value) :
  cookies s !! "apiKeys" = Some text ->
  text <> EmptyString ->
  JSON_parse text = Some parsed ->
  mountBaseChatWith providerList provider s =
  match renderApiKey providerList provider parsed with
  | Normal _ => loadCookies (with_apiKeys parsed s)
  | Throw e => (Throw e, with_apiKeys parsed s)
  end.
Proof.
  intros Hcookie Htext Hparse.
  pose proof (truthy_str_nonempty _ Htext) as Htruthy.
  assert (Hinit : initialApiKeys s = (Normal parsed, s)).
  { unfold initialApiKeys. unfold_monad. rewrite Hcookie, Htruthy. simpl.
    rewrite Hparse. reflexivity. }
  unfold mountBaseChatWith. unfold mbind, M_bind. rewrite Hinit.
  unfold modify, lift.
  destruct (renderApiKey providerList provider parsed); reflexivity.
Qed.

(** The mount effect of [BaseChat] on a cookie that parses, after the
    initializer took the parsed value. *)
Lemma loadCookies_parsed (s : State) (text : string) (parsed : value) :
  cookies s !! "apiKeys" = Some text ->
  text <> EmptyString ->
  JSON_parse text = Some parsed ->
  completes loadCookies (with_apiKeys parsed s) = Normal tt /\
  apiKeys (exec loadCookies (with_apiKeys parsed s)) = parsed.
Proof.
  intros Hcookie Htext Hparse.
  pose proof (truthy_str_nonempty _ Htext) as Htruthy.
  assert (Hload : exists s1, loadApiKeys (with_apiKeys parsed s) = (Normal tt, s1) /\
            apiKeys s1 = parsed).
  { unfold loadApiKeys. unfold_monad. simpl. rewrite Hcookie, Htruthy. simpl.
    rewrite Hparse. destruct (is_object parsed); eexists; split; reflexivity. }
  destruct Hload as (s1 & Hload & Hkeys).
  destruct (loadProviderSettings_frame s1) as (v & s2 & Hsettings & Hkeys2).
  assert (Hrun : loadCookies (with_apiKeys parsed s) =
            (Normal tt, with_modelListCalls (modelListCalls s2 ++ [v]) s2)).
  { unfold loadCookies. unfold mbind, M_bind.
    rewrite Hload, Hsettings. reflexivity. }
  unfold exec, completes. rewrite Hrun. simpl. split; [reflexivity | congruence].
Qed.

(** The mount of [BaseChat] without a provider, on a cookie that parses. *)
Lemma mountBaseChat_parsed (s : State) (text : string) (parsed : value) :
  cookies s !! "apiKeys" = Some text ->
  text <> EmptyString ->
  JSON_parse text = Some parsed ->
  completes mountBaseChat s = Normal tt /\
  apiKeys (exec mountBaseChat s) = parsed.
Proof.
  intros Hcookie Htext Hparse.
  unfold mountBaseChat, exec, completes.
  rewrite (mountBaseChatWith_render None None s text parsed Hcookie Htext Hparse).
  simpl. exact (loadCookies_parsed s text parsed Hcookie Htext Hparse).
Qed.

(** X13: [BaseChat] does not check what the [apiKeys] cookie parses to: the
    initializer of the state takes the parsed value as it is.  For a cookie
    that is not empty and parses: when the component shows the key manager
    (a provider and a provider list that is not empty) and the parsed value
    is [null], the first render throws a [TypeError] on
    [apiKeys[provider.name]] and the mount effect never runs, so no cookie
    is removed and nothing is logged; in every other case the mount does
    not throw and leaves the parsed value in the [apiKeys] state, object or
    not. *)
Theorem api_keys_cookie_not_validated (providerList : option (list value))
    (provider : option string) (s : State) (text : string) (parsed : value) :
  cookies s !! "apiKeys" = Some text ->
  text <> EmptyString ->
  JSON_parse text = Some parsed ->
  let s' := exec (mountBaseChatWith providerList provider) s in
  if showsApiKeyManager providerList provider && nullish parsed
  then completes (mountBaseChatWith providerList provider) s = Throw TypeError /\
       cookies s' = cookies s /\
       console s' = console s
  else completes (mountBaseChatWith providerList provider) s = Normal tt /\
       apiKeys s' = parsed.
Proof.
  intros Hcookie Htext Hparse s'. subst s'. unfold exec, completes.
  rewrite (mountBaseChatWith_render providerList provider s text parsed
             Hcookie Htext Hparse).
  pose proof (loadCookies_parsed s text parsed Hcookie Htext Hparse) as Hload.
  unfold exec, completes in Hload.
  unfold showsApiKeyManager, renderApiKey, shownApiKey, get.
  destruct provider as [providerName|]; simpl; [|exact Hload].
  destruct (0 <? length (default [] providerList))%nat; simpl; [|exact Hload].
  destruct (nullish parsed); simpl; [|exact Hload].
  repeat split; reflexivity.
Qed.

(** X14: [setApiKey] stores the key under the provider's name and keeps
    the keys of the other providers; the key shown for the provider is then
    the key given.  When the platform parses back what it serialized, the
    next mount of [BaseChat] restores the same keys from the cookie. *)
Theorem setApiKey_round_trip (renderedKeys : value) (providerName key : string)
    (s fresh : State) :
  let after := exec (setApiKey renderedKeys providerName key) s in
  JSON_parse (JSON_stringify (apiKeys after)) = Some (apiKeys after) ->
  JSON_stringify (apiKeys after) <> EmptyString ->
  shownApiKey (apiKeys after) providerName = Normal (VStr key) /\
  (forall other, other <> providerName ->
     own_get (own_props (apiKeys after)) other =
     own_get (own_props renderedKeys) other) /\
  cookies after !! "apiKeys" = Some (JSON_stringify (apiKeys after)) /\
  apiKeys (exec mountBaseChat (reload after fresh)) = apiKeys after.
Proof.
  intros after Hlossless Htext.
  assert (Hkeys : apiKeys after =
            VObj (obj_set providerName (VStr key) (spread renderedKeys [])))
    by reflexivity.
  assert (Hcookie : cookies after !! "apiKeys" =
            Some (JSON_stringify (apiKeys after))).
  { rewrite Hkeys. subst after. unfold setApiKey. unfold_monad. simpl.
    apply lookup_insert_eq. }
  split; [|split; [|split]].
  - rewrite Hkeys. unfold shownApiKey, get. simpl.
    rewrite own_get_obj_set_eq. simpl.
    destruct (String.eqb key EmptyString) eqn:E; simpl; [|reflexivity].
    apply String.eqb_eq in E. subst key. reflexivity.
  - intros other Hother. rewrite Hkeys. simpl.
    rewrite own_get_obj_set_ne by congruence. apply own_get_spread_empty.
  - exact Hcookie.
  - apply (mountBaseChat_parsed (reload after fresh) _ _ Hcookie Htext Hlossless).
Qed.

End ApiKeys.

(** The cookie holds the text [null].  Rendered with the provider OpenAI
    out of a list of providers, the component throws on its first render
    and the cookie stays; rendered without a provider, it mounts with
    [null] for API keys. *)
Lemma api_keys_cookie_not_validated_witness :
  let s := Sample.page {[ "apiKeys" := "null" ]} in
  let shown := mountBaseChatWith (host := Sample.host)
                 (Some (map snd Sample.registry)) (Some "OpenAI") in
  let hidden := mountBaseChatWith (host := Sample.host) None None in
  (completes shown s = Throw TypeError /\
   cookies (exec shown s) !! "apiKeys" = Some "null") /\
  (completes hidden s = Normal tt /\ apiKeys (exec hidden s) = VNull).
Proof.
  split.
  - pose proof (api_keys_cookie_not_validated (host := Sample.host)
                  (Some (map snd Sample.registry)) (Some "OpenAI")
                  (Sample.page {[ "apiKeys" := "null" ]}) "null" VNull) as H.
    destruct H as (Hthrow & Hjar & _).
    + vm_compute. reflexivity.
    + discriminate.
    + vm_compute. reflexivity.
    + split; [exact Hthrow|]. cbv zeta. rewrite Hjar. vm_compute. reflexivity.
  - apply (api_keys_cookie_not_validated (host := Sample.host) None None
             (Sample.page {[ "apiKeys" := "null" ]}) "null" VNull).
    + vm_compute. reflexivity.
    + discriminate.
    + vm_compute. reflexivity.
Defined.

(** A key for OpenAI, entered on a page without keys, is there after the
    next mount. *)
Lemma setApiKey_round_trip_witness :
  let after := exec (setApiKey (host := Sample.host) (VObj []) "OpenAI" "sk-test")
                 (Sample.page ∅) in
  shownApiKey
    (apiKeys (exec (mountBaseChat (host := Sample.host))
                (reload after (Sample.page ∅)))) "OpenAI" =
  Normal (VStr "sk-test").
Proof.
  pose proof (setApiKey_round_trip (host := Sample.host) (VObj []) "OpenAI"
                "sk-test" (Sample.page ∅) (Sample.page ∅)) as H.
  destruct H as (Hshown & _ & _ & Hrestored).
  - vm_compute. reflexivity.
  - intros Hempty. vm_compute in Hempty. discriminate Hempty.
  - cbv zeta. rewrite Hrestored. exact Hshown.
Defined.

(** ** [BaseChat]: removing an attachment *)

Section Attachments.

Lemma filter_index_all {A : Type} (p : nat -> bool) (off : nat) (l : list A) :
  (forall i, off <= i < off + length l -> p i = true) ->
  filter_index p off l = l.
Proof.
  revert off. induction l as [|x l IH]; intros off Hp; simpl; [reflexivity|].
  rewrite Hp by (simpl; lia). f_equal. apply IH.
  intros i Hi. apply Hp. simpl. lia.
Qed.

Lemma removeAt_offset {A : Type} (index : Z) (off : nat) (l : list A) :
  ((Z.of_nat off <= index < Z.of_nat (off + length l))%Z ->
   filter_index (fun i => negb (Z.of_nat i =? index)%Z) off l =
   take (Z.to_nat index - off) l ++ drop (S (Z.to_nat index - off)) l) /\
  (~ (Z.of_nat off <= index < Z.of_nat (off + length l))%Z ->
   filter_index (fun i => negb (Z.of_nat i =? index)%Z) off l = l).
Proof.
  revert off. induction l as [|x l IH]; intros off.
  - split; intros H; [simpl in H; lia | reflexivity].
  - cbn [filter_index length].
    destruct (Z.eqb_spec (Z.of_nat off) index) as [Heq|Hne]; cbn [negb].
    + split; intros H; [|lia].
      assert (Hz : Z.to_nat index - off = 0) by lia. rewrite Hz.
      cbn [take drop app]. rewrite drop_0.
      apply filter_index_all. intros i Hi.
      apply negb_true_iff. apply Z.eqb_neq. lia.
    + destruct (IH (S off)) as [Hin Hout]. split; intros H.
      * assert (Hs : Z.to_nat index - off = S (Z.to_nat index - S off)) by lia.
        rewrite Hs. cbn [take drop app]. f_equal. apply Hin. lia.
      * f_equal. apply Hout. lia.
Qed.

(** X15: removing the attachment at [index] removes that one element and
    keeps the others in order when [index] is a position of the list, and
    changes nothing for any other index (negative, or past the end). *)
Theorem removeAt_exact {A : Type} (index : Z) (l : list A) :
  removeAt index l =
  if ((0 <=? index) && (index <? Z.of_nat (length l)))%Z
  then take (Z.to_nat index) l ++ drop (S (Z.to_nat index)) l
  else l.
Proof.
  unfold removeAt. destruct (removeAt_offset index 0 l) as [Hin Hout].
  rewrite Nat.sub_0_r in Hin.
  destruct (0 <=? index)%Z eqn:E1; destruct (index <? Z.of_nat (length l))%Z eqn:E2;
    simpl.
  - apply Hin. apply Z.leb_le in E1. apply Z.ltb_lt in E2. simpl. lia.
  - apply Hout. apply Z.ltb_ge in E2. simpl. lia.
  - apply Hout. apply Z.leb_gt in E1. simpl. lia.
  - apply Hout. apply Z.leb_gt in E1. simpl. lia.
Qed.

Lemma filter_index_combine {A B : Type} (p : nat -> bool) (off : nat)
    (l1 : list A) (l2 : list B) :
  combine (filter_index p off l1) (filter_index p off l2) =
  filter_index p off (combine l1 l2).
Proof.
  revert off l2. induction l1 as [|x l1 IH]; intros off l2; simpl; [reflexivity|].
  destruct l2 as [|y l2]; simpl.
  - destruct (p off); [reflexivity|]. apply combine_nil.
  - destruct (p off); simpl; rewrite IH; reflexivity.
Qed.

Lemma filter_index_length {A B : Type} (p : nat -> bool) (off : nat)
    (l1 : list A) (l2 : list B) :
  length l1 = length l2 ->
  length (filter_index p off l1) = length (filter_index p off l2).
Proof.
  revert off l2. induction l1 as [|x l1 IH]; intros off [|y l2] H; simpl in *;
    try discriminate; [reflexivity|].
  injection H as H. destruct (p off); simpl; rewrite (IH (S off) l2 H); reflexivity.
Qed.

(** X16: [onRemove] keeps the files and their previews paired.  The two
    lists it hands to the setters, zipped, are the zip of the lists of the
    render with the pair at [index] removed; lists of equal length stay of
    equal length. *)
Theorem onRemove_keeps_pairs {File : Type} (uploadedFiles : list File)
    (imageDataList : list string) (index : Z) :
  let kept := onRemove uploadedFiles imageDataList index in
  combine (fst kept) (snd kept) =
    removeAt index (combine uploadedFiles imageDataList) /\
  (length uploadedFiles = length imageDataList ->
   length (fst kept) = length (snd kept)).
Proof.
  cbv zeta. unfold onRemove, removeAt. simpl. split.
  - apply filter_index_combine.
  - apply filter_index_length.
Qed.

End Attachments.

(** ** Hydrating more than once *)

Section HydrationTwice.
Context {host : Host}.

(** X17: the hydration of the registry is idempotent.  Every component
    that uses the hook runs the first effect on its mount; a second run,
    from the same cookie and on the registry the first run left, does not
    throw and leaves every field of every entry as the first run left it. *)
Theorem hydration_idempotent (s : State) (text : string) (parsed : value) :
  cookies s !! "providers" = Some text ->
  text <> EmptyString ->
  JSON_parse text = Some parsed ->
  records_present parsed = true ->
  let s1 := exec (hydrateProviders (VObj (providersStore s))) s in
  let s2 := exec (hydrateProviders (VObj (providersStore s1))) s1 in
  completes (hydrateProviders (VObj (providersStore s1))) s1 = Normal tt /\
  forall name f,
    entry_field (providersStore s2) name f =
    entry_field (providersStore s1) name f.
Proof.
  intros Hcookie Htext Hparse Hrec s1 s2.
  destruct (hydrateProviders_run (VObj (providersStore s)) s text parsed
              Hcookie Htext Hparse Hrec eq_refl) as (store1 & Hrun1 & _ & Hin1).
  assert (Hs1 : s1 = with_providersStore store1 s).
  { subst s1. unfold exec. rewrite Hrun1. reflexivity. }
  assert (Hcookie1 : cookies s1 !! "providers" = Some text)
    by (rewrite Hs1; exact Hcookie).
  destruct (hydrateProviders_run (VObj (providersStore s1)) s1 text parsed
              Hcookie1 Htext Hparse Hrec eq_refl)
    as (store2 & Hrun2 & Hother2 & Hin2).
  subst s2. unfold exec, completes. rewrite Hrun2. simpl.
  split; [reflexivity|]. intros name f. unfold entry_field.
  destruct (own_get (own_props parsed) name) as [per|] eqn:Hper.
  - destruct (Hin1 name per Hper) as (cur1 & e1 & _ & He1 & Hstore1).
    destruct (Hin2 name per Hper) as (cur2 & e2 & Hcur2 & He2 & Hstore2).
    assert (Hentry1 : own_get (providersStore s1) name = Some e1)
      by (rewrite Hs1; exact Hstore1).
    assert (cur2 = e1) as ->.
    { rewrite (get_own (VObj (providersStore s1)) name e1 eq_refl Hentry1) in Hcur2.
      congruence. }
    rewrite Hstore2, Hentry1.
    pose proof (record_not_nullish _ _ _ Hrec Hper) as Hn.
    rewrite (hydratedEntry_present cur1 per Hn) in He1.
    rewrite (hydratedEntry_present e1 per Hn) in He2.
    injection He1 as <-. injection He2 as <-. simpl.
    rewrite !own_get_obj_set.
    destruct (String.eqb "settings" f) eqn:E; [reflexivity|].
    rewrite own_get_spread_empty. simpl. rewrite own_get_obj_set, E. reflexivity.
  - rewrite (Hother2 name Hper). reflexivity.
Qed.

End HydrationTwice.

(** The cookie that disables OpenAI, hydrated twice: OpenAI keeps its name
    and stays disabled. *)
Lemma hydration_idempotent_witness :
  let s := Sample.page {[ "providers" := Sample.openai_disabled ]} in
  let s1 := exec (hydrateProviders (host := Sample.host) (VObj (providersStore s))) s in
  let s2 := exec (hydrateProviders (host := Sample.host) (VObj (providersStore s1))) s1 in
  entry_field (providersStore s2) "OpenAI" "name" = Some (VStr "OpenAI") /\
  entry_field (providersStore s2) "OpenAI" "settings" =
    Some (VObj [("enabled", VBool false)]).
Proof.
  pose proof (hydration_idempotent (host := Sample.host)
                (Sample.page {[ "providers" := Sample.openai_disabled ]})
                Sample.openai_disabled
                (VObj [("OpenAI", VObj [("enabled", VBool false)])])) as H.
  destruct H as (_ & Hsame).
  - vm_compute. reflexivity.
  - intros Hempty. vm_compute in Hempty. discriminate Hempty.
  - vm_compute. reflexivity.
  - vm_compute. reflexivity.
  - split.
    + refine (eq_trans (Hsame "OpenAI" "name") _). vm_compute. reflexivity.
    + refine (eq_trans (Hsame "OpenAI" "settings") _). vm_compute. reflexivity.
Defined.
